(** * Verification of the agent-skill scripts

    A shallow embedding of the decision logic of

    - [shared/skills/convert-to-markdown/scripts/convert.py]
    - [shared/skills/generate-image/scripts/generate.py]
    - [shared/skills/confluence-datacenter/scripts/confluence.py]
    - [shared/skills/google-workspace-convert/scripts/convert.py]

    Python values are modelled as follows: a [str] is its list of Unicode
    code points, an optional argument is an [option], a dict is a [gmap], a
    set is a [gset], an [int] is a [Z], and the one [float] computation of
    the scripts ([text_len * 1.2]) is carried out in binary64 with
    round-to-nearest-even.  Code that talks to the outside world (sub-processes,
    HTTP, the file system, the converters) lives in a small state-and-error
    monad: the state is the trace of the external calls issued so far, the
    answers of the outside world come from an environment record. *)

From Stdlib Require Import ZArith NArith List String Ascii Lia Bool DecimalString.
From Corelib Require Import SpecFloat.
From stdpp Require Import base option list gmap strings.

Set Warnings "-register-all".

Local Open Scope Z_scope.

(* ===================================================================== *)
(** * Python values *)
(* ===================================================================== *)

Module Py.

(** A Python [str]: the sequence of its code points. *)
Abbreviation str := (list N).

Definition of_string (s : string) : str :=
  map N_of_ascii (list_ascii_of_string s).

(** [len(s)] *)
Definition len (s : str) : Z := Z.of_nat (length s).

(** Truth value of an optional string: [None] and [""] are falsy. *)
Definition truthy (s : option str) : bool :=
  match s with
  | Some (_ :: _) => true
  | _ => false
  end.

(** [x or d] for an optional string. *)
Definition or_else (s : option str) (d : str) : str :=
  match s with
  | Some (c :: r) => c :: r
  | _ => d
  end.

(** [Py_UNICODE_ISSPACE]: the code points [str.strip()] removes. *)
Definition isspace (c : N) : bool :=
  (((9 <=? c) && (c <=? 13)) || ((28 <=? c) && (c <=? 32))
   || (c =? 133) || (c =? 160) || (c =? 5760)
   || ((8192 <=? c) && (c <=? 8202))
   || (c =? 8232) || (c =? 8233) || (c =? 8239) || (c =? 8287)
   || (c =? 12288))%N.

Fixpoint lstrip (s : str) : str :=
  match s with
  | c :: r => if isspace c then lstrip r else s
  | [] => []
  end.

Definition rstrip (s : str) : str := rev (lstrip (rev s)).

(** [s.strip()] *)
Definition strip (s : str) : str := rstrip (lstrip s).

(** [s.startswith(p)], returning what follows the prefix. *)
Fixpoint strip_prefix (p s : str) : option str :=
  match p, s with
  | [], _ => Some s
  | a :: p', b :: s' => if (a =? b)%N then strip_prefix p' s' else None
  | _ :: _, [] => None
  end.

Definition startswith (s p : str) : bool :=
  match strip_prefix p s with Some _ => true | None => false end.

(** [p in s] for strings: [p] occurs in [s] as a contiguous block. *)
Fixpoint contains (s p : str) : bool :=
  startswith s p ||
  match s with
  | [] => false
  | _ :: s' => contains s' p
  end.

(** ** Floats

    A finite non-negative binary64 number is [mant * 2 ^ expo].  Lengths are
    below [2 ^ 63], so neither overflow nor subnormal numbers occur in the
    product [text_len * 1.2], and the exponent range is left out. *)
Module Float.

Record t := mk { mant : Z; expo : Z }.

(** Rounding of the exact value [m * 2 ^ e] to 53 significant bits, ties to
    even. *)
Definition round (m e : Z) : t :=
  if m <? 2 ^ 53 then mk m e
  else
    let s := Z.log2 m - 52 in
    let q := Z.shiftr m s in
    let r := m mod 2 ^ s in
    let half := 2 ^ (s - 1) in
    if (half <? r) || ((r =? half) && Z.odd q)
    then mk (q + 1) (e + s)
    else mk q (e + s).

(** [float(n)] for an int [n >= 0]. *)
Definition of_int (n : Z) : t := round n 0.

(** [x * y] *)
Definition mul (x y : t) : t := round (mant x * mant y) (expo x + expo y).

(** The literal [1.2], that is [0x1.3333333333333p+0]. *)
Definition lit_1_2 : t := mk 5404319552844595 (-52).

(** [k <= x] for an int [k] and a float [x]: Python compares the two
    exactly, without converting [k]. *)
Definition int_le (k : Z) (x : t) : bool :=
  if 0 <=? expo x then k <=? mant x * 2 ^ expo x
  else k * 2 ^ (- expo x) <=? mant x.

(** The same value as a [spec_float] of the Standard Library. *)
Definition same_value (x : t) (f : SpecFloat.spec_float) : bool :=
  match f with
  | SpecFloat.S754_zero _ => mant x =? 0
  | SpecFloat.S754_finite false m e =>
      let d := Z.min (expo x) e in
      mant x * 2 ^ (expo x - d) =? Z.pos m * 2 ^ (e - d)
  | _ => false
  end.

End Float.

(** ** Regular expressions

    Every pattern of the scripts is a literal followed by the capturing group
    [([a-zA-Z0-9_-]+)].  [re.search] returns the leftmost match; the group is
    greedy and nothing follows it, so it captures the longest run of
    identifier characters after the literal. *)

(** The character class [[a-zA-Z0-9_-]]. *)
Definition is_id_char (c : N) : bool :=
  (((97 <=? c) && (c <=? 122)) || ((65 <=? c) && (c <=? 90))
   || ((48 <=? c) && (c <=? 57)) || (c =? 95) || (c =? 45))%N.

Fixpoint take_id (s : str) : str :=
  match s with
  | c :: r => if is_id_char c then c :: take_id r else []
  | [] => []
  end.

(** A match of [lit([a-zA-Z0-9_-]+)] starting at the head of [s]. *)
Definition match_here (lit s : str) : option str :=
  match strip_prefix lit s with
  | Some rest =>
      match take_id rest with
      | [] => None
      | g => Some g
      end
  | None => None
  end.

(** [re.search(lit + "([a-zA-Z0-9_-]+)", s)], giving [match.group(1)]. *)
Fixpoint re_search (lit s : str) : option str :=
  match match_here lit s with
  | Some g => Some g
  | None =>
      match s with
      | [] => None
      | _ :: s' => re_search lit s'
      end
  end.

(** [for pattern in patterns: match = re.search(pattern, s); if match: ...] *)
Fixpoint first_match (patterns : list str) (s : str) : option str :=
  match patterns with
  | [] => None
  | lit :: rest =>
      match re_search lit s with
      | Some g => Some g
      | None => first_match rest s
      end
  end.

(** ** Exceptions *)

Inductive exc_class :=
| BaseException | SystemExit | KeyboardInterrupt | GeneratorExit
| Exception
| OSError | FileNotFoundError | PermissionError
| SubprocessError | TimeoutExpired
| RuntimeError | ValueError | TypeError | AttributeError
| LookupError | KeyError | IndexError
| JSONDecodeError
| RequestException | HTTPError | ConnectionError
| ClickException | UsageError | BadParameter
| Exit
| OtherException.

#[global] Instance exc_class_eq_dec : EqDecision exc_class.
Proof. solve_decision. Defined.

(** The base class of each class ([typer.Exit] is [click.exceptions.Exit], a
    [RuntimeError]; [OtherException] stands for any further direct subclass
    of [Exception]). *)
Definition base (c : exc_class) : option exc_class :=
  match c with
  | BaseException => None
  | SystemExit | KeyboardInterrupt | GeneratorExit | Exception => Some BaseException
  | OSError | SubprocessError | RuntimeError | ValueError | TypeError
  | AttributeError | LookupError | ClickException | OtherException => Some Exception
  | FileNotFoundError | PermissionError | RequestException => Some OSError
  | TimeoutExpired => Some SubprocessError
  | KeyError | IndexError => Some LookupError
  | JSONDecodeError => Some ValueError
  | HTTPError | ConnectionError => Some RequestException
  | UsageError => Some ClickException
  | BadParameter => Some UsageError
  | Exit => Some RuntimeError
  end.

Fixpoint issubclass_upto (depth : nat) (c d : exc_class) : bool :=
  bool_decide (c = d) ||
  match depth, base c with
  | S depth', Some p => issubclass_upto depth' p d
  | _, _ => false
  end.

(** The hierarchy above is five levels deep. *)
Definition issubclass : exc_class -> exc_class -> bool := issubclass_upto 5.

(** A raised exception: its class and [str(e)]. *)
Record exn := mk_exn { exc_type : exc_class; exc_str : str }.

Definition isinstance (e : exn) (c : exc_class) : bool :=
  issubclass (exc_type e) c.

(** ** JSON values (numbers are integers: the only number the scripts compute
    with is a page version) *)

Inductive json :=
| JNull
| JBool (b : bool)
| JInt (n : Z)
| JStr (s : str)
| JList (l : list json)
| JDict (d : gmap str json).

Definition item (k : str) (v : json) : str * json := (k, v).

(** A dict display [{k1: v1, ...}] *)
Definition dict (items : list (str * json)) : gmap str json :=
  list_to_map items.

(** [d[k] = v] *)
Definition setitem (k : str) (v : json) (d : gmap str json) : gmap str json :=
  <[k := v]> d.

Definition getitem (d : gmap str json) (k : str) : option json := d !! k.

(** Truth value of a JSON value. *)
Definition json_truthy (j : json) : bool :=
  match j with
  | JNull => false
  | JBool b => b
  | JInt n => negb (n =? 0)
  | JStr s => negb (bool_decide (s = []))
  | JList l => match l with [] => false | _ => true end
  | JDict d => negb (bool_decide (d = ∅))
  end.

(** ** The outside world *)

(** What a script does to the outside world, in the order it does it. *)
Inductive event :=
| Print (line : str)
| PrintErr (line : str)
| RunProcess (argv : list str)
| MarkItDownConvert (path : str) (enable_vision : bool)
| HttpRequest (method url : str) (params : option (gmap str json)) (body : option json)
| GenerateContent (model : str) (image : option (list N * str)) (prompt : str)
                  (aspect_ratio image_size : str)
| MakeTempDir (path : str)
| RemoveTempDir (path : str)
| MakeDirs (path : str)
| WriteText (path content : str)
| WriteBytes (path : str) (content : list N).

Inductive result (A : Type) :=
| Return (a : A)
| Raise (e : exn).
Arguments Return {A} a.
Arguments Raise {A} e.

(** A computation: from the trace so far to an outcome and the extended
    trace. *)
Definition M (A : Type) : Type := list event -> result A * list event.

Definition ret {A} (a : A) : M A := fun tr => (Return a, tr).

Definition bind {A B} (m : M A) (k : A -> M B) : M B :=
  fun tr =>
    match m tr with
    | (Return a, tr') => k a tr'
    | (Raise e, tr') => (Raise e, tr')
    end.

Definition raise {A} (c : exc_class) (msg : str) : M A :=
  fun tr => (Raise (mk_exn c msg), tr).

(** One external call: it is recorded, and the outside world answers. *)
Definition call {A} (ev : event) (answer : result A) : M A :=
  fun tr => (answer, tr ++ [ev]).

Definition emit (ev : event) : M unit := call ev (Return tt).

(** A library call that may raise and leaves no record in the trace. *)
Definition ask {A} (answer : result A) : M A := fun tr => (answer, tr).

(** [try: body except ...: handler]; [handler e = None] when no clause
    matches [e]. *)
Definition try_except {A} (body : M A) (handler : exn -> option (M A)) : M A :=
  fun tr =>
    match body tr with
    | (Return a, tr') => (Return a, tr')
    | (Raise e, tr') =>
        match handler e with
        | Some h => h tr'
        | None => (Raise e, tr')
        end
    end.

(** [try: body finally: cleanup] *)
Definition try_finally {A} (body : M A) (cleanup : M unit) : M A :=
  fun tr =>
    match body tr with
    | (r, tr') =>
        match cleanup tr' with
        | (Return _, tr'') => (r, tr'')
        | (Raise e, tr'') => (Raise e, tr'')
        end
    end.

Definition print (line : str) : M unit := emit (Print line).
Definition print_err (line : str) : M unit := emit (PrintErr line).

(** How a script ends: [sys.exit(main())] exits with the value [main]
    returns; an exception [main] lets through is not turned into that value. *)
Inductive termination :=
| Exited (code : Z)
| Uncaught (e : exn).

Definition sys_exit (main : M Z) : termination * list event :=
  match main [] with
  | (Return code, tr) => (Exited code, tr)
  | (Raise e, tr) => (Uncaught e, tr)
  end.

End Py.

Export Py.
Coercion Py.of_string : string >-> list.

Declare Scope py_scope.
Delimit Scope py_scope with py.
Notation "x <- m ;; k" := (bind m (fun x => k))
  (at level 100, m at next level, right associativity) : py_scope.
Notation "m ;; k" := (bind m (fun _ => k))
  (at level 100, right associativity) : py_scope.
Open Scope py_scope.

(** [a == b] on strings *)
Definition str_eqb (a b : str) : bool := bool_decide (a = b).

(* ===================================================================== *)
(** * convert-to-markdown/scripts/convert.py *)
(* ===================================================================== *)

Module ConvertToMarkdown.

(** [subprocess.run(..., capture_output=True)] that came back. *)
Record CompletedProcess := {
  returncode : Z;
  stdout : str;
  stderr : str
}.

(** The library functions and the outside world the script relies on.  A
    [Path] is modelled by its string. *)
Record Env := {
  (** [str.lower] *)
  lower : str -> str;
  (** [Path.suffix], [Path.stem], [Path.with_suffix], [Path.absolute], [/] *)
  path_suffix : str -> str;
  path_stem : str -> str;
  path_with_suffix : str -> str -> str;
  path_absolute : str -> str;
  path_join : str -> str -> str;
  (** [Path.exists], [Path.stat().st_size] *)
  path_exists : str -> bool;
  path_size : str -> Z;
  (** [tempfile.TemporaryDirectory()] *)
  temporary_directory : str;
  (** [subprocess.run(argv, ...)] *)
  subprocess_run : list str -> result CompletedProcess;
  (** [MarkItDown(enable_vision=v).convert(path).text_content] *)
  markitdown_convert : str -> bool -> result str;
  (** [Path.write_text] *)
  path_write_text : str -> str -> result unit
}.

(** Formats best handled by pandoc *)
Definition PANDOC_FORMATS : gset str :=
  list_to_set
    [of_string ".epub"; of_string ".org"; of_string ".rst"; of_string ".tex";
     of_string ".latex"; of_string ".odt"; of_string ".rtf"].

(** The set literal of the [enable_ocr] test. *)
Definition IMAGE_FORMATS : gset str :=
  list_to_set
    [of_string ".jpg"; of_string ".jpeg"; of_string ".png"; of_string ".gif";
     of_string ".webp"].

Definition newline : str := [10%N].

(** The text between the two extractions in the combined result:
    ["\n\n---\n\n## Additional Text Extraction\n\n"]. *)
Definition separator : str :=
  newline ++ newline ++ of_string "---" ++ newline ++ newline
  ++ of_string "## Additional Text Extraction" ++ newline ++ newline.

Definition merge_extractions (text_content ocr_content : option str) : str :=
  if negb (truthy text_content) && negb (truthy ocr_content) then []
  else if negb (truthy text_content) then or_else ocr_content []
  else if negb (truthy ocr_content) then or_else text_content []
  else
    let text := or_else text_content [] in
    let ocr := or_else ocr_content [] in
    let text_len := len (strip text) in
    let ocr_len := len (strip ocr) in
    if Float.int_le ocr_len (Float.mul (Float.of_int text_len) Float.lit_1_2)
    then text
    else ocr ++ separator ++ text.

Section WithEnv.

Variable env : Env.

Definition run (argv : list str) : M CompletedProcess :=
  call (RunProcess argv) (subprocess_run env argv).

Definition run_pandoc (input_path : str) : M (option str) :=
  try_except
    (result <- run [of_string "pandoc"; of_string "-t"; of_string "markdown";
                    of_string "-o"; of_string "-"; input_path];;
     if returncode result =? 0 then ret (Some (stdout result))
     else
       print_err ("Pandoc warning: " ++ stderr result);;
       ret None)
    (fun e =>
       if isinstance e FileNotFoundError then
         Some (print_err "Pandoc not found, skipping pandoc conversion";;
               ret None)
       else if isinstance e TimeoutExpired then
         Some (print_err "Pandoc timed out";; ret None)
       else None).

Definition run_markitdown (input_path : str) (enable_ocr : bool) : M (option str) :=
  try_except
    (text_content <- call (MarkItDownConvert input_path enable_ocr)
                          (markitdown_convert env input_path enable_ocr);;
     ret (Some text_content))
    (fun e =>
       if isinstance e Exception then
         Some (print_err ("Markitdown error: " ++ exc_str e);; ret None)
       else None).

Definition download_gdoc (url output_dir : str) : M (option str) :=
  let patterns := [of_string "/document/d/"; of_string "id="] in
  match first_match patterns url with
  | None =>
      print_err ("Could not extract Google Doc ID from URL: " ++ url);;
      ret None
  | Some doc_id =>
      let export_url :=
        "https://docs.google.com/document/d/" ++ doc_id ++ "/export?format=docx" in
      let output_path := path_join env output_dir ("gdoc_" ++ doc_id ++ ".docx") in
      downloaded <-
        try_except
          (result <- run [of_string "curl"; of_string "-L"; of_string "-o";
                          output_path; export_url];;
           if (returncode result =? 0) && path_exists env output_path
              && (0 <? path_size env output_path)
           then ret (Some output_path)
           else ret None)
          (fun e =>
             if isinstance e FileNotFoundError || isinstance e TimeoutExpired
             then Some (ret None)
             else None);;
      match downloaded with
      | Some p => ret (Some p)
      | None =>
          print_err "Could not download Google Doc. Make sure the document is publicly accessible.";;
          ret None
      end
  end.

Definition convert_file_content (path mode : str) (hybrid : bool) : M str :=
  let suffix := lower env (path_suffix env path) in
  if bool_decide (suffix ∈ PANDOC_FORMATS) then
    content <- run_pandoc path;;
    if truthy content then ret (or_else content [])
    else
      content <- run_markitdown path false;;
      if truthy content then ret (or_else content [])
      else raise RuntimeError ("Failed to convert " ++ path)
  else if str_eqb suffix ".pdf" && hybrid then
    print_err "Running hybrid extraction (text + OCR)...";;
    text_content <- run_markitdown path false;;
    ocr_content <- run_markitdown path true;;
    ret (merge_extractions text_content ocr_content)
  else
    let enable_ocr :=
      str_eqb mode "ocr"
      || (str_eqb mode "auto" && bool_decide (suffix ∈ IMAGE_FORMATS)) in
    content <- run_markitdown path enable_ocr;;
    if truthy content then ret (or_else content [])
    else
      content <- run_pandoc path;;
      if truthy content then ret (or_else content [])
      else raise RuntimeError ("Failed to convert " ++ path).

Definition write_text (path content : str) : M unit :=
  call (WriteText path content) (path_write_text env path content).

Definition convert_file (input_path : str) (output_path : option str)
    (mode : str) (hybrid : bool) : M str :=
  if (startswith input_path "http://" || startswith input_path "https://")
     && contains input_path "docs.google.com"
  then
    let tmpdir := temporary_directory env in
    emit (MakeTempDir tmpdir);;
    try_finally
      (downloaded <- download_gdoc input_path tmpdir;;
       match downloaded with
       | None => raise RuntimeError "Failed to download Google Doc"
       | Some downloaded =>
           md_content <- convert_file_content downloaded mode hybrid;;
           let out :=
             if truthy output_path then or_else output_path []
             else "gdoc_" ++ path_stem env downloaded ++ ".md" in
           write_text out md_content;;
           print ("Converted to: " ++ path_absolute env out);;
           ret (path_absolute env out)
       end)
      (emit (RemoveTempDir tmpdir))
  else
    let path := input_path in
    if negb (path_exists env path) then
      raise FileNotFoundError ("File not found: " ++ input_path)
    else
      md_content <- convert_file_content path mode hybrid;;
      let out :=
        if truthy output_path then or_else output_path []
        else path_with_suffix env path ".md" in
      write_text out md_content;;
      print ("Converted to: " ++ path_absolute env out);;
      ret (path_absolute env out).

(** Extract text from PDF using pdftotext (poppler). *)
Definition extract_text_pdftotext (input_path : str) : M (option str) :=
  try_except
    (result <- run [of_string "pdftotext"; of_string "-layout"; input_path;
                    of_string "-"];;
     if returncode result =? 0 then ret (Some (stdout result))
     else ret None)
    (fun e =>
       if isinstance e FileNotFoundError || isinstance e TimeoutExpired
       then Some (ret None)
       else None).

(** The parsed command line. *)
Record Args := {
  input : str;
  output : option str;
  mode : str;
  hybrid : bool
}.

Definition main (args : Args) : M Z :=
  try_except
    (convert_file (input args) (output args) (mode args) (hybrid args);;
     ret 0)
    (fun e =>
       if isinstance e Exception then
         Some (print_err ("Error: " ++ exc_str e);; ret 1)
       else None).

End WithEnv.

(** The converter an external call belongs to. *)
Inductive converter := Pandoc | MarkItDown.

Definition converter_of (ev : event) : option converter :=
  match ev with
  | RunProcess (prog :: _) => if str_eqb prog "pandoc" then Some Pandoc else None
  | MarkItDownConvert _ _ => Some MarkItDown
  | _ => None
  end.

(** The primary converter of a run: the one invoked first. *)
Fixpoint primary_converter (tr : list event) : option converter :=
  match tr with
  | [] => None
  | ev :: rest =>
      match converter_of ev with
      | Some c => Some c
      | None => primary_converter rest
      end
  end.

End ConvertToMarkdown.

(* ===================================================================== *)
(** * generate-image/scripts/generate.py *)
(* ===================================================================== *)

Module GenerateImage.

(** [part.inline_data.data] is [bytes] or a base64 [str]. *)
Inductive image_data :=
| DataBytes (b : list N)
| DataStr (s : str).

Record Blob := { data : image_data; mime_type : option str }.
Record Part := { inline_data : option Blob }.
Record Content := { parts : option (list Part) }.
Record Candidate := { content : option Content }.
Record Response := { candidates : option (list Candidate) }.

Record Env := {
  (** [os.environ.get] once [load_dotenv(override=True)] has run *)
  environ_get : str -> option str;
  (** [genai.Client(vertexai=True, project=..., location="global")] *)
  make_client : str -> result unit;
  path_exists : str -> bool;
  (** [mimetypes.guess_type(path)[0]] *)
  guess_type : str -> option str;
  path_read_bytes : str -> result (list N);
  (** [client.models.generate_content] *)
  generate_content :
    str -> option (list N * str) -> str -> str -> str -> result Response;
  path_suffix : str -> str;
  path_with_suffix : str -> str -> str;
  path_parent : str -> str;
  path_absolute : str -> str;
  (** [tempfile.mkstemp(suffix=..., prefix="gemini_image_")[1]] *)
  mkstemp : str -> result str;
  b64decode : str -> result (list N);
  path_mkdir : str -> result unit;
  path_write_bytes : str -> list N -> result unit;
  (** [str(response)] *)
  response_str : Response -> str
}.

Section WithEnv.

Variable env : Env.

(** The image [Part] sent along with the prompt: its bytes and mime type. *)
Definition load_image_as_part (image_path : str) : M (list N * str) :=
  let path := image_path in
  if negb (path_exists env path) then
    raise FileNotFoundError ("Image not found: " ++ image_path)
  else
    let mime_type :=
      match guess_type env path with
      | Some m => m
      | None => of_string "image/png"
      end in
    image_bytes <- ask (path_read_bytes env path);;
    ret (image_bytes, mime_type).

Definition candidate_parts (c : Candidate) : list Part :=
  match content c with
  | Some ct =>
      match parts ct with
      | Some ps => ps
      | None => []
      end
  | None => []
  end.

(** The first part with inline data, candidates and parts taken in order. *)
Definition first_inline_data (cs : list Candidate) : option Blob :=
  head (omap inline_data (concat (map candidate_parts cs))).

Definition generate_image (prompt : str) (input_image output_path : option str)
    (aspect_ratio image_size : str) : M str :=
  let project :=
    if truthy (environ_get env "GOOGLE_CLOUD_PROJECT")
    then environ_get env "GOOGLE_CLOUD_PROJECT"
    else environ_get env "CLOUDSDK_CORE_PROJECT" in
  if negb (truthy project) then
    raise ValueError "GOOGLE_CLOUD_PROJECT or CLOUDSDK_CORE_PROJECT env var required"
  else
    ask (make_client env (or_else project []));;
    let model := of_string "gemini-3-pro-image-preview" in
    image <- (if truthy input_image
              then img <- load_image_as_part (or_else input_image []);;
                   ret (Some img)
              else ret None);;
    response <- call (GenerateContent model image prompt aspect_ratio image_size)
                     (generate_content env model image prompt aspect_ratio image_size);;
    match candidates response with
    | None =>
        print_err ("DEBUG: Response has no candidates. Full response: "
                   ++ response_str env response);;
        raise RuntimeError
          "Model returned no candidates. This could be due to safety filters or model refusal."
    | Some cs =>
        match first_inline_data cs with
        | Some blob =>
            let ext :=
              if bool_decide (mime_type blob = Some (of_string "image/jpeg"))
              then of_string ".jpg"
              else if bool_decide (mime_type blob = Some (of_string "image/webp"))
              then of_string ".webp"
              else of_string ".png" in
            save_path <-
              (if truthy output_path then
                 let save_path := or_else output_path [] in
                 if str_eqb (path_suffix env save_path) ""
                 then ret (path_with_suffix env save_path ext)
                 else ret save_path
               else ask (mkstemp env ext));;
            image_bytes <-
              match data blob with
              | DataStr s => ask (b64decode env s)
              | DataBytes b => ret b
              end;;
            call (MakeDirs (path_parent env save_path))
                 (path_mkdir env (path_parent env save_path));;
            call (WriteBytes save_path image_bytes)
                 (path_write_bytes env save_path image_bytes);;
            print ("Image saved to: " ++ path_absolute env save_path);;
            ret (path_absolute env save_path)
        | None => raise RuntimeError "No image found in response"
        end
    end.

(** The parsed command line. *)
Record Args := {
  prompt : str;
  input : option str;
  output : option str;
  aspect_ratio : str;
  size : str
}.

Definition main (args : Args) : M Z :=
  try_except
    (generate_image (prompt args) (input args) (output args)
                    (aspect_ratio args) (size args);;
     ret 0)
    (fun e =>
       if isinstance e Exception then
         Some (print_err ("Error: " ++ exc_str e);; ret 1)
       else None).

End WithEnv.

End GenerateImage.

(* ===================================================================== *)
(** * confluence-datacenter/scripts/confluence.py *)
(* ===================================================================== *)

Module Confluence.

(** What [session.request] hands back. *)
Record Response := {
  status_code : Z;
  (** [response.headers.get("Content-Type")] *)
  content_type : option str;
  (** [response.json()], [None] when the body is not JSON *)
  json_body : option json;
  (** [response.text] *)
  text : str;
  (** [str(e)] of the [HTTPError] that [raise_for_status] raises for it *)
  error_str : str
}.

(** The keyword arguments of a request. *)
Record Kwargs := {
  params : option (gmap str json);
  json_arg : option json
}.

(** A client ([self]): the API root and the server behind it. *)
Record ConfluenceClient := {
  api_url : str;
  session_request : str -> str -> Kwargs -> result Response
}.

(** [s.lstrip('/')] *)
Fixpoint lstrip_slash (s : str) : str :=
  match s with
  | c :: r => if (c =? 47)%N then lstrip_slash r else s
  | [] => []
  end.

(** [obj.get(key, default)]: only a dict has [get]. *)
Definition py_get (obj : json) (key : str) (default : json) : M json :=
  match obj with
  | JDict d =>
      match getitem d key with
      | Some v => ret v
      | None => ret default
      end
  | _ => raise AttributeError "object has no attribute 'get'"
  end.

(** [n + 1] *)
Definition py_add_1 (n : json) : M json :=
  match n with
  | JInt n => ret (JInt (n + 1))
  | JBool b => ret (JInt ((if b then 1 else 0) + 1))
  | _ => raise TypeError "unsupported operand type(s) for +"
  end.

(** The message a failed request is reported with: [error_data["message"]]
    when the error body is JSON holding one, [str(e)] otherwise. *)
Definition error_message (response : Response) : M json :=
  let e_str := error_str response in
  match json_body response with
  | None => ret (JStr e_str)
  | Some (JDict d) =>
      match getitem d "message" with
      | Some m => ret m
      | None => ret (JStr e_str)
      end
  | Some (JList l) =>
      if existsb (fun x => match x with
                           | JStr s => str_eqb s "message"
                           | _ => false
                           end) l
      then raise TypeError "list indices must be integers or slices, not str"
      else ret (JStr e_str)
  | Some (JStr s) =>
      if contains s "message"
      then raise TypeError "string indices must be integers, not 'str'"
      else ret (JStr e_str)
  | Some _ => raise TypeError "argument is not iterable"
  end.

(** [console.print(markup)] of rich: [render markup] is what rendering the
    markup comes to. The line is printed when it renders; when rendering
    raises (a [MarkupError] for a closing tag that closes nothing), nothing is
    printed and the exception comes out. *)
Definition console_print (render : str -> result unit) (markup : str) : M unit :=
  match render markup with
  | Return _ => print markup
  | Raise e => ask (Raise e)
  end.

Section WithClient.

(** [str(x)] as an f-string renders a value read from a response. *)
Variable py_str : json -> str.

(** What rendering a line on the module's [console] comes to. *)
Variable console : str -> result unit.

Variable self : ConfluenceClient.

Definition _request (method endpoint : str) (kwargs : Kwargs) : M json :=
  let url := api_url self ++ "/" ++ lstrip_slash endpoint in
  response <- call (HttpRequest method url (params kwargs) (json_arg kwargs))
                   (session_request self method url kwargs);;
  if (400 <=? status_code response) && (status_code response <? 600) then
    (* raise_for_status() raised HTTPError, handled below *)
    error_msg <- error_message response;;
    console_print console ("[red]Error:[/red] " ++ py_str error_msg);;
    raise Exit "1"
  else if status_code response =? 204 then ret JNull
  else if startswith (default [] (content_type response)) "application/json" then
    match json_body response with
    | Some j => ret j
    | None => raise JSONDecodeError "Expecting value"
    end
  else ret (JDict (dict [item "content" (JStr (text response))])).

Definition get_page (page_id space_key title : option str) : M json :=
  if truthy page_id then
    let params := dict [item "expand" (JStr "body.storage,version,space,ancestors")] in
    _request "GET" ("content/" ++ or_else page_id [])
             {| params := Some params; json_arg := None |}
  else if truthy space_key && truthy title then
    let params :=
      dict [item "spaceKey" (JStr (or_else space_key []));
            item "title" (JStr (or_else title []));
            item "expand" (JStr "body.storage,version,space")] in
    result <- _request "GET" "content" {| params := Some params; json_arg := None |};;
    results <- py_get result "results" (JList []);;
    if negb (json_truthy results) then
      raise BadParameter
        ("Page '" ++ or_else title [] ++ "' not found in space '"
         ++ or_else space_key [] ++ "'")
    else
      match results with
      | JList (first :: _) => ret first
      | JStr (c :: _) => ret (JStr [c])
      | JDict _ => raise KeyError "0"
      | _ => raise TypeError "object is not subscriptable"
      end
  else raise BadParameter "Provide page_id or both --space and --title".

Definition update_page (page_id : str) (body title : option str)
    (body_format : str) (minor_edit : bool) : M json :=
  current <- get_page (Some page_id) None None;;
  version <- py_get current "version" (JDict (dict []));;
  current_version <- py_get version "number" (JInt 0);;
  new_title <- (if truthy title then ret (JStr (or_else title []))
                else py_get current "title" (JStr ""));;
  next_version <- py_add_1 current_version;;
  let data :=
    dict [item "type" (JStr "page");
          item "title" new_title;
          item "version" (JDict (dict [item "number" next_version;
                                       item "minorEdit" (JBool minor_edit)]))] in
  let data :=
    if truthy body then
      setitem "body"
        (JDict (dict [item body_format
                        (JDict (dict [item "value" (JStr (or_else body []));
                                      item "representation" (JStr body_format)]))]))
        data
    else data in
  _request "PUT" ("content/" ++ page_id)
           {| params := None; json_arg := Some (JDict data) |}.

Definition create_page (space_key title body : str) (parent_id : option str)
    (body_format : str) : M json :=
  let data :=
    dict [item "type" (JStr "page");
          item "title" (JStr title);
          item "space" (JDict (dict [item "key" (JStr space_key)]));
          item "body"
            (JDict (dict [item body_format
                            (JDict (dict [item "value" (JStr body);
                                          item "representation" (JStr body_format)]))]))] in
  let data :=
    if truthy parent_id then
      setitem "ancestors"
        (JList [JDict (dict [item "id" (JStr (or_else parent_id []))])]) data
    else data in
  _request "POST" "content" {| params := None; json_arg := Some (JDict data) |}.

Definition delete_page (page_id : str) : M unit :=
  _request "DELETE" ("content/" ++ page_id) {| params := None; json_arg := None |};;
  ret tt.

Definition search (cql : str) (max_results : Z) (content_type : option str) : M json :=
  let params :=
    dict [item "cql" (JStr cql); item "limit" (JInt max_results);
          item "expand" (JStr "space,version")] in
  let params :=
    if truthy content_type then
      setitem "cql"
        (JStr ("type = " ++ or_else content_type [] ++ " AND (" ++ cql ++ ")")) params
    else params in
  _request "GET" "content/search" {| params := Some params; json_arg := None |}.

Definition get_spaces (space_type : option str) : M json :=
  let params :=
    dict [item "limit" (JInt 100); item "expand" (JStr "description.plain")] in
  let params :=
    if truthy space_type then setitem "type" (JStr (or_else space_type [])) params
    else params in
  _request "GET" "space" {| params := Some params; json_arg := None |}.

End WithClient.

(** ** [ConfluenceClient.__init__]: what the environment configures *)

Inductive Auth :=
| Bearer (pat : str)
| Basic (username password : str).

Record Config := {
  base_url : str;
  config_api_url : str;
  auth : Auth
}.

(** [s.rstrip('/')] *)
Definition rstrip_slash (s : str) : str := rev (lstrip_slash (rev s)).

(** [environ_get] is [os.environ.get] once [load_dotenv()] has run. *)
Definition init (environ_get : str -> option str) : result Config :=
  let base_url := rstrip_slash (default [] (environ_get "CONFLUENCE_BASE_URL")) in
  if negb (truthy (Some base_url)) then
    Raise (mk_exn BadParameter "CONFLUENCE_BASE_URL environment variable required")
  else
    let api_url := base_url ++ "/rest/api" in
    let pat := environ_get "CONFLUENCE_PAT" in
    if truthy pat then
      Return {| base_url := base_url; config_api_url := api_url;
                auth := Bearer (or_else pat []) |}
    else
      let username := environ_get "CONFLUENCE_USERNAME" in
      let password := environ_get "CONFLUENCE_PASSWORD" in
      if negb (truthy username) || negb (truthy password) then
        Raise (mk_exn BadParameter
                 "Set CONFLUENCE_PAT or both CONFLUENCE_USERNAME and CONFLUENCE_PASSWORD")
      else
        Return {| base_url := base_url; config_api_url := api_url;
                  auth := Basic (or_else username []) (or_else password []) |}.

(** ** The [delete] command *)

Section Commands.

Variable py_str : json -> str.
Variable console : str -> result unit.

(** What [ConfluenceClient()] gives, and what the user answers to
    [typer.confirm]. *)
Variable new_client : result ConfluenceClient.
Variable confirm : str -> result bool.

Definition get_client : M ConfluenceClient :=
  try_except
    (ask new_client)
    (fun e =>
       if isinstance e Exception then
         Some (console_print console ("[red]Error:[/red] " ++ exc_str e);;
               raise Exit "1")
       else None).

Definition delete (page_id : str) (force : bool) : M unit :=
  client <- get_client;;
  (if negb force then
     page <- get_page py_str console client (Some page_id) None None;;
     title <- py_get page "title" (JStr "Unknown");;
     confirmed <- ask (confirm ("Delete page '" ++ py_str title ++ "' (ID: "
                                ++ page_id ++ ")?"));;
     if negb confirmed then
       console_print console "Cancelled";;
       raise Exit "0"
     else ret tt
   else ret tt);;
  delete_page py_str console client page_id;;
  console_print console ("[green]Deleted:[/green] " ++ page_id).

End Commands.

End Confluence.

(* ===================================================================== *)
(** * google-workspace-convert/scripts/convert.py *)
(* ===================================================================== *)

Module GoogleWorkspaceConvert.

(** The literal parts of the patterns, each followed by
    [([a-zA-Z0-9_-]+)] in the script. *)
Definition patterns : list str :=
  [of_string "/document/d/"; of_string "/spreadsheets/d/";
   of_string "/presentation/d/"; of_string "/file/d/";
   of_string "/drawings/d/"; of_string "id="].

Definition extract_file_id (url_or_id : str) : result str :=
  if negb (contains url_or_id "/") && (20 <? len url_or_id) then Return url_or_id
  else
    match first_match patterns url_or_id with
    | Some g => Return g
    | None =>
        Raise (mk_exn ValueError ("Could not extract file ID from: " ++ url_or_id))
    end.

(** [s.endswith(suffix)] *)
Definition endswith (s suffix : str) : bool := startswith (rev s) (rev suffix).

(** [str(n)] for an int *)
Definition str_of_int (n : Z) : str :=
  of_string (DecimalString.NilZero.string_of_int (Z.to_int n)).

Definition extract_folder_id (url_or_id : str) : option str :=
  if negb (truthy (Some url_or_id)) then None
  else if negb (contains url_or_id "/") && (20 <? len url_or_id) then Some url_or_id
  else
    match re_search "/folders/" url_or_id with
    | Some g => Some g
    | None => Some url_or_id
    end.

(** Google Workspace MIME types and their export formats *)
Record WorkspaceType := {
  type_name : str;
  export_mime : str;
  extension : str
}.

Definition WORKSPACE_TYPES : gmap str WorkspaceType :=
  list_to_map
    [(of_string "application/vnd.google-apps.document",
      {| type_name := "Google Doc";
         export_mime :=
           "application/vnd.openxmlformats-officedocument.wordprocessingml.document";
         extension := ".docx" |});
     (of_string "application/vnd.google-apps.spreadsheet",
      {| type_name := "Google Sheet";
         export_mime :=
           "application/vnd.openxmlformats-officedocument.spreadsheetml.sheet";
         extension := ".xlsx" |});
     (of_string "application/vnd.google-apps.presentation",
      {| type_name := "Google Slides";
         export_mime :=
           "application/vnd.openxmlformats-officedocument.presentationml.presentation";
         extension := ".pptx" |});
     (of_string "application/vnd.google-apps.drawing",
      {| type_name := "Google Drawing";
         export_mime := "image/png";
         extension := ".png" |})].

(** The [ext_map] of [convert_workspace_file]. *)
Definition ext_map : gmap str str :=
  list_to_map
    [(of_string "application/pdf", of_string ".pdf");
     (of_string "application/vnd.openxmlformats-officedocument.wordprocessingml.document",
      of_string ".docx");
     (of_string "application/vnd.openxmlformats-officedocument.spreadsheetml.sheet",
      of_string ".xlsx");
     (of_string "application/vnd.openxmlformats-officedocument.presentationml.presentation",
      of_string ".pptx");
     (of_string "text/html", of_string ".html");
     (of_string "text/plain", of_string ".txt");
     (of_string "image/png", of_string ".png");
     (of_string "image/jpeg", of_string ".jpg")].

(** The character class of the file-name pattern: [<], [>], [:], the double
    quote, [/], the backslash, [|], [?] and the star. *)
Definition is_unsafe_char (c : N) : bool :=
  ((c =? 60) || (c =? 62) || (c =? 58) || (c =? 34) || (c =? 47) || (c =? 92)
   || (c =? 124) || (c =? 63) || (c =? 42))%N.

(** [re.sub(pattern, '_', file_name)] for that character class *)
Definition safe_name (file_name : str) : str :=
  map (fun c => if is_unsafe_char c then 95%N else c) file_name.

(** [f"{file_name}{ext if not file_name.endswith(ext) else ''}"] *)
Definition export_name (file_name ext : str) : str :=
  file_name ++ (if negb (endswith file_name ext) then ext else []).

(** A file resource of the Drive API, with the fields the script reads;
    [None] is a field the answer does not hold. *)
Record File := {
  file_id : option str;
  file_name : option str;
  file_mimeType : option str;
  file_webViewLink : option str
}.

(** [resource[key]] *)
Definition field (key : str) (v : option str) : M str :=
  match v with
  | Some s => ret s
  | None => raise KeyError ("'" ++ key ++ "'")
  end.

Record Env := {
  (** [os.environ.get] once [load_dotenv()] has run *)
  environ_get : str -> option str;
  (** [Credentials.from_service_account_file(path, scopes=SCOPES)] and
      [build("drive", "v3", credentials=...)] *)
  build_service : str -> result unit;
  (** [service.files().get(fileId=..., fields=...).execute()] *)
  files_get : str -> result File;
  (** [open(path, "wb")] *)
  open_wb : str -> result unit;
  (** The chunks [downloader.next_chunk()] delivers for an export and for a
      download: for each chunk the percentage the script prints,
      [int(status.progress() * 100)], when a status comes with it; the last
      chunk is the one that reports [done], unless an exception ends the
      transfer first. *)
  export_chunks : str -> str -> list (option Z) * option exn;
  download_chunks : str -> list (option Z) * option exn;
  (** [service.files().create(body=..., media_body=..., fields=...).execute()] *)
  files_create : gmap str json -> str -> result File;
  (** [service.files().list(pageSize=..., fields=...).execute().get("files", [])] *)
  files_list : Z -> result (list File);
  (** [json.load(open(path)).get("client_email")], [None] when the
      credentials hold no such key *)
  credentials_client_email : str -> result (option str);
  markitdown_convert : str -> bool -> result str;
  subprocess_run : list str -> result ConvertToMarkdown.CompletedProcess;
  path_suffix : str -> str;
  path_stem : str -> str;
  path_name : str -> str;
  path_parent : str -> str;
  path_absolute : str -> str;
  path_join : str -> str -> str;
  path_exists : str -> bool;
  (** [Path.cwd()] *)
  cwd : str;
  temporary_directory : str;
  path_mkdir : str -> result unit;
  path_write_text : str -> str -> result unit;
  (** what [parser.print_help()] prints *)
  help_text : str
}.

Section WithEnv.

Variable env : Env.

Definition get_drive_service : M unit :=
  let creds_path := environ_get env "GOOGLE_APPLICATION_CREDENTIALS" in
  if negb (truthy creds_path) then
    raise ValueError "GOOGLE_APPLICATION_CREDENTIALS env var required"
  else ask (build_service env (or_else creds_path [])).

Definition get_file_info (file_id : str) : M File :=
  try_except
    (ask (files_get env file_id))
    (fun e =>
       if isinstance e Exception then
         Some (let error_msg := exc_str e in
               if contains error_msg "404" then
                 raise ValueError
                   ("File not found. Make sure the file is shared with your service account email. "
                    ++ "File ID: " ++ file_id)
               else ask (Raise e))
       else None).

(** The loop over [next_chunk] of both download functions. *)
Fixpoint report_progress (chunks : list (option Z)) : M unit :=
  match chunks with
  | [] => ret tt
  | status :: rest =>
      match status with
      | Some percent =>
          print_err ("Download progress: " ++ str_of_int percent ++ "%")
      | None => ret tt
      end;;
      report_progress rest
  end.

Definition transfer (output_path : str) (chunks : list (option Z) * option exn) : M unit :=
  ask (open_wb env output_path);;
  report_progress (fst chunks);;
  match snd chunks with
  | Some e => ask (Raise e)
  | None => ret tt
  end.

Definition export_workspace_file (file_id mime_type output_path : str) : M unit :=
  transfer output_path (export_chunks env file_id mime_type).

Definition download_regular_file (file_id output_path : str) : M unit :=
  transfer output_path (download_chunks env file_id).

Definition convert_to_markdown (file_path : str) (enable_ocr : bool) : M str :=
  call (MarkItDownConvert file_path enable_ocr)
       (markitdown_convert env file_path enable_ocr).

Definition markdown_to_docx (md_path docx_path : str) : M unit :=
  result <- call (RunProcess [of_string "pandoc"; of_string "-f"; of_string "markdown";
                              of_string "-t"; of_string "docx"; of_string "-o";
                              docx_path; md_path])
                 (subprocess_run env
                    [of_string "pandoc"; of_string "-f"; of_string "markdown";
                     of_string "-t"; of_string "docx"; of_string "-o";
                     docx_path; md_path]);;
  if negb (ConvertToMarkdown.returncode result =? 0) then
    raise RuntimeError ("Pandoc failed: " ++ ConvertToMarkdown.stderr result)
  else ret tt.

Definition upload_to_gdoc (file_path name : str) (folder_id : option str) : M File :=
  let file_metadata :=
    dict [item "name" (JStr name);
          item "mimeType" (JStr "application/vnd.google-apps.document")] in
  let file_metadata :=
    if truthy folder_id then
      setitem "parents" (JList [JStr (or_else folder_id [])]) file_metadata
    else file_metadata in
  ask (files_create env file_metadata file_path).

Definition convert_workspace_file (url_or_id : str) (output_path : option str)
    (enable_ocr : bool) : M str :=
  file_id <- ask (extract_file_id url_or_id);;
  print_err ("File ID: " ++ file_id);;
  get_drive_service;;
  file_info <- get_file_info file_id;;
  file_name <- field "name" (file_name file_info);;
  mime_type <- field "mimeType" (file_mimeType file_info);;
  print_err ("File: " ++ file_name);;
  print_err ("Type: " ++ mime_type);;
  let tmpdir := temporary_directory env in
  emit (MakeTempDir tmpdir);;
  md_content <-
    try_finally
      (export_path <-
         match WORKSPACE_TYPES !! mime_type with
         | Some type_info =>
             print_err ("Exporting " ++ type_name type_info ++ " as "
                        ++ extension type_info ++ "...");;
             let export_path :=
               path_join env tmpdir (file_name ++ extension type_info) in
             export_workspace_file file_id (export_mime type_info) export_path;;
             ret export_path
         | None =>
             let ext := default [] (ext_map !! mime_type) in
             let ext :=
               if negb (truthy (Some ext))
               then or_else (Some (path_suffix env file_name)) ".bin"
               else ext in
             let export_path := path_join env tmpdir (export_name file_name ext) in
             print_err "Downloading file...";;
             download_regular_file file_id export_path;;
             ret export_path
         end;;
       print_err "Converting to Markdown...";;
       convert_to_markdown export_path enable_ocr)
      (emit (RemoveTempDir tmpdir));;
  let out :=
    if truthy output_path then or_else output_path []
    else path_join env (cwd env) (safe_name file_name ++ ".md") in
  call (MakeDirs (path_parent env out)) (path_mkdir env (path_parent env out));;
  call (WriteText out md_content) (path_write_text env out md_content);;
  print ("Converted to: " ++ path_absolute env out);;
  ret (path_absolute env out).

Definition create_gdoc_from_markdown (md_path : str) (doc_name folder_id : option str)
    : M str :=
  let md_file := md_path in
  if negb (path_exists env md_file) then
    raise FileNotFoundError ("Markdown file not found: " ++ md_path)
  else
    let doc_name :=
      if negb (truthy doc_name) then path_stem env md_file
      else or_else doc_name [] in
    print_err ("Converting " ++ path_name env md_file ++ " to Google Doc...");;
    get_drive_service;;
    let tmpdir := temporary_directory env in
    emit (MakeTempDir tmpdir);;
    result <-
      try_finally
        (let docx_path := path_join env tmpdir (doc_name ++ ".docx") in
         print_err "Converting Markdown to DOCX...";;
         markdown_to_docx md_file docx_path;;
         print_err "Uploading to Google Drive...";;
         upload_to_gdoc docx_path doc_name folder_id)
        (emit (RemoveTempDir tmpdir));;
    (* the default of [result.get] is evaluated first, and reads
       [result['id']] *)
    doc_id <- field "id" (file_id result);;
    let url :=
      match file_webViewLink result with
      | Some link => link
      | None => "https://docs.google.com/document/d/" ++ doc_id ++ "/edit"
      end in
    print ("Created Google Doc: " ++ url);;
    ret url.

(** [for f in files: ...] of [list_shared_files] *)
Fixpoint print_files (files : list File) : M unit :=
  match files with
  | [] => ret tt
  | f :: rest =>
      mime_type <- field "mimeType" (file_mimeType f);;
      let type_name :=
        match WORKSPACE_TYPES !! mime_type with
        | Some type_info => type_name type_info
        | None => mime_type
        end in
      name <- field "name" (file_name f);;
      print ("  " ++ name);;
      id <- field "id" (file_id f);;
      print ("    ID: " ++ id);;
      print ("    Type: " ++ type_name);;
      print [];;
      print_files rest
  end.

Definition list_shared_files (limit : Z) : M unit :=
  get_drive_service;;
  files <- ask (files_list env limit);;
  match files with
  | [] =>
      print "No files found. Share files with your service account email to access them."
  | _ =>
      print (ConvertToMarkdown.newline ++ "Accessible files ("
             ++ str_of_int (Z.of_nat (length files)) ++ "):"
             ++ ConvertToMarkdown.newline);;
      print_files files
  end.

Definition get_service_account_email : M str :=
  let creds_path := environ_get env "GOOGLE_APPLICATION_CREDENTIALS" in
  if negb (truthy creds_path) then ret (of_string "SERVICE_ACCOUNT_EMAIL")
  else
    client_email <- ask (credentials_client_email env (or_else creds_path []));;
    ret (default (of_string "SERVICE_ACCOUNT_EMAIL") client_email).

(** The parsed command line; [command] is [None] when no sub-command was
    given. *)
Record Args := {
  command : option str;
  input : str;
  output : option str;
  ocr : bool;
  name : option str;
  folder : option str;
  limit : Z
}.

(** [x in (a, b, ...)] for an optional string *)
Definition in_tuple (x : option str) (choices : list str) : bool :=
  match x with
  | Some s => existsb (str_eqb s) choices
  | None => false
  end.

Definition main (args : Args) : M Z :=
  if in_tuple (command args)
       [of_string "to-markdown"; of_string "tomd"; of_string "download"]
  then
    try_except
      (convert_workspace_file (input args) (output args) (ocr args);;
       ret 0)
      (fun e =>
         if isinstance e Exception then
           Some (print_err ("Error: " ++ exc_str e);; ret 1)
         else None)
  else if in_tuple (command args)
            [of_string "to-gdoc"; of_string "togdoc"; of_string "upload"]
  then
    try_except
      (let folder_id :=
         if truthy (folder args) then extract_folder_id (or_else (folder args) [])
         else None in
       create_gdoc_from_markdown (input args) (name args) folder_id;;
       ret 0)
      (fun e =>
         if isinstance e Exception then
           Some (print_err ("Error: " ++ exc_str e);; ret 1)
         else None)
  else if in_tuple (command args) [of_string "list"] then
    try_except
      (list_shared_files (limit args);;
       ret 0)
      (fun e =>
         if isinstance e Exception then
           Some (print_err ("Error: " ++ exc_str e);; ret 1)
         else None)
  else if in_tuple (command args) [of_string "info"] then
    email <- get_service_account_email;;
    print (ConvertToMarkdown.newline ++ "Service Account Email: " ++ email);;
    print (ConvertToMarkdown.newline ++ "To give access to a file:");;
    print "  1. Open the file in Google Drive";;
    print "  2. Click 'Share'";;
    print ("  3. Add: " ++ email);;
    print "  4. Give 'Viewer' access (or 'Editor' for upload)";;
    ret 0
  else
    print (help_text env);;
    ret 1.

End WithEnv.

End GoogleWorkspaceConvert.

(* ===================================================================== *)
(** * Vocabulary of the statements *)
(* ===================================================================== *)

Import ConvertToMarkdown.

(** An input is absent when it is [None] or the empty string. *)
Definition absent (s : option str) : Prop := s = None \/ s = Some [].

(** [sub] occurs in [s] as a contiguous block. *)
Definition substring (sub s : str) : Prop :=
  exists pre post, s = pre ++ sub ++ post.

(** [lit([a-zA-Z0-9_-]+)] matches somewhere in [s]. *)
Definition matches (lit s : str) : Prop :=
  exists pre c post, s = pre ++ lit ++ c :: post /\ is_id_char c = true.

(** A computation only ever appends to the trace. *)
Definition extends {A} (m : M A) : Prop :=
  forall tr, exists tr', snd (m tr) = tr ++ tr'.

(** A computation whose first external call is [ev]. *)
Definition starts_with {A} (ev : event) (m : M A) : Prop :=
  forall tr, exists tr', snd (m tr) = tr ++ ev :: tr'.

(** The command line [run_pandoc] runs. *)
Definition pandoc_argv (input_path : str) : list str :=
  [of_string "pandoc"; of_string "-t"; of_string "markdown"; of_string "-o";
   of_string "-"; input_path].

(** The shape both [main] functions share: run the operation, answer [0];
    on an [Exception] print it and answer [1]. *)
Definition guarded {A} (operation : M A) : M Z :=
  try_except
    (operation;; ret 0)
    (fun e =>
       if isinstance e Exception then
         Some (print_err ("Error: " ++ exc_str e);; ret 1)
       else None).

(** The URL of a page and the two requests an update consists of. *)
Definition page_url (self : Confluence.ConfluenceClient) (page_id : str) : str :=
  Confluence.api_url self ++ of_string "/"
  ++ Confluence.lstrip_slash (of_string "content/" ++ page_id).

Definition fetch_request (self : Confluence.ConfluenceClient) (page_id : str) : event :=
  HttpRequest (of_string "GET") (page_url self page_id)
    (Some (dict [item "expand" (JStr "body.storage,version,space,ancestors")]))
    None.

Definition put_request (self : Confluence.ConfluenceClient) (page_id : str)
    (data : gmap str json) : event :=
  HttpRequest (of_string "PUT") (page_url self page_id) None (Some (JDict data)).

(** ** Sample environments, to run the scripts on *)

Module Samples.

Definition not_found : exn := mk_exn FileNotFoundError (of_string "pandoc").
Definition interrupt : exn := mk_exn KeyboardInterrupt [].

(** A machine on which every sub-process ends as [subprocess_answer] and
    markitdown as [markitdown_answer]; every path has the suffix [.rst]. *)
Definition convert_env (file_exists : bool)
    (subprocess_answer : result CompletedProcess)
    (markitdown_answer : result str) : ConvertToMarkdown.Env :=
  {| lower := fun s => s;
     ConvertToMarkdown.path_suffix := fun _ => of_string ".rst";
     path_stem := fun s => s;
     ConvertToMarkdown.path_with_suffix := fun s x => s ++ x;
     ConvertToMarkdown.path_absolute := fun s => of_string "/work/" ++ s;
     path_join := fun d n => d ++ of_string "/" ++ n;
     ConvertToMarkdown.path_exists := fun _ => file_exists;
     path_size := fun _ => 1;
     temporary_directory := of_string "/tmp/t";
     subprocess_run := fun _ => subprocess_answer;
     markitdown_convert := fun _ _ => markitdown_answer;
     path_write_text := fun _ _ => Return tt |}.

Definition convert_args : ConvertToMarkdown.Args :=
  {| ConvertToMarkdown.input := of_string "notes";
     ConvertToMarkdown.output := None;
     mode := of_string "auto";
     hybrid := false |}.

(** An image service that answers [answer]; [project] is the value of
    [GOOGLE_CLOUD_PROJECT]. *)
Definition generate_env (project : option str)
    (answer : result GenerateImage.Response) : GenerateImage.Env :=
  {| GenerateImage.environ_get :=
       fun k => if str_eqb k "GOOGLE_CLOUD_PROJECT" then project else None;
     GenerateImage.make_client := fun _ => Return tt;
     GenerateImage.path_exists := fun _ => true;
     GenerateImage.guess_type := fun _ => None;
     GenerateImage.path_read_bytes := fun _ => Return [];
     GenerateImage.generate_content := fun _ _ _ _ _ => answer;
     GenerateImage.path_suffix := fun _ => [];
     GenerateImage.path_with_suffix := fun s x => s ++ x;
     GenerateImage.path_parent := fun _ => of_string ".";
     GenerateImage.path_absolute := fun s => of_string "/work/" ++ s;
     GenerateImage.mkstemp := fun x => Return (of_string "/tmp/gemini_image_0" ++ x);
     GenerateImage.b64decode := fun _ => Return [];
     GenerateImage.path_mkdir := fun _ => Return tt;
     GenerateImage.path_write_bytes := fun _ _ => Return tt;
     GenerateImage.response_str := fun _ => of_string "response" |}.

Definition one_image : GenerateImage.Response :=
  {| GenerateImage.candidates :=
       Some [ {| GenerateImage.content :=
                   Some {| GenerateImage.parts :=
                             Some [ {| GenerateImage.inline_data :=
                                         Some {| GenerateImage.data :=
                                                   GenerateImage.DataBytes [137%N; 80%N];
                                                 GenerateImage.mime_type :=
                                                   Some (of_string "image/png") |} |} ]
                        |} |} ] |}.

Definition generate_args : GenerateImage.Args :=
  {| GenerateImage.prompt := of_string "a lighthouse";
     GenerateImage.input := None;
     GenerateImage.output := None;
     GenerateImage.aspect_ratio := of_string "16:9";
     GenerateImage.size := of_string "2K" |}.

End Samples.

Module ConfluenceSamples.

Import Confluence.

Definition home_page : gmap str json :=
  dict [item "id" (JStr "123");
        item "title" (JStr "Home");
        item "version" (JDict (dict [item "number" (JInt 7)]))].

(** A server that answers every request with the page above. *)
Definition client : ConfluenceClient :=
  {| api_url := of_string "https://wiki.example/rest/api";
     session_request := fun _ _ _ =>
       Return {| status_code := 200;
                 content_type := Some (of_string "application/json");
                 json_body := Some (JDict home_page);
                 text := [];
                 error_str := [] |} |}.

Definition py_str (j : json) : str :=
  match j with
  | JStr s => s
  | _ => []
  end.

(** A console on which every line renders. *)
Definition console (markup : str) : result unit := Return tt.

End ConfluenceSamples.

(** ** Further vocabulary *)

(** Both converters come back empty-handed for [path]: markitdown fails with
    an [Exception] or finds no text, pandoc is missing, times out, exits with
    a non-zero code or prints nothing. *)
Definition markitdown_fails (env : Env) (path : str) : Prop :=
  forall enable_ocr,
    markitdown_convert env path enable_ocr = Return []
    \/ exists e, markitdown_convert env path enable_ocr = Raise e
                 /\ isinstance e Exception = true.

Definition pandoc_fails (env : Env) (path : str) : Prop :=
  (exists e, subprocess_run env (pandoc_argv path) = Raise e
             /\ (isinstance e FileNotFoundError = true
                 \/ isinstance e TimeoutExpired = true))
  \/ (exists p, subprocess_run env (pandoc_argv path) = Return p
                /\ (returncode p <> 0 \/ stdout p = [])).

(** [input_path] is taken for a Google Docs URL. *)
Definition is_gdoc_url (input_path : str) : bool :=
  (startswith input_path "http://" || startswith input_path "https://")
  && contains input_path "docs.google.com".

(** The HTTP requests of a trace, in order. *)
Definition is_http (ev : event) : bool :=
  match ev with
  | HttpRequest _ _ _ _ => true
  | _ => false
  end.

Definition http_requests (tr : list event) : list event := List.filter is_http tr.

(** The command line [download_gdoc] runs to fetch the document [doc_id]
    into [output_path]. *)
Definition curl_argv (output_path doc_id : str) : list str :=
  [of_string "curl"; of_string "-L"; of_string "-o"; output_path;
   of_string "https://docs.google.com/document/d/" ++ doc_id
   ++ of_string "/export?format=docx"].

(** The request [delete_page] sends for a page. *)
Definition delete_request (self : Confluence.ConfluenceClient) (page_id : str) : event :=
  HttpRequest (of_string "DELETE") (page_url self page_id) None None.

(** The command line [extract_text_pdftotext] runs. *)
Definition pdftotext_argv (input_path : str) : list str :=
  [of_string "pdftotext"; of_string "-layout"; input_path; of_string "-"].

(** ** Further sample environments *)

Module MoreSamples.

Definition library_error : exn := mk_exn OtherException (of_string "unsupported format").

(** Like [Samples.convert_env], with the suffix every path has as a
    parameter. *)
Definition convert_env (suffix : str) (file_exists : bool)
    (subprocess_answer : result CompletedProcess)
    (markitdown_answer : result str) : ConvertToMarkdown.Env :=
  {| lower := fun s => s;
     ConvertToMarkdown.path_suffix := fun _ => suffix;
     path_stem := fun s => s;
     ConvertToMarkdown.path_with_suffix := fun s x => s ++ x;
     ConvertToMarkdown.path_absolute := fun s => of_string "/work/" ++ s;
     path_join := fun d n => d ++ of_string "/" ++ n;
     ConvertToMarkdown.path_exists := fun _ => file_exists;
     path_size := fun _ => 1;
     temporary_directory := of_string "/tmp/t";
     subprocess_run := fun _ => subprocess_answer;
     markitdown_convert := fun _ _ => markitdown_answer;
     path_write_text := fun _ _ => Return tt |}.

Definition completed (code : Z) (out : str) : CompletedProcess :=
  {| returncode := code; stdout := out; stderr := [] |}.

End MoreSamples.

(** The query a lookup by space and title sends. *)
Definition title_query (space_key title : str) : Confluence.Kwargs :=
  {| Confluence.params := Some (dict [item "spaceKey" (JStr space_key);
                           item "title" (JStr title);
                           item "expand" (JStr "body.storage,version,space")]);
     Confluence.json_arg := None |}.

(** A step that leaves the trace as it is. *)
Definition silent {A} (m : M A) : Prop := forall tr, snd (m tr) = tr.

Module MoreConfluenceSamples.

Import Confluence.

(** A server that gives every request the same answer. *)
Definition answering (r : Response) : ConfluenceClient :=
  {| api_url := of_string "https://wiki.example/rest/api";
     session_request := fun _ _ _ => Return r |}.

Definition not_found_response : Response :=
  {| status_code := 404;
     content_type := Some (of_string "application/json");
     json_body := Some (JDict (dict [item "message" (JStr "No content found")]));
     text := [];
     error_str := of_string "404 Client Error" |}.

Definition search_hits : gmap str json :=
  dict [item "results" (JList [JDict ConfluenceSamples.home_page; JNull])].

Definition search_response : Response :=
  {| status_code := 200;
     content_type := Some (of_string "application/json");
     json_body := Some (JDict search_hits);
     text := [];
     error_str := [] |}.

(** A server whose error message holds a closing tag that closes nothing, and
    a console that refuses such a line as rich does, with a [MarkupError]
    (an [Exception] outside the classes named in [exc_class]). *)
Definition tagged_response : Response :=
  {| status_code := 400;
     content_type := Some (of_string "application/json");
     json_body := Some (JDict (dict [item "message" (JStr "see [/x]")]));
     text := [];
     error_str := of_string "400 Client Error" |}.

Definition markup_error : exn :=
  mk_exn OtherException
    (of_string "closing tag '[/x]' at position 22 doesn't match any open tag").

Definition strict_console (markup : str) : result unit :=
  if contains markup "[/x]" then Raise markup_error else Return tt.

(** A user who agrees to delete the page Home (123), and nothing else. *)
Definition confirm (prompt : str) : result bool :=
  Return (str_eqb prompt "Delete page 'Home' (ID: 123)?").

Definition environ (k : str) : option str :=
  if str_eqb k "CONFLUENCE_BASE_URL" then Some (of_string "https://wiki.example//")
  else if str_eqb k "CONFLUENCE_PAT" then Some (of_string "s3cr3t")
  else if str_eqb k "CONFLUENCE_USERNAME" then Some (of_string "ann")
  else None.

End MoreConfluenceSamples.

Module GoogleSamples.

Import GoogleWorkspaceConvert.

Definition not_shared : exn :=
  mk_exn OtherException (of_string "<HttpError 404 when requesting the file>").

Definition credentials : str := of_string "/keys/sa.json".

(** A Drive on which looking a file up ends as [lookup], an upload as
    [upload], and pandoc as [pandoc]; [credentials_path] is the value of
    [GOOGLE_APPLICATION_CREDENTIALS]. *)
Definition env (credentials_path : option str) (lookup upload : result File)
    (pandoc : result ConvertToMarkdown.CompletedProcess) : Env :=
  {| environ_get :=
       fun k => if str_eqb k "GOOGLE_APPLICATION_CREDENTIALS"
                then credentials_path else None;
     build_service := fun _ => Return tt;
     files_get := fun _ => lookup;
     open_wb := fun _ => Return tt;
     export_chunks := fun _ _ => ([Some 50; Some 100], None);
     download_chunks := fun _ => ([Some 100], None);
     files_create := fun _ _ => upload;
     files_list := fun _ => Return [];
     credentials_client_email := fun _ => Return (Some (of_string "bot@example.iam"));
     markitdown_convert := fun _ _ => Return (of_string "# Doc");
     subprocess_run := fun _ => pandoc;
     path_suffix := fun _ => [];
     path_stem := fun s => s;
     path_name := fun s => s;
     path_parent := fun _ => of_string ".";
     path_absolute := fun s => s;
     path_join := fun d n => d ++ of_string "/" ++ n;
     path_exists := fun _ => true;
     cwd := of_string "/work";
     temporary_directory := of_string "/tmp/t";
     path_mkdir := fun _ => Return tt;
     path_write_text := fun _ _ => Return tt;
     help_text := of_string "usage: convert.py ..." |}.

Definition to_markdown (input : str) : Args :=
  {| command := Some (of_string "to-markdown");
     input := input;
     output := None;
     ocr := false;
     name := None;
     folder := None;
     limit := 20 |}.

Definition uploaded (id link : option str) : File :=
  {| file_id := id; file_name := Some (of_string "notes");
     file_mimeType := None; file_webViewLink := link |}.

End GoogleSamples.

(** An image service on a machine on which no file exists. *)
Definition generate_env_without_files : GenerateImage.Env :=
  {| GenerateImage.environ_get :=
       fun k => if str_eqb k "GOOGLE_CLOUD_PROJECT" then Some (of_string "demo") else None;
     GenerateImage.make_client := fun _ => Return tt;
     GenerateImage.path_exists := fun _ => false;
     GenerateImage.guess_type := fun _ => None;
     GenerateImage.path_read_bytes := fun _ => Return [];
     GenerateImage.generate_content := fun _ _ _ _ _ => Return Samples.one_image;
     GenerateImage.path_suffix := fun _ => [];
     GenerateImage.path_with_suffix := fun s x => s ++ x;
     GenerateImage.path_parent := fun _ => of_string ".";
     GenerateImage.path_absolute := fun s => of_string "/work/" ++ s;
     GenerateImage.mkstemp := fun x => Return (of_string "/tmp/gemini_image_0" ++ x);
     GenerateImage.b64decode := fun _ => Return [];
     GenerateImage.path_mkdir := fun _ => Return tt;
     GenerateImage.path_write_bytes := fun _ _ => Return tt;
     GenerateImage.response_str := fun _ => of_string "response" |}.

(* ===================================================================== *)
(** * Properties *)
(* ===================================================================== *)

(** ** The model at work on concrete inputs *)

Example strip_both_ends :
  strip (of_string "  two words ") = of_string "two words".
Proof. vm_compute. reflexivity. Qed.

Example merge_similar_lengths :
  merge_extractions (Some (of_string "Report 2024")) (Some (of_string "Rep0rt 2O24!"))
  = of_string "Report 2024".
Proof. vm_compute. reflexivity. Qed.

Example merge_ocr_only :
  merge_extractions (Some []) (Some (of_string "scanned")) = of_string "scanned".
Proof. vm_compute. reflexivity. Qed.

Example timeout_is_an_exception :
  issubclass TimeoutExpired Exception = true
  /\ issubclass KeyboardInterrupt Exception = false
  /\ issubclass HTTPError OSError = true.
Proof. vm_compute. repeat split. Qed.

Example file_id_of_document_url :
  GoogleWorkspaceConvert.extract_file_id
    (of_string "https://docs.google.com/document/d/1AbC_d-9/edit?usp=sharing")
  = Return (of_string "1AbC_d-9").
Proof. vm_compute. reflexivity. Qed.

Example file_id_of_open_url :
  GoogleWorkspaceConvert.extract_file_id
    (of_string "https://drive.google.com/open?id=0B7_xyz")
  = Return (of_string "0B7_xyz").
Proof. vm_compute. reflexivity. Qed.

Example file_id_short_name_rejected :
  GoogleWorkspaceConvert.extract_file_id (of_string "notes.txt")
  = Raise (mk_exn ValueError (of_string "Could not extract file ID from: notes.txt")).
Proof. vm_compute. reflexivity. Qed.

Example pandoc_missing_falls_back :
  convert_file_content
    (Samples.convert_env true (Raise Samples.not_found) (Return (of_string "# T")))
    (of_string "a.rst") (of_string "auto") false []
  = (Return (of_string "# T"),
     [RunProcess (pandoc_argv (of_string "a.rst"));
      PrintErr (of_string "Pandoc not found, skipping pandoc conversion");
      MarkItDownConvert (of_string "a.rst") false]).
Proof. vm_compute. reflexivity. Qed.

(** ** The float comparison [ocr_len <= text_len * 1.2] *)

Lemma of_int_exact n : 0 <= n < 2 ^ 53 -> Float.of_int n = Float.mk n 0.
Proof.
  intros H. unfold Float.of_int, Float.round.
  destruct (Z.ltb_spec n (2 ^ 53)); [reflexivity | lia].
Qed.

(** Rounding moves the significand to one of its two neighbours, and up only
    from the upper half of the interval between them. *)
Lemma round_cases m e :
  2 ^ 53 <= m ->
  let s := Z.log2 m - 52 in
  let q := m / 2 ^ s in
  let r := m mod 2 ^ s in
  (2 ^ (s - 1) <= r /\ Float.round m e = Float.mk (q + 1) (e + s)) \/
  (r <= 2 ^ (s - 1) /\ Float.round m e = Float.mk q (e + s)).
Proof.
  intros Hm s q r. unfold Float.round.
  destruct (Z.ltb_spec m (2 ^ 53)); [lia |].
  fold s. rewrite Z.shiftr_div_pow2.
  2:{ subst s. assert (53 <= Z.log2 m) by (apply Z.log2_le_pow2; lia). lia. }
  fold q r.
  destruct (Z.ltb_spec (2 ^ (s - 1)) r); simpl.
  - left. split; [lia | reflexivity].
  - destruct (Z.eqb_spec r (2 ^ (s - 1))); simpl.
    + destruct (Z.odd q); [left | right]; (split; [lia | reflexivity]).
    + right. split; [lia | reflexivity].
Qed.

(** For lengths below [2 ^ 50] the rounded product decides exactly the
    rational comparison [k <= 6/5 * n]. *)
Lemma mul_1_2_le (n k : Z) :
  0 <= n < 2 ^ 50 ->
  Float.int_le k (Float.mul (Float.of_int n) Float.lit_1_2) = (5 * k <=? 6 * n).
Proof.
  intros Hn.
  assert (E50 : 2 ^ 50 = 1125899906842624) by reflexivity.
  assert (E52 : 2 ^ 52 = 4503599627370496) by reflexivity.
  assert (E53 : 2 ^ 53 = 9007199254740992) by reflexivity.
  rewrite of_int_exact by lia.
  unfold Float.mul, Float.lit_1_2; cbn [Float.mant Float.expo].
  set (M := n * 5404319552844595).
  destruct (Z.lt_ge_cases M (2 ^ 53)) as [Hs | Hb].
  - (* n <= 1: the product is exact *)
    unfold Float.round. destruct (Z.ltb_spec M (2 ^ 53)); [| lia].
    unfold Float.int_le; cbn [Float.mant Float.expo].
    change (0 <=? 0 + -52) with false. cbv iota.
    change (- (0 + -52)) with 52. rewrite E52.
    subst M. destruct (Z.leb_spec (k * 4503599627370496) (n * 5404319552844595));
      destruct (Z.leb_spec (5 * k) (6 * n)); try reflexivity; lia.
  - pose proof (round_cases M (0 + -52) Hb) as HR. cbv zeta in HR.
    set (s := Z.log2 M - 52) in *.
    assert (HL : 53 <= Z.log2 M) by (apply Z.log2_le_pow2; lia).
    assert (HU : Z.log2 M < 103).
    { apply Z.log2_lt_pow2; [lia |].
      replace (2 ^ 103) with (2 ^ 50 * 2 ^ 53) by reflexivity. subst M. nia. }
    assert (Hs : 1 <= s <= 50) by lia.
    destruct (Z.log2_spec M ltac:(lia)) as [Hlo Hhi].
    replace (Z.log2 M) with (52 + s) in Hlo by lia.
    replace (Z.succ (Z.log2 M)) with (53 + s) in Hhi by lia.
    rewrite Z.pow_add_r in Hlo, Hhi by lia.
    set (P := 2 ^ s) in *. set (H := 2 ^ (s - 1)) in *.
    assert (HP : P = 2 * H).
    { subst P H. replace s with (1 + (s - 1)) at 1 by lia.
      rewrite Z.pow_add_r by lia. reflexivity. }
    assert (HH : 1 <= H <= 2 ^ 49).
    { subst H. split.
      - assert (0 < 2 ^ (s - 1)) by (apply Z.pow_pos_nonneg; lia). lia.
      - apply Z.pow_le_mono_r; lia. }
    assert (E49 : 2 ^ 49 = 562949953421312) by reflexivity.
    set (T := 2 ^ (52 - s)).
    assert (HT : T * P = 2 ^ 52).
    { subst T P. rewrite <- Z.pow_add_r by lia. f_equal. lia. }
    assert (HT0 : 0 < T) by (subst T; apply Z.pow_pos_nonneg; lia).
    pose proof (Z.div_mod M P ltac:(lia)) as Hdm.
    pose proof (Z.mod_pos_bound M P ltac:(lia)) as Hr.
    set (q := M / P) in *. set (r := M mod P) in *.
    assert (HM : 5 * M = 6 * 2 ^ 52 * n - n) by (subst M; lia).
    assert (Hexp : forall q',
               Float.int_le k (Float.mk q' (0 + -52 + s)) = (k * T <=? q')).
    { intros q'. unfold Float.int_le; cbn [Float.mant Float.expo].
      destruct (Z.leb_spec 0 (0 + -52 + s)); [lia |].
      replace (- (0 + -52 + s)) with (52 - s) by lia. reflexivity. }
    rewrite E52, E53 in *.
    destruct HR as [[Hr1 ->] | [Hr1 ->]]; rewrite Hexp;
      destruct (Z.leb_spec (5 * k) (6 * n)) as [Hk | Hk];
      [ destruct (Z.leb_spec (k * T) (q + 1))
      | destruct (Z.leb_spec (k * T) (q + 1))
      | destruct (Z.leb_spec (k * T) q)
      | destruct (Z.leb_spec (k * T) q) ];
      try reflexivity; exfalso.
    + (* rounded up, 5k <= 6n, yet q + 1 < k T *)
      assert ((q + 2) * P <= k * T * P) by nia.
      nia.
    + (* rounded up, 6n < 5k, yet k T <= q + 1 *)
      assert (k * T * P <= (q + 1) * P) by nia.
      nia.
    + (* rounded down, 5k <= 6n, yet q < k T: then 5k = 6n, which rounds up *)
      assert ((q + 1) * P <= k * T * P) by nia.
      assert (5 * k = 6 * n) by nia.
      nia.
    + (* rounded down, 6n < 5k, yet k T <= q *)
      assert (k * T * P <= q * P) by nia.
      nia.
Qed.

(** The model of the product agrees with the Standard Library's IEEE 754
    multiplication, also where the conversion of the length rounds. *)
Example float_mul_agrees_with_SpecFloat :
  forallb
    (fun n =>
       Float.same_value
         (Float.mul (Float.of_int n) Float.lit_1_2)
         (SFmul 53 1024 (binary_normalize 53 1024 n 0 false)
                (S754_finite false 5404319552844595 (-52))))
    [0; 1; 2; 3; 4; 5; 7; 10; 15; 1000; 123456789; 2 ^ 40 + 5; 2 ^ 50 - 1;
     2 ^ 53 + 1; 2 ^ 53 + 3; 5 * (2 ^ 52 + 1); 2 ^ 62 + 12345]
  = true.
Proof. vm_compute. reflexivity. Qed.

(** ** [merge_extractions] *)

Lemma truthy_Some (s : str) : s <> [] -> truthy (Some s) = true.
Proof. destruct s; [congruence | reflexivity]. Qed.

Lemma or_else_Some (s d : str) : s <> [] -> or_else (Some s) d = s.
Proof. destruct s; [congruence | reflexivity]. Qed.

Lemma truthy_absent (s : option str) : absent s -> truthy s = false.
Proof. intros [-> | ->]; reflexivity. Qed.

Lemma len_nonneg (s : str) : 0 <= len s.
Proof. unfold len. lia. Qed.

(** With both inputs present the result is decided by the rational
    comparison of the stripped lengths. *)
Lemma merge_both_present (text ocr : str) :
  text <> [] -> ocr <> [] -> len (strip text) < 2 ^ 50 ->
  merge_extractions (Some text) (Some ocr)
  = if 5 * len (strip ocr) <=? 6 * len (strip text) then text
    else ocr ++ separator ++ text.
Proof.
  intros Ht Ho Hb. unfold merge_extractions.
  rewrite !truthy_Some, !or_else_Some by assumption. cbn [negb andb].
  rewrite mul_1_2_le by (pose proof (len_nonneg (strip text)); lia).
  reflexivity.
Qed.

(** C1 (as amended): for non-empty [text] and [ocr] whose lengths after
    [strip()] satisfy [ocr_len <= 1.2 * text_len] (the text being shorter than
    [2 ^ 50] characters), [merge_extractions] returns [text] unchanged. *)
Theorem merge_prefers_text (text ocr : str) :
  text <> [] -> ocr <> [] -> len (strip text) < 2 ^ 50 ->
  5 * len (strip ocr) <= 6 * len (strip text) ->
  merge_extractions (Some text) (Some ocr) = text.
Proof.
  intros Ht Ho Hb Hle. rewrite merge_both_present by assumption.
  destruct (Z.leb_spec (5 * len (strip ocr)) (6 * len (strip text)));
    [reflexivity | lia].
Qed.

Lemma merge_prefers_text_witness :
  merge_extractions (Some (of_string "Title  ")) (Some (of_string " Title"))
  = of_string "Title  ".
Proof.
  apply (merge_prefers_text (of_string "Title  ") (of_string " Title"));
    vm_compute; congruence.
Defined.

(** C1 fails as stated: [" "] and ["x"] are non-empty and of equal length,
    yet the result is the combination and not the text. *)
Lemma merge_equal_length_counterexample :
  of_string " " <> [] /\ of_string "x" <> []
  /\ len (of_string "x") = len (of_string " ")
  /\ merge_extractions (Some (of_string " ")) (Some (of_string "x"))
     = of_string "x" ++ separator ++ of_string " "
  /\ merge_extractions (Some (of_string " ")) (Some (of_string "x"))
     <> of_string " ".
Proof. vm_compute. repeat split; congruence. Qed.

(** C2 (as amended): for a non-empty [text] shorter than [2 ^ 50] characters
    and an [ocr] whose length after [strip()] is more than 1.2 times that of
    [text] after [strip()], the result is [ocr], the fixed separator and
    [text], in this order and each verbatim. *)
Theorem merge_combines (text ocr : str) :
  text <> [] -> len (strip text) < 2 ^ 50 ->
  6 * len (strip text) < 5 * len (strip ocr) ->
  merge_extractions (Some text) (Some ocr) = ocr ++ separator ++ text.
Proof.
  intros Ht Hb Hlt.
  assert (Ho : ocr <> []).
  { intros ->. pose proof (len_nonneg (strip text)).
    change (len (strip [])) with 0 in Hlt. lia. }
  rewrite merge_both_present by assumption.
  destruct (Z.leb_spec (5 * len (strip ocr)) (6 * len (strip text)));
    [lia | reflexivity].
Qed.

Lemma merge_combines_witness :
  merge_extractions (Some (of_string "p. 1")) (Some (of_string "Invoice 42"))
  = of_string "Invoice 42" ++ separator ++ of_string "p. 1".
Proof.
  apply (merge_combines (of_string "p. 1") (of_string "Invoice 42"));
    vm_compute; congruence.
Defined.

(** C2 fails as stated: ["b    "] is five times as long as ["a"], yet the
    result is ["a"] alone, which does not contain the OCR string. *)
Lemma merge_longer_ocr_counterexample :
  of_string "a" <> [] /\ of_string "b    " <> []
  /\ 6 * len (of_string "a") < 5 * len (of_string "b    ")
  /\ merge_extractions (Some (of_string "a")) (Some (of_string "b    "))
     = of_string "a"
  /\ ~ substring (of_string "b    ")
         (merge_extractions (Some (of_string "a")) (Some (of_string "b    "))).
Proof.
  repeat split; try (vm_compute; congruence).
  intros (pre & post & E).
  replace (merge_extractions _ _) with [97%N] in E by (vm_compute; reflexivity).
  apply (f_equal (@length N)) in E.
  rewrite !length_app in E. cbn in E. lia.
Qed.

(** C3: when both inputs are absent ([None] or empty) the result is the
    empty string. *)
Theorem merge_both_absent (text_content ocr_content : option str) :
  absent text_content -> absent ocr_content ->
  merge_extractions text_content ocr_content = [].
Proof.
  intros Ht Ho. unfold merge_extractions.
  rewrite (truthy_absent _ Ht), (truthy_absent _ Ho). reflexivity.
Qed.

Lemma merge_both_absent_witness : merge_extractions None (Some []) = [].
Proof.
  apply (merge_both_absent None (Some [])); [left | right]; reflexivity.
Defined.

(** C4: when exactly one input is a non-empty string and the other is absent
    ([None] or empty), the result is the non-empty input unchanged, whichever
    of the two arguments it is. *)
Theorem merge_one_present (s : str) (other : option str) :
  s <> [] -> absent other ->
  merge_extractions (Some s) other = s /\ merge_extractions other (Some s) = s.
Proof.
  intros Hs Ho. unfold merge_extractions.
  rewrite (truthy_absent _ Ho), (truthy_Some _ Hs), (or_else_Some _ _ Hs).
  split; reflexivity.
Qed.

Lemma merge_one_present_witness :
  merge_extractions (Some (of_string "scan")) (Some []) = of_string "scan"
  /\ merge_extractions (Some []) (Some (of_string "scan")) = of_string "scan".
Proof.
  apply (merge_one_present (of_string "scan") (Some []));
    [vm_compute; congruence | right; reflexivity].
Defined.

(** C8: for a non-empty [text_content] and any [ocr_content], present or
    not, the result contains [text_content] as a contiguous block. *)
Theorem merge_keeps_text (text : str) (ocr_content : option str) :
  text <> [] -> substring text (merge_extractions (Some text) ocr_content).
Proof.
  intros Ht. unfold merge_extractions, substring.
  rewrite (truthy_Some _ Ht), (or_else_Some _ _ Ht). cbn [negb andb].
  destruct (truthy ocr_content); cbn [negb].
  - destruct (Float.int_le _ _).
    + exists [], []. rewrite app_nil_r. reflexivity.
    + exists (or_else ocr_content [] ++ separator), [].
      rewrite app_nil_r, <- app_assoc. reflexivity.
  - exists [], []. rewrite app_nil_r. reflexivity.
Qed.

Lemma merge_keeps_text_witness :
  substring (of_string "body")
    (merge_extractions (Some (of_string "body")) (Some (of_string "a much longer body"))).
Proof.
  apply (merge_keeps_text (of_string "body")). vm_compute; congruence.
Defined.

(** ** Traces *)

Lemma extends_ret {A} (a : A) : extends (ret a).
Proof. intros tr. exists []. cbn. now rewrite app_nil_r. Qed.

Lemma extends_raise {A} c msg : extends (@raise A c msg).
Proof. intros tr. exists []. cbn. now rewrite app_nil_r. Qed.

Lemma extends_ask {A} (r : result A) : extends (ask r).
Proof. intros tr. exists []. cbn. now rewrite app_nil_r. Qed.

Lemma extends_call {A} ev (r : result A) : extends (call ev r).
Proof. intros tr. exists [ev]. reflexivity. Qed.

Lemma extends_emit ev : extends (emit ev).
Proof. apply extends_call. Qed.

Lemma extends_bind {A B} (m : M A) (k : A -> M B) :
  extends m -> (forall a, extends (k a)) -> extends (bind m k).
Proof.
  intros Hm Hk tr. unfold bind. destruct (Hm tr) as [t1 E1].
  destruct (m tr) as [[a | e] tr1]; cbn in E1; subst tr1.
  - destruct (Hk a (tr ++ t1)) as [t2 E2]. exists (t1 ++ t2).
    now rewrite E2, app_assoc.
  - now exists t1.
Qed.

Lemma extends_try_except {A} (m : M A) handler :
  extends m -> (forall e h, handler e = Some h -> extends h) ->
  extends (try_except m handler).
Proof.
  intros Hm Hh tr. unfold try_except. destruct (Hm tr) as [t1 E1].
  destruct (m tr) as [[a | e] tr1]; cbn in E1; subst tr1.
  - now exists t1.
  - destruct (handler e) as [h |] eqn:Eh.
    + destruct (Hh e h Eh (tr ++ t1)) as [t2 E2]. exists (t1 ++ t2).
      now rewrite E2, app_assoc.
    + now exists t1.
Qed.

Lemma extends_try_finally {A} (m : M A) cleanup :
  extends m -> extends cleanup -> extends (try_finally m cleanup).
Proof.
  intros Hm Hc tr. unfold try_finally. destruct (Hm tr) as [t1 E1].
  destruct (m tr) as [r tr1]; cbn in E1; subst tr1.
  destruct (Hc (tr ++ t1)) as [t2 E2].
  destruct (cleanup (tr ++ t1)) as [[u | e] tr2]; cbn in E2; subst tr2;
    exists (t1 ++ t2); cbn; now rewrite app_assoc.
Qed.

Lemma starts_with_call {A} ev (r : result A) : starts_with ev (call ev r).
Proof. intros tr. exists []. reflexivity. Qed.

Lemma starts_with_bind {A B} ev (m : M A) (k : A -> M B) :
  starts_with ev m -> (forall a, extends (k a)) -> starts_with ev (bind m k).
Proof.
  intros Hm Hk tr. unfold bind. destruct (Hm tr) as [t1 E1].
  destruct (m tr) as [[a | e] tr1]; cbn in E1; subst tr1.
  - destruct (Hk a (tr ++ ev :: t1)) as [t2 E2]. exists (t1 ++ t2).
    rewrite E2, <- app_assoc. reflexivity.
  - now exists t1.
Qed.

Lemma starts_with_try_except {A} ev (m : M A) handler :
  starts_with ev m -> (forall e h, handler e = Some h -> extends h) ->
  starts_with ev (try_except m handler).
Proof.
  intros Hm Hh tr. unfold try_except. destruct (Hm tr) as [t1 E1].
  destruct (m tr) as [[a | e] tr1]; cbn in E1; subst tr1.
  - now exists t1.
  - destruct (handler e) as [h |] eqn:Eh.
    + destruct (Hh e h Eh (tr ++ ev :: t1)) as [t2 E2]. exists (t1 ++ t2).
      rewrite E2, <- app_assoc. reflexivity.
    + now exists t1.
Qed.

Lemma starts_with_extends {A} ev (m : M A) : starts_with ev m -> extends m.
Proof. intros H tr. destruct (H tr) as [t E]. now exists (ev :: t). Qed.

Create HintDb trace.
#[local] Hint Resolve extends_ret extends_raise extends_ask extends_call
  extends_emit extends_bind extends_try_except extends_try_finally
  starts_with_call starts_with_bind starts_with_try_except : trace.

(** ** Routing in [convert_file_content] *)

Section Routing.

Variable env : Env.

Lemma run_pandoc_starts input_path :
  starts_with (RunProcess (pandoc_argv input_path)) (run_pandoc env input_path).
Proof.
  unfold run_pandoc, run, print_err.
  apply starts_with_try_except.
  - apply starts_with_bind; [apply starts_with_call |].
    intros p. destruct (returncode p =? 0); auto with trace.
  - intros e h. destruct (isinstance e FileNotFoundError);
      [| destruct (isinstance e TimeoutExpired)];
      intros [= <-] || discriminate; auto with trace.
Qed.

Lemma run_markitdown_starts input_path enable_ocr :
  starts_with (MarkItDownConvert input_path enable_ocr)
              (run_markitdown env input_path enable_ocr).
Proof.
  unfold run_markitdown, print_err.
  apply starts_with_try_except.
  - auto with trace.
  - intros e h. destruct (isinstance e Exception);
      intros [= <-] || discriminate; auto with trace.
Qed.

Lemma run_pandoc_extends input_path : extends (run_pandoc env input_path).
Proof. eapply starts_with_extends, run_pandoc_starts. Qed.

Lemma run_markitdown_extends input_path enable_ocr :
  extends (run_markitdown env input_path enable_ocr).
Proof. eapply starts_with_extends, run_markitdown_starts. Qed.

Lemma first_call {A} ev (m : M A) :
  starts_with ev m ->
  exists tr', snd (m []) = [] ++ ev :: tr' /\ primary_converter [] = None.
Proof. intros S. destruct (S []) as [t E]. exists t. split; [exact E | reflexivity]. Qed.

Lemma primary_converter_app tr tr' :
  primary_converter (tr ++ tr')
  = match primary_converter tr with
    | Some c => Some c
    | None => primary_converter tr'
    end.
Proof.
  induction tr as [| ev tr IH]; [reflexivity |].
  cbn. destruct (converter_of ev); [reflexivity | exact IH].
Qed.

Lemma PANDOC_FORMATS_spec (s : str) :
  s ∈ PANDOC_FORMATS
  <-> s ∈ [of_string ".epub"; of_string ".org"; of_string ".rst";
           of_string ".tex"; of_string ".latex"; of_string ".odt";
           of_string ".rtf"].
Proof. unfold PANDOC_FORMATS. apply elem_of_list_to_set. Qed.

(** What the function does in each of its three branches, up to the
    converter it calls first. *)
Lemma convert_file_content_first path mode hybrid :
  exists pre tr',
    snd (convert_file_content env path mode hybrid []) =
      pre ++ (if bool_decide (lower env (path_suffix env path) ∈ PANDOC_FORMATS)
              then RunProcess (pandoc_argv path)
              else MarkItDownConvert path
                     (if str_eqb (lower env (path_suffix env path)) ".pdf" && hybrid
                      then false
                      else str_eqb mode "ocr"
                           || (str_eqb mode "auto"
                               && bool_decide (lower env (path_suffix env path)
                                               ∈ IMAGE_FORMATS))))
          :: tr'
    /\ primary_converter pre = None.
Proof.
  unfold convert_file_content.
  pose proof run_pandoc_extends. pose proof run_markitdown_extends.
  pose proof run_pandoc_starts. pose proof run_markitdown_starts.
  destruct (bool_decide _).
  - exists []. apply first_call.
    apply starts_with_bind; [auto |].
    intros a. destruct (truthy a); [auto with trace |].
    apply extends_bind; [auto |].
    intros b. destruct (truthy b); auto with trace.
  - destruct (str_eqb _ _ && hybrid).
    + exists [PrintErr (of_string "Running hybrid extraction (text + OCR)...")].
      unfold bind at 1. cbn [print_err emit call app].
      match goal with
      | |- context [snd (?m ?t)] =>
          assert (S : starts_with (MarkItDownConvert path false) m)
      end.
      { apply starts_with_bind; [auto |].
        intros a. apply extends_bind; [auto |]. intros b. auto with trace. }
      destruct (S [PrintErr (of_string "Running hybrid extraction (text + OCR)...")])
        as [t E].
      exists t. split; [exact E | reflexivity].
    + exists []. apply first_call.
      apply starts_with_bind; [auto |].
      intros a. destruct (truthy a); [auto with trace |].
      apply extends_bind; [auto |].
      intros b. destruct (truthy b); auto with trace.
Qed.

(** C5: the first converter [convert_file_content] invokes is pandoc exactly
    when the lower-cased suffix of the path is one of [.epub], [.org], [.rst],
    [.tex], [.latex], [.odt], [.rtf], and the markitdown library exactly when
    it is not. *)
Theorem convert_file_content_routing path mode hybrid :
  let suffix := lower env (path_suffix env path) in
  let formats :=
    [of_string ".epub"; of_string ".org"; of_string ".rst"; of_string ".tex";
     of_string ".latex"; of_string ".odt"; of_string ".rtf"] in
  let tr := snd (convert_file_content env path mode hybrid []) in
  (primary_converter tr = Some Pandoc <-> suffix ∈ formats)
  /\ (primary_converter tr = Some MarkItDown <-> suffix ∉ formats).
Proof.
  cbv zeta.
  destruct (convert_file_content_first path mode hybrid) as (pre & tr' & E & Hpre).
  rewrite E, primary_converter_app, Hpre. clear E.
  rewrite <- PANDOC_FORMATS_spec.
  destruct (bool_decide_reflect (lower env (path_suffix env path) ∈ PANDOC_FORMATS));
    cbn; split; split; intros; try tauto; try discriminate; contradiction.
Qed.

End Routing.

(** ** [run_pandoc] *)

(** C6: when the pandoc sub-process fails with [FileNotFoundError], with
    [TimeoutExpired] or with a non-zero exit code, [run_pandoc] returns [None]
    and raises nothing; it returns the sub-process's stdout exactly when the
    exit code is zero; and for a pandoc format [convert_file_content] then
    goes on to the markitdown fallback. *)
Theorem run_pandoc_failures (env : Env) (input_path : str) (tr : list event) :
  let outcome := subprocess_run env (pandoc_argv input_path) in
  (forall e, outcome = Raise e ->
     isinstance e FileNotFoundError = true \/ isinstance e TimeoutExpired = true ->
     fst (run_pandoc env input_path tr) = Return None)
  /\ (forall p, outcome = Return p -> returncode p <> 0 ->
        fst (run_pandoc env input_path tr) = Return None)
  /\ (forall out,
        fst (run_pandoc env input_path tr) = Return (Some out)
        <-> exists p, outcome = Return p /\ returncode p = 0 /\ stdout p = out)
  /\ (forall mode hybrid,
        lower env (path_suffix env input_path) ∈ PANDOC_FORMATS ->
        fst (run_pandoc env input_path []) = Return None ->
        MarkItDownConvert input_path false
          ∈ snd (convert_file_content env input_path mode hybrid [])).
Proof.
  cbv zeta.
  assert (R : forall t,
    run_pandoc env input_path t =
      match subprocess_run env (pandoc_argv input_path) with
      | Return p =>
          if returncode p =? 0
          then (Return (Some (stdout p)), t ++ [RunProcess (pandoc_argv input_path)])
          else (Return None,
                (t ++ [RunProcess (pandoc_argv input_path)])
                ++ [PrintErr (of_string "Pandoc warning: " ++ stderr p)])
      | Raise e =>
          if isinstance e FileNotFoundError
          then (Return None,
                (t ++ [RunProcess (pandoc_argv input_path)])
                ++ [PrintErr (of_string "Pandoc not found, skipping pandoc conversion")])
          else if isinstance e TimeoutExpired
          then (Return None,
                (t ++ [RunProcess (pandoc_argv input_path)])
                ++ [PrintErr (of_string "Pandoc timed out")])
          else (Raise e, t ++ [RunProcess (pandoc_argv input_path)])
      end).
  { intros t. unfold run_pandoc, try_except, bind, run, call, pandoc_argv.
    destruct (subprocess_run env _) as [p | e]; cbv beta iota.
    - destruct (returncode p =? 0); reflexivity.
    - destruct (isinstance e FileNotFoundError); [reflexivity |].
      destruct (isinstance e TimeoutExpired); reflexivity. }
  repeat split.
  - intros e He Hc. rewrite R, He.
    destruct (isinstance e FileNotFoundError); [reflexivity |].
    destruct Hc as [Hc | Hc]; [discriminate | rewrite Hc; reflexivity].
  - intros p Hp Hrc. rewrite R, Hp.
    destruct (Z.eqb_spec (returncode p) 0); [contradiction | reflexivity].
  - rewrite R. destruct (subprocess_run env _) as [p | e].
    + destruct (Z.eqb_spec (returncode p) 0); cbn; [| discriminate].
      intros [= <-]. now exists p.
    + destruct (isinstance e FileNotFoundError); [discriminate |].
      destruct (isinstance e TimeoutExpired); discriminate.
  - intros (p & Hp & Hrc & <-). rewrite R, Hp, Hrc. reflexivity.
  - intros mode hybrid Hin Hnone. unfold convert_file_content.
    rewrite bool_decide_eq_true_2 by exact Hin.
    unfold bind at 1. destruct (run_pandoc env input_path []) as [[c | e] t1];
      cbn in Hnone; [| discriminate]. injection Hnone as ->. cbn [truthy].
    match goal with
    | |- context [snd (?m t1)] =>
        assert (S : starts_with (MarkItDownConvert input_path false) m)
    end.
    { apply starts_with_bind; [apply run_markitdown_starts |].
      intros b. destruct (truthy b); auto with trace. }
    destruct (S t1) as [t2 E].
    rewrite E. apply elem_of_app. right. left.
Qed.

Lemma run_pandoc_failures_witness :
  fst (run_pandoc (Samples.convert_env true (Raise Samples.not_found) (Return []))
                  (of_string "notes.rst") [])
  = Return None.
Proof.
  apply (proj1 (run_pandoc_failures
                  (Samples.convert_env true (Raise Samples.not_found) (Return []))
                  (of_string "notes.rst") []) Samples.not_found);
    [reflexivity | left; reflexivity].
Defined.

(** ** Exit codes of the command-line tools *)

Lemma guarded_returns {A} (operation : M A) v tr :
  operation [] = (Return v, tr) -> fst (sys_exit (guarded operation)) = Exited 0.
Proof.
  intros H. unfold sys_exit, guarded, try_except, bind. rewrite H. reflexivity.
Qed.

Lemma guarded_raises {A} (operation : M A) e tr :
  operation [] = (Raise e, tr) ->
  fst (sys_exit (guarded operation))
  = if isinstance e Exception then Exited 1 else Uncaught e.
Proof.
  intros H. unfold sys_exit, guarded, try_except, bind. rewrite H.
  destruct (isinstance e Exception); reflexivity.
Qed.

(** An exception outside the [Exception] hierarchy goes through the guard
    as it is: nothing is printed and no exit code is produced. *)
Lemma guarded_lets_through {A} (operation : M A) e tr :
  operation [] = (Raise e, tr) -> isinstance e Exception = false ->
  sys_exit (guarded operation) = (Uncaught e, tr).
Proof.
  intros H He. unfold sys_exit, guarded, try_except, bind. rewrite H, He.
  reflexivity.
Qed.

(** C7 (as amended): each of the two command-line tools exits with code 0
    when its operation ([convert_file], [generate_image]) returns, and with
    code 1 when the operation raises an exception derived from [Exception];
    an exception outside that hierarchy ([KeyboardInterrupt], [SystemExit])
    is not caught by [main]: it comes out of [main] as it was raised, with
    nothing printed and no exit code. *)
Theorem cli_exit_codes :
  (forall env args v tr,
     convert_file env (ConvertToMarkdown.input args) (ConvertToMarkdown.output args)
                  (mode args) (hybrid args) [] = (Return v, tr) ->
     fst (sys_exit (ConvertToMarkdown.main env args)) = Exited 0)
  /\ (forall env args e tr,
        convert_file env (ConvertToMarkdown.input args) (ConvertToMarkdown.output args)
                     (mode args) (hybrid args) [] = (Raise e, tr) ->
        isinstance e Exception = true ->
        fst (sys_exit (ConvertToMarkdown.main env args)) = Exited 1)
  /\ (forall env args v tr,
        GenerateImage.generate_image env
          (GenerateImage.prompt args) (GenerateImage.input args)
          (GenerateImage.output args) (GenerateImage.aspect_ratio args)
          (GenerateImage.size args) [] = (Return v, tr) ->
        fst (sys_exit (GenerateImage.main env args)) = Exited 0)
  /\ (forall env args e tr,
        GenerateImage.generate_image env
          (GenerateImage.prompt args) (GenerateImage.input args)
          (GenerateImage.output args) (GenerateImage.aspect_ratio args)
          (GenerateImage.size args) [] = (Raise e, tr) ->
        isinstance e Exception = true ->
        fst (sys_exit (GenerateImage.main env args)) = Exited 1)
  /\ (forall env args e tr,
        convert_file env (ConvertToMarkdown.input args) (ConvertToMarkdown.output args)
                     (mode args) (hybrid args) [] = (Raise e, tr) ->
        isinstance e Exception = false ->
        sys_exit (ConvertToMarkdown.main env args) = (Uncaught e, tr))
  /\ (forall env args e tr,
        GenerateImage.generate_image env
          (GenerateImage.prompt args) (GenerateImage.input args)
          (GenerateImage.output args) (GenerateImage.aspect_ratio args)
          (GenerateImage.size args) [] = (Raise e, tr) ->
        isinstance e Exception = false ->
        sys_exit (GenerateImage.main env args) = (Uncaught e, tr))
  /\ (forall e,
        exc_type e = KeyboardInterrupt \/ exc_type e = SystemExit ->
        isinstance e Exception = false).
Proof.
  split; [| split; [| split; [| split; [| split; [| split]]]]].
  - intros env args v tr H. exact (guarded_returns _ v tr H).
  - intros env args e tr H He.
    change (ConvertToMarkdown.main env args) with
      (guarded (convert_file env (ConvertToMarkdown.input args)
                  (ConvertToMarkdown.output args) (mode args) (hybrid args))).
    rewrite (guarded_raises _ e tr H), He. reflexivity.
  - intros env args v tr H. exact (guarded_returns _ v tr H).
  - intros env args e tr H He.
    change (GenerateImage.main env args) with
      (guarded (GenerateImage.generate_image env
                  (GenerateImage.prompt args) (GenerateImage.input args)
                  (GenerateImage.output args) (GenerateImage.aspect_ratio args)
                  (GenerateImage.size args))).
    rewrite (guarded_raises _ e tr H), He. reflexivity.
  - intros env args e tr H He.
    exact (guarded_lets_through
             (convert_file env (ConvertToMarkdown.input args)
                (ConvertToMarkdown.output args) (mode args) (hybrid args))
             e tr H He).
  - intros env args e tr H He.
    exact (guarded_lets_through
             (GenerateImage.generate_image env
                (GenerateImage.prompt args) (GenerateImage.input args)
                (GenerateImage.output args) (GenerateImage.aspect_ratio args)
                (GenerateImage.size args))
             e tr H He).
  - intros [c msg] [H | H]; cbn [exc_type] in H; subst c; reflexivity.
Qed.

Lemma cli_exit_codes_witness :
  (fst (sys_exit (ConvertToMarkdown.main
                    (Samples.convert_env true (Raise Samples.not_found)
                                         (Return (of_string "# Notes")))
                    Samples.convert_args)) = Exited 0
   /\ fst (sys_exit (ConvertToMarkdown.main
                       (Samples.convert_env false (Raise Samples.not_found) (Return []))
                       Samples.convert_args)) = Exited 1)
  /\ (fst (sys_exit (GenerateImage.main
                       (Samples.generate_env (Some (of_string "demo"))
                                             (Return Samples.one_image))
                       Samples.generate_args)) = Exited 0
      /\ fst (sys_exit (GenerateImage.main
                          (Samples.generate_env None (Return Samples.one_image))
                          Samples.generate_args)) = Exited 1)
  /\ (sys_exit (ConvertToMarkdown.main
                  (Samples.convert_env true (Raise Samples.not_found)
                                       (Raise Samples.interrupt))
                  Samples.convert_args)
      = (Uncaught Samples.interrupt,
         [RunProcess (pandoc_argv (of_string "notes"));
          PrintErr (of_string "Pandoc not found, skipping pandoc conversion");
          MarkItDownConvert (of_string "notes") false])
      /\ sys_exit (GenerateImage.main
                     (Samples.generate_env (Some (of_string "demo"))
                                           (Raise Samples.interrupt))
                     Samples.generate_args)
         = (Uncaught Samples.interrupt,
            [GenerateContent (of_string "gemini-3-pro-image-preview") None
               (of_string "a lighthouse") (of_string "16:9") (of_string "2K")])).
Proof.
  destruct cli_exit_codes as (C0 & C1 & G0 & G1 & CU & GU & HK).
  split; [split | split; [split | split]].
  - eapply C0. vm_compute. reflexivity.
  - eapply C1; [vm_compute; reflexivity | reflexivity].
  - eapply G0. vm_compute. reflexivity.
  - eapply G1; [vm_compute; reflexivity | reflexivity].
  - apply CU; [vm_compute; reflexivity | apply HK; left; reflexivity].
  - apply GU; [vm_compute; reflexivity | apply HK; left; reflexivity].
Defined.

(** C7 fails as stated for an exception outside the [Exception] hierarchy:
    when the conversion is interrupted, [convert_file] raises
    [KeyboardInterrupt], [main] lets it through and the process does not exit
    with code 1. *)
Lemma cli_exit_code_counterexample :
  let env := Samples.convert_env true (Raise Samples.not_found)
                                 (Raise Samples.interrupt) in
  let args := Samples.convert_args in
  fst (convert_file env (ConvertToMarkdown.input args) (ConvertToMarkdown.output args)
                    (mode args) (hybrid args) [])
  = Raise Samples.interrupt
  /\ fst (sys_exit (ConvertToMarkdown.main env args)) = Uncaught Samples.interrupt
  /\ fst (sys_exit (ConvertToMarkdown.main env args)) <> Exited 1.
Proof. vm_compute. repeat split; congruence. Qed.

(** ** [ConfluenceClient.update_page] *)

Section UpdatePage.

Import Confluence.

Variable py_str : json -> str.
Variable console : str -> result unit.
Variable self : ConfluenceClient.

Ltac str_neq := let E := fresh in intros E; vm_compute in E; discriminate E.

Lemma extends_console_print (markup : str) : extends (console_print console markup).
Proof.
  unfold console_print, print. destruct (console markup); auto with trace.
Qed.

Lemma _request_starts (method endpoint : str) (kwargs : Kwargs) :
  starts_with
    (HttpRequest method (api_url self ++ of_string "/" ++ lstrip_slash endpoint)
                 (params kwargs) (json_arg kwargs))
    (_request py_str console self method endpoint kwargs).
Proof.
  pose proof extends_console_print.
  unfold _request. apply starts_with_bind; [apply starts_with_call |].
  intros r. destruct (_ && _).
  - apply extends_bind.
    + unfold error_message.
      destruct (json_body r) as [[| | | s | l | d] |]; auto with trace.
      * destruct (contains s _); auto with trace.
      * destruct (existsb _ l); auto with trace.
      * destruct (getitem d _); auto with trace.
    + auto with trace.
  - destruct (_ =? 204); [auto with trace |].
    destruct (startswith _ _); [| auto with trace].
    destruct (json_body r); auto with trace.
Qed.

(** A fetch by page id that returns has issued exactly one request. *)
Lemma get_page_by_id_trace (page_id : str) (current : json) (tr1 : list event) :
  get_page py_str console self (Some page_id) None None [] = (Return current, tr1) ->
  page_id <> [] /\ tr1 = [fetch_request self page_id].
Proof.
  unfold get_page. destruct page_id as [| c page_id]; [discriminate |].
  cbn [truthy or_else]. intros H. split; [discriminate |].
  revert H. unfold _request, bind, call, console_print, print, emit, ask, call.
  cbn [params json_arg app].
  destruct (session_request self _ _ _) as [r | e]; [| discriminate].
  destruct (_ && _).
  - destruct (error_message r _) as [[m | e] t]; [| discriminate].
    destruct (console _); discriminate.
  - destruct (_ =? 204); [intros [= _ <-]; reflexivity |].
    destruct (startswith _ _); [| intros [= _ <-]; reflexivity].
    destruct (json_body r); [intros [= _ <-]; reflexivity | discriminate].
Qed.

(** C9: an update first fetches the current page; the request it then sends
    carries the fetched version number plus one, the fetched title when no
    new title is supplied, and no body field when no new body is supplied. *)
Theorem update_page_request (page_id : str) (body title : option str)
    (body_format : str) (minor_edit : bool)
    (current version : gmap str json) (number : Z) (tr1 : list event) :
  get_page py_str console self (Some page_id) None None [] = (Return (JDict current), tr1) ->
  getitem current "version" = Some (JDict version) ->
  getitem version "number" = Some (JInt number) ->
  exists data rest,
    tr1 = [fetch_request self page_id]
    /\ snd (update_page py_str console self page_id body title body_format minor_edit [])
       = fetch_request self page_id :: put_request self page_id data :: rest
    /\ getitem data "version"
       = Some (JDict (dict [item "number" (JInt (number + 1));
                            item "minorEdit" (JBool minor_edit)]))
    /\ (truthy title = false ->
        getitem data "title" = Some (default (JStr []) (getitem current "title")))
    /\ (truthy body = false -> getitem data "body" = None).
Proof.
  intros Hget Hver Hnum.
  destruct (get_page_by_id_trace _ _ _ Hget) as [Hid ->].
  unfold update_page. unfold bind at 1. rewrite Hget.
  unfold py_get at 1. rewrite Hver. unfold bind at 1, ret at 1.
  unfold py_get at 1. rewrite Hnum. unfold bind at 1, ret at 1.
  set (new_title := if truthy title then _ else _).
  assert (Htitle : exists t, new_title [fetch_request self page_id]
                             = (Return t, [fetch_request self page_id])
            /\ (truthy title = false ->
                t = default (JStr []) (getitem current "title"))).
  { subst new_title. destruct (truthy title).
    - eexists. split; [reflexivity | discriminate].
    - unfold py_get. destruct (getitem current "title") as [t |];
        eexists; (split; [reflexivity | reflexivity]). }
  destruct Htitle as (t & Et & Ht).
  unfold bind at 1. rewrite Et.
  unfold bind at 1, py_add_1, ret at 1.
  set (base_data := dict [item "type" (JStr "page"); item "title" t;
                          item "version" _]).
  set (data := if truthy body then _ else base_data).
  destruct (_request_starts (of_string "PUT") (of_string "content/" ++ page_id)
              {| params := None; json_arg := Some (JDict data) |}
              [fetch_request self page_id]) as [rest E].
  exists data, rest. split; [reflexivity |]. split; [exact E |].
  assert (Hbase : getitem base_data "version"
                  = Some (JDict (dict [item "number" (JInt (number + 1));
                                       item "minorEdit" (JBool minor_edit)]))
                  /\ getitem base_data "title" = Some t
                  /\ getitem base_data "body" = None).
  { subst base_data. unfold getitem, dict, item. cbn [list_to_map foldr].
    split; [| split].
    - rewrite !lookup_insert_ne by str_neq. apply lookup_insert_eq.
    - rewrite lookup_insert_ne by str_neq. apply lookup_insert_eq.
    - rewrite !lookup_insert_ne by str_neq. apply lookup_empty. }
  destruct Hbase as (Hv & Htl & Hb).
  subst data. destruct (truthy body).
  - unfold getitem, setitem in *. split; [| split].
    + rewrite lookup_insert_ne by str_neq. exact Hv.
    + intros Hno. rewrite lookup_insert_ne by str_neq. rewrite Htl, (Ht Hno).
      reflexivity.
    + discriminate.
  - split; [exact Hv | split].
    + intros Hno. rewrite Htl, (Ht Hno). reflexivity.
    + intros _. exact Hb.
Qed.

End UpdatePage.

Lemma update_page_request_witness :
  exists data rest,
    snd (Confluence.update_page ConfluenceSamples.py_str ConfluenceSamples.console
           ConfluenceSamples.client
           (of_string "123") None None (of_string "storage") false [])
    = fetch_request ConfluenceSamples.client (of_string "123")
      :: put_request ConfluenceSamples.client (of_string "123") data :: rest
    /\ getitem data "version"
       = Some (JDict (dict [item "number" (JInt 8); item "minorEdit" (JBool false)]))
    /\ getitem data "title" = Some (JStr "Home")
    /\ getitem data "body" = None.
Proof.
  destruct (update_page_request ConfluenceSamples.py_str ConfluenceSamples.console
              ConfluenceSamples.client
              (of_string "123") None None (of_string "storage") false
              ConfluenceSamples.home_page
              (dict [item "number" (JInt 7)]) 7
              [fetch_request ConfluenceSamples.client (of_string "123")])
    as (data & rest & _ & E & Hv & Ht & Hb);
    [vm_compute; reflexivity | vm_compute; reflexivity | vm_compute; reflexivity |].
  exists data, rest. split; [exact E |]. split; [exact Hv |].
  split; [exact (Ht eq_refl) | exact (Hb eq_refl)].
Defined.

(** ** [extract_file_id] *)

Lemma strip_prefix_Some (p s rest : str) :
  strip_prefix p s = Some rest <-> s = p ++ rest.
Proof.
  revert s. induction p as [| a p IH]; intros s; cbn.
  - split; [intros [= ->]; reflexivity | intros ->; reflexivity].
  - destruct s as [| b s]; [split; discriminate |].
    destruct (N.eqb_spec a b) as [-> | Hne].
    + rewrite IH. split; [intros ->; reflexivity | intros [= ->]; reflexivity].
    + split; [discriminate | intros [= E _]; congruence].
Qed.

Lemma match_here_None (lit s : str) :
  match_here lit s = None
  <-> ~ exists c post, s = lit ++ c :: post /\ is_id_char c = true.
Proof.
  unfold match_here. destruct (strip_prefix lit s) as [rest |] eqn:E.
  - apply strip_prefix_Some in E. subst s.
    destruct rest as [| c rest]; cbn.
    + split; [| reflexivity]. intros _ (c & post & E & _).
      apply app_inv_head in E. discriminate.
    + destruct (is_id_char c) eqn:Hc.
      * split; [discriminate |]. intros H. exfalso. apply H. now exists c, rest.
      * split; [| reflexivity]. intros _ (c' & post & E & Hc').
        apply app_inv_head in E. injection E as -> _. congruence.
  - split; [| reflexivity]. intros _ (c & post & Es & _).
    apply (strip_prefix_Some lit s (c :: post)) in Es. congruence.
Qed.

Lemma re_search_None (lit s : str) : re_search lit s = None <-> ~ matches lit s.
Proof.
  induction s as [| b s IH].
  - cbn. destruct (match_here lit []) eqn:E.
    + split; [discriminate |]. intros H. exfalso.
      assert (N : match_here lit [] = None); [| congruence].
      apply match_here_None. intros (c & post & Es & _).
      destruct lit; discriminate.
    + split; [| reflexivity]. intros _ (pre & c & post & Es & _).
      destruct pre; [destruct lit |]; discriminate.
  - cbn [re_search]. destruct (match_here lit (b :: s)) eqn:E.
    + split; [discriminate |]. intros H. exfalso.
      assert (N : match_here lit (b :: s) = None); [| congruence].
      apply match_here_None. intros (c & post & Es & Hc).
      apply H. exists [], c, post. now split.
    + rewrite IH. apply match_here_None in E. split.
      * intros H (pre & c & post & Es & Hc). destruct pre as [| a pre].
        -- apply E. now exists c, post.
        -- injection Es as -> ->. apply H. now exists pre, c, post.
      * intros H (pre & c & post & Es & Hc). apply H.
        exists (b :: pre), c, post. subst s. now split.
Qed.

Lemma first_match_None (pats : list str) (s : str) :
  first_match pats s = None <-> forall lit, lit ∈ pats -> ~ matches lit s.
Proof.
  induction pats as [| lit pats IH]; cbn.
  - split; [| reflexivity]. intros _ lit H. inversion H.
  - destruct (re_search lit s) eqn:E.
    + split; [discriminate |]. intros H. exfalso.
      assert (N : re_search lit s = None); [| congruence].
      apply re_search_None, H. left.
    + rewrite IH. apply re_search_None in E. split.
      * intros H l Hl. apply elem_of_cons in Hl as [-> | Hl]; auto.
      * intros H l Hl. apply H. now right.
Qed.

Lemma contains_char (s : str) (c : N) : contains s [c] = true <-> c ∈ s.
Proof.
  induction s as [| b s IH]; cbn.
  - split; [discriminate | intros H; inversion H].
  - unfold startswith. cbn. rewrite elem_of_cons.
    destruct (N.eqb_spec c b) as [-> | Hne]; cbn.
    + split; [now left | reflexivity].
    + rewrite IH. split; [now right | intros [E | H]; [congruence | exact H]].
Qed.



(* ===================================================================== *)
(** * Further properties *)
(* ===================================================================== *)

(** ** The monad *)

Lemma bind_Return {A B} (m : M A) (k : A -> M B) tr a t1 :
  m tr = (Return a, t1) -> bind m k tr = k a t1.
Proof. intros H. unfold bind. rewrite H. reflexivity. Qed.

Lemma bind_Raise {A B} (m : M A) (k : A -> M B) tr e t1 :
  m tr = (Raise e, t1) -> bind m k tr = (Raise e, t1).
Proof. intros H. unfold bind. rewrite H. reflexivity. Qed.

Lemma bind_Return_inv {A B} (m : M A) (k : A -> M B) tr b tr' :
  bind m k tr = (Return b, tr') ->
  exists a t1, m tr = (Return a, t1) /\ k a t1 = (Return b, tr').
Proof.
  unfold bind. destruct (m tr) as [[a | e] t1]; [| discriminate].
  intros H. now exists a, t1.
Qed.

Lemma truthy_or_else (s : option str) :
  truthy s = true -> or_else s [] <> [] /\ s = Some (or_else s []).
Proof. destruct s as [[| c r] |]; try discriminate. intros _. now split. Qed.

Ltac elem_of_trace H :=
  repeat (rewrite ?elem_of_app, ?elem_of_cons, ?elem_of_nil in H);
  intuition (try discriminate; try congruence).

(** ** More on [merge_extractions] *)

(** X1: the merged text is empty exactly when both extractions are absent
    ([None] or empty), so an extraction that found something never vanishes
    into an empty result. *)
Theorem merge_empty_iff (text_content ocr_content : option str) :
  merge_extractions text_content ocr_content = []
  <-> absent text_content /\ absent ocr_content.
Proof.
  unfold merge_extractions, absent.
  destruct text_content as [[| c r] |], ocr_content as [[| c' r'] |];
    cbn [truthy negb andb or_else];
    try (split; [intros _; split; auto | reflexivity]);
    try (split; [discriminate | intros [[H | H] [H' | H']]; discriminate]).
  destruct (Float.int_le _ _);
    (split; [discriminate | intros [[H | H] _]; discriminate]).
Qed.

(** X2: two identical extractions (shorter than [2 ^ 50] characters once
    stripped) merge into that very text: nothing is duplicated. *)
Theorem merge_same (s : str) :
  len (strip s) < 2 ^ 50 -> merge_extractions (Some s) (Some s) = s.
Proof.
  intros Hb. destruct s as [| c r]; [reflexivity |].
  rewrite merge_both_present by (assumption || discriminate).
  pose proof (len_nonneg (strip (c :: r))).
  destruct (Z.leb_spec (5 * len (strip (c :: r))) (6 * len (strip (c :: r))));
    [reflexivity | lia].
Qed.

Lemma merge_same_witness :
  merge_extractions (Some (of_string " Chapter 1 ")) (Some (of_string " Chapter 1 "))
  = of_string " Chapter 1 ".
Proof. apply (merge_same (of_string " Chapter 1 ")). vm_compute. reflexivity. Defined.

Lemma lstrip_all_space (s : str) :
  Forall (fun c => isspace c = true) s -> lstrip s = [].
Proof. induction 1 as [| c r Hc _ IH]; [reflexivity |]. cbn. now rewrite Hc. Qed.

Lemma lstrip_keeps_visible (s : str) :
  Exists (fun c => isspace c = false) s ->
  Exists (fun c => isspace c = false) (lstrip s).
Proof.
  induction s as [| c r IH]; intros H; [exact H |].
  cbn. destruct (isspace c) eqn:Hc.
  - apply IH. inversion H; subst; [congruence | assumption].
  - exact H.
Qed.

Lemma Exists_rev_visible (P : N -> Prop) (s : str) : Exists P s -> Exists P (rev s).
Proof.
  rewrite !Exists_exists. intros (x & Hx & HP). exists x. split; [| exact HP].
  apply list_elem_of_In, in_rev. rewrite rev_involutive. now apply list_elem_of_In.
Qed.

Lemma strip_keeps_visible (s : str) :
  Exists (fun c => isspace c = false) s -> 0 < len (strip s).
Proof.
  intros H. unfold strip, rstrip.
  assert (E : Exists (fun c => isspace c = false)
                (rev (lstrip (rev (lstrip s))))).
  { apply Exists_rev_visible, lstrip_keeps_visible, Exists_rev_visible,
      lstrip_keeps_visible, H. }
  destruct (rev _); [inversion E |]. unfold len. cbn [length]. lia.
Qed.

(** X3: when the text extraction is non-empty but consists of whitespace
    only and the OCR extraction holds a visible character, the result is the
    combination: the OCR text, the separator and the (blank) text. *)
Theorem merge_blank_text (text ocr : str) :
  text <> [] ->
  Forall (fun c => isspace c = true) text ->
  Exists (fun c => isspace c = false) ocr ->
  merge_extractions (Some text) (Some ocr) = ocr ++ separator ++ text.
Proof.
  intros Ht Hblank Hvis.
  assert (Hs : strip text = []).
  { unfold strip. rewrite (lstrip_all_space _ Hblank). reflexivity. }
  pose proof (strip_keeps_visible _ Hvis) as Hpos.
  assert (Ho : ocr <> []) by (intros ->; inversion Hvis).
  rewrite merge_both_present; [| assumption | assumption | rewrite Hs; reflexivity].
  rewrite Hs. change (len []) with 0.
  destruct (Z.leb_spec (5 * len (strip ocr)) (6 * 0)); [lia | reflexivity].
Qed.

Lemma merge_blank_text_witness :
  merge_extractions (Some [10%N; 32%N]) (Some (of_string "Total: 42"))
  = of_string "Total: 42" ++ separator ++ [10%N; 32%N].
Proof.
  apply (merge_blank_text [10%N; 32%N] (of_string "Total: 42")).
  - discriminate.
  - repeat constructor.
  - apply Exists_cons_hd. reflexivity.
Defined.

(** ** More on the converters *)

Section Converters.

Variable env : Env.

Lemma run_pandoc_eq (input_path : str) (tr : list event) :
  run_pandoc env input_path tr =
    match subprocess_run env (pandoc_argv input_path) with
    | Return p =>
        if returncode p =? 0
        then (Return (Some (stdout p)), tr ++ [RunProcess (pandoc_argv input_path)])
        else (Return None,
              (tr ++ [RunProcess (pandoc_argv input_path)])
              ++ [PrintErr (of_string "Pandoc warning: " ++ stderr p)])
    | Raise e =>
        if isinstance e FileNotFoundError
        then (Return None,
              (tr ++ [RunProcess (pandoc_argv input_path)])
              ++ [PrintErr (of_string "Pandoc not found, skipping pandoc conversion")])
        else if isinstance e TimeoutExpired
        then (Return None,
              (tr ++ [RunProcess (pandoc_argv input_path)])
              ++ [PrintErr (of_string "Pandoc timed out")])
        else (Raise e, tr ++ [RunProcess (pandoc_argv input_path)])
    end.
Proof.
  unfold run_pandoc, try_except, bind, run, call, pandoc_argv.
  destruct (subprocess_run env _) as [p | e]; cbv beta iota.
  - destruct (returncode p =? 0); reflexivity.
  - destruct (isinstance e FileNotFoundError); [reflexivity |].
    destruct (isinstance e TimeoutExpired); reflexivity.
Qed.

Lemma run_markitdown_eq (input_path : str) (enable_ocr : bool) (tr : list event) :
  run_markitdown env input_path enable_ocr tr =
    match markitdown_convert env input_path enable_ocr with
    | Return text => (Return (Some text), tr ++ [MarkItDownConvert input_path enable_ocr])
    | Raise e =>
        if isinstance e Exception
        then (Return None,
              (tr ++ [MarkItDownConvert input_path enable_ocr])
              ++ [PrintErr (of_string "Markitdown error: " ++ exc_str e)])
        else (Raise e, tr ++ [MarkItDownConvert input_path enable_ocr])
    end.
Proof.
  unfold run_markitdown, try_except, bind, call.
  destruct (markitdown_convert env _ _) as [t | e]; cbv beta iota; [reflexivity |].
  destruct (isinstance e Exception); reflexivity.
Qed.

(** When pandoc fails in one of the ways of [pandoc_fails], [run_pandoc]
    returns nothing usable. *)
Lemma run_pandoc_nothing (path : str) (tr : list event) :
  pandoc_fails env path ->
  exists v tr', run_pandoc env path tr = (Return v, tr') /\ truthy v = false.
Proof.
  intros [(e & He & Hc) | (p & Hp & Hc)]; rewrite run_pandoc_eq.
  - rewrite He. destruct (isinstance e FileNotFoundError); [eauto |].
    destruct Hc as [Hc | Hc]; [discriminate | rewrite Hc; eauto].
  - rewrite Hp. destruct (Z.eqb_spec (returncode p) 0) as [Hz | Hz]; [| eauto].
    destruct Hc as [Hc | Hc]; [contradiction |].
    rewrite Hc. eauto.
Qed.

Lemma run_markitdown_nothing (path : str) (enable_ocr : bool) (tr : list event) :
  markitdown_fails env path ->
  exists v tr', run_markitdown env path enable_ocr tr = (Return v, tr')
                /\ truthy v = false.
Proof.
  intros H. rewrite run_markitdown_eq.
  destruct (H enable_ocr) as [-> | (e & -> & ->)]; eauto.
Qed.

Lemma pdf_not_pandoc : of_string ".pdf" ∉ PANDOC_FORMATS.
Proof.
  rewrite PANDOC_FORMATS_spec. intros H.
  repeat (apply elem_of_cons in H as [E | H]; [vm_compute in E; discriminate E |]).
  inversion H.
Qed.

(** X4: for a pandoc format the options [--mode] and [--hybrid] have no
    effect at all: the same calls are made and the same result comes back. *)
Theorem pandoc_formats_ignore_options (path mode mode' : str) (hybrid hybrid' : bool)
    (tr : list event) :
  lower env (path_suffix env path) ∈ PANDOC_FORMATS ->
  convert_file_content env path mode hybrid tr
  = convert_file_content env path mode' hybrid' tr.
Proof.
  intros H. unfold convert_file_content.
  rewrite (bool_decide_eq_true_2 _ H). reflexivity.
Qed.

(** X5: outside the hybrid PDF mode a conversion that returns has found
    text: the content handed back is never the empty string. *)
Theorem convert_file_content_nonempty (path mode : str) (hybrid : bool)
    (tr tr' : list event) (content : str) :
  str_eqb (lower env (path_suffix env path)) ".pdf" && hybrid = false ->
  convert_file_content env path mode hybrid tr = (Return content, tr') ->
  content <> [].
Proof.
  intros Hh. unfold convert_file_content.
  assert (K : forall (m : M (option str)) t t',
             (a <- m;;
              if truthy a then ret (or_else a [])
              else raise RuntimeError (of_string "Failed to convert " ++ path)) t
             = (Return content, t') -> content <> []).
  { intros m t t' H. apply bind_Return_inv in H as (a & t1 & _ & H).
    destruct (truthy a) eqn:Ha; [| discriminate].
    injection H as <- _. now apply truthy_or_else. }
  destruct (bool_decide _).
  - intros H. apply bind_Return_inv in H as (a & t1 & _ & H).
    destruct (truthy a) eqn:Ha.
    + injection H as <- _. now apply truthy_or_else.
    + now apply K in H.
  - rewrite Hh.
    intros H. apply bind_Return_inv in H as (a & t1 & _ & H).
    destruct (truthy a) eqn:Ha.
    + injection H as <- _. now apply truthy_or_else.
    + now apply K in H.
Qed.

(** X6: when neither converter yields anything for a file, a conversion
    outside the hybrid PDF mode ends with the [RuntimeError]
    [Failed to convert <path>], whichever converter was tried first. *)
Theorem convert_file_content_both_fail (path mode : str) (hybrid : bool)
    (tr : list event) :
  str_eqb (lower env (path_suffix env path)) ".pdf" && hybrid = false ->
  markitdown_fails env path -> pandoc_fails env path ->
  fst (convert_file_content env path mode hybrid tr)
  = Raise (mk_exn RuntimeError (of_string "Failed to convert " ++ path)).
Proof.
  intros Hh Hm Hp. unfold convert_file_content.
  destruct (bool_decide _).
  - destruct (run_pandoc_nothing path tr Hp) as (v & t1 & E1 & Hv).
    rewrite (bind_Return _ _ _ _ _ E1), Hv.
    destruct (run_markitdown_nothing path false t1 Hm) as (w & t2 & E2 & Hw).
    rewrite (bind_Return _ _ _ _ _ E2), Hw. reflexivity.
  - rewrite Hh.
    match goal with
    | |- context [run_markitdown env path ?flag] =>
        destruct (run_markitdown_nothing path flag tr Hm) as (v & t1 & E1 & Hv)
    end.
    rewrite (bind_Return _ _ _ _ _ E1), Hv.
    destruct (run_pandoc_nothing path t1 Hp) as (w & t2 & E2 & Hw).
    rewrite (bind_Return _ _ _ _ _ E2), Hw. reflexivity.
Qed.

(** X7: in the hybrid PDF mode pandoc is never run and no [Exception] comes
    out; when both markitdown passes fail, the result is the empty string and
    not an error. *)
Theorem hybrid_pdf_never_fails (path mode : str) (tr : list event) :
  lower env (path_suffix env path) = of_string ".pdf" ->
  (forall e, fst (convert_file_content env path mode true tr) = Raise e ->
             isinstance e Exception = false)
  /\ (forall argv, RunProcess argv ∈ snd (convert_file_content env path mode true tr) ->
                   RunProcess argv ∈ tr)
  /\ ((forall enable_ocr, exists e,
          markitdown_convert env path enable_ocr = Raise e
          /\ isinstance e Exception = true) ->
      fst (convert_file_content env path mode true tr) = Return []).
Proof.
  intros Hs. unfold convert_file_content. cbv zeta.
  rewrite Hs, (bool_decide_eq_false_2 _ pdf_not_pandoc).
  change (str_eqb (of_string ".pdf") (of_string ".pdf") && true) with true.
  cbv iota. unfold bind, print_err, emit, call. rewrite !run_markitdown_eq.
  split; [| split].
  - intros e.
    destruct (markitdown_convert env path false) as [t | e1];
      [| destruct (isinstance e1 Exception) eqn:H1];
      rewrite ?run_markitdown_eq;
      try (destruct (markitdown_convert env path true) as [o | e2];
           [| destruct (isinstance e2 Exception) eqn:H2]);
      cbn [fst]; try discriminate; intros [= <-]; assumption.
  - intros argv.
    destruct (markitdown_convert env path false) as [t | e1];
      [| destruct (isinstance e1 Exception) eqn:H1];
      rewrite ?run_markitdown_eq;
      try (destruct (markitdown_convert env path true) as [o | e2];
           [| destruct (isinstance e2 Exception) eqn:H2]);
      unfold ret; cbn [snd]; intros H; elem_of_trace H.
  - intros Hf.
    destruct (Hf false) as (e1 & -> & ->). rewrite run_markitdown_eq.
    destruct (Hf true) as (e2 & -> & ->). reflexivity.
Qed.

End Converters.

Lemma pandoc_formats_ignore_options_witness :
  convert_file_content
    (MoreSamples.convert_env (of_string ".epub") true
       (Return (MoreSamples.completed 0 (of_string "# Book"))) (Return []))
    (of_string "book.epub") (of_string "ocr") true []
  = convert_file_content
      (MoreSamples.convert_env (of_string ".epub") true
         (Return (MoreSamples.completed 0 (of_string "# Book"))) (Return []))
      (of_string "book.epub") (of_string "auto") false [].
Proof.
  apply pandoc_formats_ignore_options.
  apply (bool_decide_unpack _). vm_compute. exact I.
Defined.

Lemma convert_file_content_nonempty_witness : of_string "# Slides" <> [].
Proof.
  eapply (convert_file_content_nonempty
            (MoreSamples.convert_env (of_string ".pptx") true
               (Raise Samples.not_found) (Return (of_string "# Slides")))
            (of_string "deck.pptx") (of_string "auto") false []);
    vm_compute; reflexivity.
Defined.

Lemma convert_file_content_both_fail_witness :
  fst (convert_file_content
         (MoreSamples.convert_env (of_string ".xyz") true
            (Raise Samples.not_found) (Raise MoreSamples.library_error))
         (of_string "data.xyz") (of_string "auto") false [])
  = Raise (mk_exn RuntimeError (of_string "Failed to convert data.xyz")).
Proof.
  apply (convert_file_content_both_fail
           (MoreSamples.convert_env (of_string ".xyz") true
              (Raise Samples.not_found) (Raise MoreSamples.library_error))
           (of_string "data.xyz") (of_string "auto") false []).
  - vm_compute. reflexivity.
  - intros enable_ocr. right. exists MoreSamples.library_error.
    split; reflexivity.
  - left. exists Samples.not_found. split; [reflexivity | left; reflexivity].
Defined.

Lemma hybrid_pdf_never_fails_witness :
  fst (convert_file_content
         (MoreSamples.convert_env (of_string ".pdf") true
            (Raise Samples.not_found) (Raise MoreSamples.library_error))
         (of_string "scan.pdf") (of_string "auto") true [])
  = Return [].
Proof.
  apply (hybrid_pdf_never_fails
           (MoreSamples.convert_env (of_string ".pdf") true
              (Raise Samples.not_found) (Raise MoreSamples.library_error))
           (of_string "scan.pdf") (of_string "auto") []).
  - reflexivity.
  - intros enable_ocr. exists MoreSamples.library_error. split; reflexivity.
Defined.

(** ** [convert_file], [download_gdoc] and the command line *)

Section ConvertFile.

Variable env : Env.

(** X8: asked to convert a local file that does not exist, the tool calls no
    converter and writes nothing: it prints [Error: File not found: <path>]
    on stderr and exits with code 1. *)
Theorem main_missing_file (args : ConvertToMarkdown.Args) :
  is_gdoc_url (ConvertToMarkdown.input args) = false ->
  path_exists env (ConvertToMarkdown.input args) = false ->
  sys_exit (ConvertToMarkdown.main env args)
  = (Exited 1,
     [PrintErr (of_string "Error: File not found: " ++ ConvertToMarkdown.input args)]).
Proof.
  intros Hu He. unfold is_gdoc_url in Hu.
  unfold sys_exit, ConvertToMarkdown.main, try_except, bind, convert_file.
  rewrite Hu, He. reflexivity.
Qed.

(** X9: for an existing local file, [convert_file] writes exactly what
    [convert_file_content] returned, to [output_path] when one is given and
    next to the input with the suffix [.md] otherwise, and returns the
    absolute path of that file; when the conversion fails, nothing is
    written. *)
Theorem convert_file_local (input_path : str) (output_path : option str)
    (mode : str) (hybrid : bool) (tr : list event) :
  is_gdoc_url input_path = false ->
  path_exists env input_path = true ->
  (forall e t1,
      convert_file_content env input_path mode hybrid tr = (Raise e, t1) ->
      convert_file env input_path output_path mode hybrid tr = (Raise e, t1))
  /\ (forall v tr',
        convert_file env input_path output_path mode hybrid tr = (Return v, tr') ->
        exists content t1,
          convert_file_content env input_path mode hybrid tr = (Return content, t1)
          /\ tr' = t1 ++ [WriteText
                            (if truthy output_path then or_else output_path []
                             else path_with_suffix env input_path ".md")
                            content;
                          Print (of_string "Converted to: "
                                 ++ path_absolute env
                                      (if truthy output_path then or_else output_path []
                                       else path_with_suffix env input_path ".md"))]
          /\ v = path_absolute env
                   (if truthy output_path then or_else output_path []
                    else path_with_suffix env input_path ".md")).
Proof.
  intros Hu He. unfold is_gdoc_url in Hu. unfold convert_file.
  rewrite Hu, He. cbn [negb]. split.
  - intros e t1 H. now apply bind_Raise.
  - intros v tr' H. apply bind_Return_inv in H as (content & t1 & Hc & H).
    exists content, t1. split; [exact Hc |].
    revert H. unfold bind, write_text, call, print, emit, call, ret.
    destruct (path_write_text env _ content) as [[] | e]; [| discriminate].
    intros [= <- <-]. split; [| reflexivity].
    rewrite <- app_assoc. reflexivity.
Qed.

(** The command line [download_gdoc] runs for a document id. *)
Lemma download_gdoc_eq (url output_dir : str) (tr : list event) :
  download_gdoc env url output_dir tr =
    match first_match [of_string "/document/d/"; of_string "id="] url with
    | None =>
        (Return None,
         tr ++ [PrintErr (of_string "Could not extract Google Doc ID from URL: " ++ url)])
    | Some doc_id =>
        let output_path :=
          path_join env output_dir (of_string "gdoc_" ++ doc_id ++ of_string ".docx") in
        let argv := curl_argv output_path doc_id in
        let failed :=
          (Return None,
           (tr ++ [RunProcess argv])
           ++ [PrintErr (of_string "Could not download Google Doc. Make sure the document is publicly accessible.")]) in
        match subprocess_run env argv with
        | Return r =>
            if (returncode r =? 0) && path_exists env output_path
               && (0 <? path_size env output_path)
            then (Return (Some output_path), tr ++ [RunProcess argv])
            else failed
        | Raise e =>
            if isinstance e FileNotFoundError || isinstance e TimeoutExpired
            then failed
            else (Raise e, tr ++ [RunProcess argv])
        end
    end.
Proof.
  unfold download_gdoc, curl_argv.
  destruct (first_match _ url) as [doc_id |]; [| reflexivity].
  cbv zeta. unfold bind at 1, try_except, bind, run, call.
  destruct (subprocess_run env _) as [r | e]; cbv beta iota.
  - destruct (_ && _ && _); reflexivity.
  - destruct (_ || _); reflexivity.
Qed.

(** X10: [download_gdoc] hands back a path only when curl exited with code
    0 and left a non-empty file there; the path is [gdoc_<id>.docx] in the
    given directory, [<id>] being what the first matching pattern captures in
    the URL; a missing curl or a timeout never surfaces as an exception. *)
Theorem download_gdoc_result (url output_dir : str) (tr : list event) :
  (forall p,
      fst (download_gdoc env url output_dir tr) = Return (Some p) ->
      exists doc_id r,
        first_match [of_string "/document/d/"; of_string "id="] url = Some doc_id
        /\ p = path_join env output_dir
                 (of_string "gdoc_" ++ doc_id ++ of_string ".docx")
        /\ subprocess_run env (curl_argv p doc_id) = Return r
        /\ returncode r = 0
        /\ path_exists env p = true
        /\ 0 < path_size env p)
  /\ (forall e,
        fst (download_gdoc env url output_dir tr) = Raise e ->
        isinstance e FileNotFoundError = false
        /\ isinstance e TimeoutExpired = false).
Proof.
  rewrite download_gdoc_eq.
  destruct (first_match _ url) as [doc_id |]; [| split; intros ?; discriminate].
  cbv zeta. destruct (subprocess_run env _) as [r | e] eqn:Er; split.
  - intros p. destruct (_ && _ && _) eqn:Ec; [| discriminate].
    intros [= <-]. exists doc_id, r.
    apply andb_prop in Ec as [Ec Hs]. apply andb_prop in Ec as [Hr Hx].
    apply Z.eqb_eq in Hr. apply Z.ltb_lt in Hs.
    split; [reflexivity |]. split; [reflexivity |]. split; [exact Er |].
    split; [exact Hr |]. split; [exact Hx | exact Hs].
  - intros e. destruct (_ && _ && _); discriminate.
  - intros p. destruct (_ || _); discriminate.
  - intros e'. destruct (_ || _) eqn:Ec; [discriminate |].
    intros [= <-]. now apply orb_false_elim in Ec.
Qed.

(** X11: given a Google Docs URL in which no document id can be found,
    [convert_file] runs no process and writes nothing: it reports the URL on
    stderr, removes the temporary directory and raises
    [RuntimeError("Failed to download Google Doc")]. *)
Theorem convert_file_gdoc_without_id (url : str) (output_path : option str)
    (mode : str) (hybrid : bool) (tr : list event) :
  is_gdoc_url url = true ->
  (forall lit, lit ∈ [of_string "/document/d/"; of_string "id="] -> ~ matches lit url) ->
  convert_file env url output_path mode hybrid tr
  = (Raise (mk_exn RuntimeError (of_string "Failed to download Google Doc")),
     tr ++ [MakeTempDir (temporary_directory env);
            PrintErr (of_string "Could not extract Google Doc ID from URL: " ++ url);
            RemoveTempDir (temporary_directory env)]).
Proof.
  intros Hu Hm. apply first_match_None in Hm.
  unfold is_gdoc_url in Hu. unfold convert_file. rewrite Hu.
  unfold bind at 1, emit, call, try_finally. unfold bind at 1.
  rewrite download_gdoc_eq, Hm. unfold raise. cbv beta iota.
  rewrite <- !app_assoc. reflexivity.
Qed.

End ConvertFile.

Lemma main_missing_file_witness :
  sys_exit (ConvertToMarkdown.main
              (Samples.convert_env false (Raise Samples.not_found) (Return []))
              Samples.convert_args)
  = (Exited 1, [PrintErr (of_string "Error: File not found: notes")]).
Proof.
  apply (main_missing_file
           (Samples.convert_env false (Raise Samples.not_found) (Return []))
           Samples.convert_args); vm_compute; reflexivity.
Defined.

Lemma convert_file_local_witness :
  exists content t1,
    convert_file_content
      (MoreSamples.convert_env [] true (Raise Samples.not_found)
         (Return (of_string "# Memo")))
      (of_string "memo") (of_string "auto") false [] = (Return content, t1)
    /\ [MarkItDownConvert (of_string "memo") false;
        WriteText (of_string "memo.md") (of_string "# Memo");
        Print (of_string "Converted to: /work/memo.md")]
       = t1 ++ [WriteText (of_string "memo.md") content;
                Print (of_string "Converted to: /work/memo.md")]
    /\ of_string "/work/memo.md" = of_string "/work/memo.md".
Proof.
  apply (proj2 (convert_file_local
                  (MoreSamples.convert_env [] true
                     (Raise Samples.not_found) (Return (of_string "# Memo")))
                  (of_string "memo") None (of_string "auto") false []
                  eq_refl eq_refl)
               (of_string "/work/memo.md")
               [MarkItDownConvert (of_string "memo") false;
                WriteText (of_string "memo.md") (of_string "# Memo");
                Print (of_string "Converted to: /work/memo.md")]).
  vm_compute. reflexivity.
Defined.

Lemma download_gdoc_result_witness :
  exists doc_id r,
    first_match [of_string "/document/d/"; of_string "id="]
      (of_string "https://docs.google.com/document/d/1AbC/edit") = Some doc_id
    /\ of_string "/tmp/t/gdoc_1AbC.docx"
       = path_join (Samples.convert_env true
                      (Return (MoreSamples.completed 0 [])) (Return []))
           (of_string "/tmp/t") (of_string "gdoc_" ++ doc_id ++ of_string ".docx")
    /\ subprocess_run (Samples.convert_env true
                         (Return (MoreSamples.completed 0 [])) (Return []))
         (curl_argv (of_string "/tmp/t/gdoc_1AbC.docx") doc_id) = Return r
    /\ returncode r = 0
    /\ ConvertToMarkdown.path_exists
         (Samples.convert_env true (Return (MoreSamples.completed 0 [])) (Return []))
         (of_string "/tmp/t/gdoc_1AbC.docx") = true
    /\ 0 < path_size (Samples.convert_env true
                        (Return (MoreSamples.completed 0 [])) (Return []))
             (of_string "/tmp/t/gdoc_1AbC.docx").
Proof.
  apply (proj1 (download_gdoc_result
                  (Samples.convert_env true (Return (MoreSamples.completed 0 []))
                     (Return []))
                  (of_string "https://docs.google.com/document/d/1AbC/edit")
                  (of_string "/tmp/t") [])).
  vm_compute. reflexivity.
Defined.

Lemma convert_file_gdoc_without_id_witness :
  convert_file (Samples.convert_env true (Raise Samples.not_found) (Return []))
    (of_string "https://docs.google.com/spreadsheets/x") None (of_string "auto") false []
  = (Raise (mk_exn RuntimeError (of_string "Failed to download Google Doc")),
     [MakeTempDir (of_string "/tmp/t");
      PrintErr (of_string "Could not extract Google Doc ID from URL: https://docs.google.com/spreadsheets/x");
      RemoveTempDir (of_string "/tmp/t")]).
Proof.
  apply (convert_file_gdoc_without_id
           (Samples.convert_env true (Raise Samples.not_found) (Return []))
           (of_string "https://docs.google.com/spreadsheets/x") None
           (of_string "auto") false []).
  - vm_compute. reflexivity.
  - apply first_match_None. vm_compute. reflexivity.
Defined.

(** ** [generate_image] *)

Lemma call_Return_inv {A} (ev : event) (answer : result A) tr a tr' :
  call ev answer tr = (Return a, tr') -> answer = Return a /\ tr' = tr ++ [ev].
Proof. unfold call. intros [= -> <-]. now split. Qed.

Lemma ask_Return_inv {A} (answer : result A) tr a tr' :
  ask answer tr = (Return a, tr') -> answer = Return a /\ tr' = tr.
Proof. unfold ask. intros [= -> <-]. now split. Qed.

Section Generate.

Import GenerateImage.

Variable env : GenerateImage.Env.

(** X12: without [GOOGLE_CLOUD_PROJECT] and [CLOUDSDK_CORE_PROJECT] the tool
    contacts nobody: it prints the missing-variable error on stderr and exits
    with code 1. *)
Theorem generate_main_without_project (args : GenerateImage.Args) :
  truthy (environ_get env "GOOGLE_CLOUD_PROJECT") = false ->
  truthy (environ_get env "CLOUDSDK_CORE_PROJECT") = false ->
  sys_exit (GenerateImage.main env args)
  = (Exited 1,
     [PrintErr (of_string "Error: GOOGLE_CLOUD_PROJECT or CLOUDSDK_CORE_PROJECT env var required")]).
Proof.
  intros H1 H2.
  unfold sys_exit, GenerateImage.main, try_except, bind, generate_image.
  rewrite H1, H2. reflexivity.
Qed.

(** X13: when the input image does not exist, [generate_image] raises
    [FileNotFoundError] before the model is called. *)
Theorem generate_image_missing_input (prompt image_path : str)
    (output_path : option str) (aspect_ratio image_size : str) (tr : list event) :
  truthy (environ_get env "GOOGLE_CLOUD_PROJECT") = true ->
  make_client env (or_else (environ_get env "GOOGLE_CLOUD_PROJECT") []) = Return tt ->
  image_path <> [] ->
  path_exists env image_path = false ->
  generate_image env prompt (Some image_path) output_path aspect_ratio image_size tr
  = (Raise (mk_exn FileNotFoundError (of_string "Image not found: " ++ image_path)), tr).
Proof.
  intros Hp Hc Hi He. unfold generate_image. rewrite Hp. cbv iota.
  rewrite Hp. cbn [negb].
  unfold bind at 1, ask. rewrite Hc.
  rewrite (truthy_Some _ Hi), (or_else_Some _ _ Hi).
  unfold bind at 1. unfold bind at 1, load_image_as_part. rewrite He. reflexivity.
Qed.

(** X14: a path returned by [generate_image] is the absolute path of a file
    it has written, and the bytes written are the inline data of the first
    part of the model's answer that carries any (decoded from base64 when
    they come as a string); an output path that has a suffix is used as it
    is. *)
Theorem generate_image_returns (prompt : str) (input_image output_path : option str)
    (aspect_ratio image_size : str) (tr tr' : list event) (v : str) :
  generate_image env prompt input_image output_path aspect_ratio image_size tr
  = (Return v, tr') ->
  exists image response cs blob save_path image_bytes,
    generate_content env (of_string "gemini-3-pro-image-preview") image prompt
                     aspect_ratio image_size = Return response
    /\ candidates response = Some cs
    /\ first_inline_data cs = Some blob
    /\ (data blob = DataBytes image_bytes
        \/ exists s, data blob = DataStr s /\ b64decode env s = Return image_bytes)
    /\ WriteBytes save_path image_bytes ∈ tr'
    /\ v = path_absolute env save_path
    /\ (truthy output_path = true ->
        path_suffix env (or_else output_path []) <> [] ->
        save_path = or_else output_path []).
Proof.
  unfold generate_image. destruct (negb (truthy _)); [discriminate |].
  intros H.
  apply bind_Return_inv in H as (? & t1 & _ & H).
  apply bind_Return_inv in H as (image & t2 & _ & H).
  apply bind_Return_inv in H as (response & t3 & Hg & H).
  apply call_Return_inv in Hg as [Hg _].
  destruct (candidates response) as [cs |] eqn:Hcs.
  2:{ apply bind_Return_inv in H as (? & ? & _ & H). discriminate. }
  destruct (first_inline_data cs) as [blob |] eqn:Hb; [| discriminate].
  apply bind_Return_inv in H as (save_path & t4 & Hsave & H).
  apply bind_Return_inv in H as (image_bytes & t5 & Hbytes & H).
  apply bind_Return_inv in H as ([] & t6 & _ & H).
  apply bind_Return_inv in H as ([] & t7 & Hw & H).
  apply call_Return_inv in Hw as [_ ->].
  apply bind_Return_inv in H as ([] & t8 & Hp & H).
  apply call_Return_inv in Hp as [_ ->].
  injection H as <- <-.
  exists image, response, cs, blob, save_path, image_bytes.
  split; [exact Hg |]. split; [exact Hcs |]. split; [exact Hb |].
  split; [| split; [| split; [reflexivity |]]].
  - destruct (data blob) as [b | s].
    + left. injection Hbytes as -> _. reflexivity.
    + right. exists s. apply ask_Return_inv in Hbytes as [Hd _]. now split.
  - apply elem_of_app. left. apply elem_of_app. right. left.
  - intros Ho Hs. rewrite Ho in Hsave.
    unfold str_eqb in Hsave. rewrite bool_decide_eq_false_2 in Hsave by exact Hs.
    injection Hsave as -> _. reflexivity.
Qed.

End Generate.

Lemma generate_main_without_project_witness :
  sys_exit (GenerateImage.main (Samples.generate_env None (Return Samples.one_image))
                               Samples.generate_args)
  = (Exited 1,
     [PrintErr (of_string "Error: GOOGLE_CLOUD_PROJECT or CLOUDSDK_CORE_PROJECT env var required")]).
Proof.
  apply (generate_main_without_project
           (Samples.generate_env None (Return Samples.one_image))
           Samples.generate_args); reflexivity.
Defined.

Lemma generate_image_returns_witness :
  exists image response cs blob save_path image_bytes,
    GenerateImage.generate_content
      (Samples.generate_env (Some (of_string "demo")) (Return Samples.one_image))
      (of_string "gemini-3-pro-image-preview") image (of_string "a lighthouse")
      (of_string "16:9") (of_string "2K") = Return response
    /\ GenerateImage.candidates response = Some cs
    /\ GenerateImage.first_inline_data cs = Some blob
    /\ (GenerateImage.data blob = GenerateImage.DataBytes image_bytes
        \/ exists s, GenerateImage.data blob = GenerateImage.DataStr s
                     /\ GenerateImage.b64decode
                          (Samples.generate_env (Some (of_string "demo"))
                             (Return Samples.one_image)) s = Return image_bytes)
    /\ WriteBytes save_path image_bytes
       ∈ [GenerateContent (of_string "gemini-3-pro-image-preview") None
            (of_string "a lighthouse") (of_string "16:9") (of_string "2K");
          MakeDirs (of_string ".");
          WriteBytes (of_string "lighthouse.png") [137%N; 80%N];
          Print (of_string "Image saved to: /work/lighthouse.png")]
    /\ of_string "/work/lighthouse.png"
       = GenerateImage.path_absolute
           (Samples.generate_env (Some (of_string "demo")) (Return Samples.one_image))
           save_path
    /\ (truthy (Some (of_string "lighthouse")) = true ->
        GenerateImage.path_suffix
          (Samples.generate_env (Some (of_string "demo")) (Return Samples.one_image))
          (or_else (Some (of_string "lighthouse")) []) <> [] ->
        save_path = or_else (Some (of_string "lighthouse")) []).
Proof.
  apply (generate_image_returns
           (Samples.generate_env (Some (of_string "demo")) (Return Samples.one_image))
           (of_string "a lighthouse") None (Some (of_string "lighthouse"))
           (of_string "16:9") (of_string "2K") []).
  vm_compute. reflexivity.
Defined.

(** ** More on the Confluence client *)

Lemma silent_ret {A} (a : A) : silent (ret a).
Proof. intros tr. reflexivity. Qed.

Lemma silent_raise {A} c msg : silent (@raise A c msg).
Proof. intros tr. reflexivity. Qed.

Lemma silent_ask {A} (r : result A) : silent (ask r).
Proof. intros tr. reflexivity. Qed.

Lemma silent_py_get obj key default : silent (Confluence.py_get obj key default).
Proof.
  unfold Confluence.py_get.
  destruct obj as [| | | | | d]; try apply silent_raise.
  destruct (getitem d key); apply silent_ret.
Qed.

Lemma silent_py_add_1 n : silent (Confluence.py_add_1 n).
Proof. destruct n; try apply silent_raise; apply silent_ret. Qed.

Lemma silent_error_message r : silent (Confluence.error_message r).
Proof.
  unfold Confluence.error_message.
  destruct (Confluence.json_body r) as [[| | | s | l | d] |];
    try apply silent_raise; try apply silent_ret.
  - destruct (contains s _); [apply silent_raise | apply silent_ret].
  - destruct (existsb _ l); [apply silent_raise | apply silent_ret].
  - destruct (getitem d _); apply silent_ret.
Qed.

(** After a silent step the computation goes on from the same trace, or
    stops there. *)
Lemma silent_bind {A B} (m : M A) (k : A -> M B) (P : list event -> Prop) tr :
  silent m -> P tr -> (forall a, P (snd (k a tr))) -> P (snd (bind m k tr)).
Proof.
  intros Hm Ht Hk. unfold bind. specialize (Hm tr).
  destruct (m tr) as [[a | e] t1]; cbn in Hm; subst t1; [apply Hk | exact Ht].
Qed.

Lemma http_requests_app tr tr' :
  http_requests (tr ++ tr') = http_requests tr ++ http_requests tr'.
Proof. apply List.filter_app. Qed.

Lemma http_requests_none tr ev :
  http_requests tr = [] -> ev ∈ tr -> is_http ev = false.
Proof.
  intros H Hin. destruct (is_http ev) eqn:E; [| reflexivity].
  assert (Hf : In ev (http_requests tr)).
  { apply List.filter_In. split; [now apply list_elem_of_In | exact E]. }
  rewrite H in Hf. destruct Hf.
Qed.

Section ConfluenceMore.

Import Confluence.

Variable py_str : json -> str.
Variable console : str -> result unit.
Variable self : ConfluenceClient.

Ltac str_neq := let E := fresh in intros E; vm_compute in E; discriminate E.

(** Whatever the server answers, [_request] sends one request, and the rest
    of what it does is printing. *)
Lemma _request_trace (method endpoint : str) (kwargs : Kwargs) (tr : list event) :
  exists rest,
    snd (_request py_str console self method endpoint kwargs tr)
    = tr ++ HttpRequest method (api_url self ++ of_string "/" ++ lstrip_slash endpoint)
                        (params kwargs) (json_arg kwargs) :: rest
    /\ http_requests rest = [].
Proof.
  unfold _request, bind at 1, call.
  destruct (session_request self _ _ _) as [r | e].
  2:{ exists []. split; [reflexivity | reflexivity]. }
  destruct (_ && _).
  - unfold bind at 1. pose proof (silent_error_message r) as Hs.
    match goal with |- context [error_message r ?t] => specialize (Hs t) end.
    destruct (error_message r _) as [[m | e] t1]; cbn in Hs; subst t1.
    + unfold console_print. destruct (console _) as [[] | e].
      * exists [Print (of_string "[red]Error:[/red] " ++ py_str m)].
        split; [| reflexivity].
        unfold bind, print, emit, call, raise. cbv beta iota delta [snd].
        rewrite <- app_assoc. reflexivity.
      * exists []. split; reflexivity.
    + exists []. split; reflexivity.
  - exists []. destruct (_ =? 204); [split; reflexivity |].
    destruct (startswith _ _); [| split; reflexivity].
    destruct (json_body r); split; reflexivity.
Qed.

(** X15: a response with a status from 400 to 599 never makes [_request]
    return. When its body is not JSON or is a JSON object, the error line
    shows the [message] of the body if there is one and the text of the
    [HTTPError] otherwise; if the console renders that line, it is printed
    and [typer.Exit(1)] is raised, and if rendering raises (a [MarkupError]
    for a message with a closing tag that closes nothing), that exception
    comes out instead and nothing is printed. Either way the one request has
    been sent. *)
Theorem request_error_status (method endpoint : str) (kwargs : Kwargs)
    (r : Response) (tr : list event) :
  session_request self method (api_url self ++ of_string "/" ++ lstrip_slash endpoint)
                  kwargs = Return r ->
  400 <= status_code r < 600 ->
  (forall v, fst (_request py_str console self method endpoint kwargs tr) <> Return v)
  /\ (forall shown,
        (json_body r = None /\ shown = JStr (error_str r))
        \/ (exists d, json_body r = Some (JDict d)
                      /\ shown = default (JStr (error_str r)) (getitem d "message")) ->
        _request py_str console self method endpoint kwargs tr
        = match console (of_string "[red]Error:[/red] " ++ py_str shown) with
          | Return _ =>
              (Raise (mk_exn Exit (of_string "1")),
               tr ++ [HttpRequest method
                        (api_url self ++ of_string "/" ++ lstrip_slash endpoint)
                        (params kwargs) (json_arg kwargs);
                      Print (of_string "[red]Error:[/red] " ++ py_str shown)])
          | Raise e =>
              (Raise e,
               tr ++ [HttpRequest method
                        (api_url self ++ of_string "/" ++ lstrip_slash endpoint)
                        (params kwargs) (json_arg kwargs)])
          end).
Proof.
  intros Hr Hs. unfold _request, bind at 1, call. rewrite Hr.
  assert (Hc : (400 <=? status_code r) && (status_code r <? 600) = true).
  { apply andb_true_intro. split; [apply Z.leb_le | apply Z.ltb_lt]; lia. }
  cbv beta iota. rewrite Hc. split.
  - intros v. unfold bind at 1.
    destruct (error_message r _) as [[m | e] t1]; [| discriminate].
    unfold console_print. destruct (console _) as [[] | e].
    + unfold bind, print, emit, call, raise. discriminate.
    + unfold bind, ask. discriminate.
  - intros shown H. unfold bind at 1. cbv beta iota. rewrite Hc.
    unfold bind at 1, error_message.
    assert (K : forall m,
               (console_print console (of_string "[red]Error:[/red] " ++ py_str m);;
                @raise json Exit "1")%py
                 (tr ++ [HttpRequest method
                           (api_url self ++ of_string "/" ++ lstrip_slash endpoint)
                           (params kwargs) (json_arg kwargs)])
               = match console (of_string "[red]Error:[/red] " ++ py_str m) with
                 | Return _ =>
                     (Raise (mk_exn Exit (of_string "1")),
                      tr ++ [HttpRequest method
                               (api_url self ++ of_string "/" ++ lstrip_slash endpoint)
                               (params kwargs) (json_arg kwargs);
                             Print (of_string "[red]Error:[/red] " ++ py_str m)])
                 | Raise e =>
                     (Raise e,
                      tr ++ [HttpRequest method
                               (api_url self ++ of_string "/" ++ lstrip_slash endpoint)
                               (params kwargs) (json_arg kwargs)])
                 end).
    { intros m. unfold console_print.
      destruct (console _) as [[] | e]; unfold bind, print, emit, call, ask, raise;
        cbv beta iota; rewrite <- ?app_assoc; reflexivity. }
    destruct H as [[-> ->] | (d & -> & ->)].
    + unfold ret. cbv beta iota. apply K.
    + destruct (getitem d _); unfold ret; cbv beta iota; apply K.
Qed.

(** How a fetch by page id ends: without a request when the id is empty,
    with the one request otherwise. *)
Lemma get_page_by_id_requests (page_id : str) (tr : list event) :
  (page_id = []
   /\ exists e, get_page py_str console self (Some page_id) None None tr = (Raise e, tr))
  \/ (page_id <> []
      /\ exists rest,
           snd (get_page py_str console self (Some page_id) None None tr)
           = tr ++ fetch_request self page_id :: rest
           /\ http_requests rest = []).
Proof.
  unfold get_page. destruct page_id as [| c page_id].
  - left. split; [reflexivity |]. eexists. reflexivity.
  - right. split; [discriminate |]. cbn [truthy or_else].
    apply (_request_trace (of_string "GET") (of_string "content/" ++ c :: page_id)
             {| params := Some (dict [item "expand"
                                        (JStr "body.storage,version,space,ancestors")]);
                json_arg := None |}).
Qed.

(** X16: an update sends at most two requests, the fetch of the page and
    then the PUT, and it sends no PUT when the fetch has failed. *)
Theorem update_page_requests (page_id : str) (body title : option str)
    (body_format : str) (minor_edit : bool) :
  let tr := snd (update_page py_str console self page_id body title body_format
                             minor_edit []) in
  (http_requests tr = []
   \/ http_requests tr = [fetch_request self page_id]
   \/ exists data,
        http_requests tr = [fetch_request self page_id; put_request self page_id data])
  /\ (forall e t,
        get_page py_str console self (Some page_id) None None [] = (Raise e, t) ->
        forall data, put_request self page_id data ∉ tr).
Proof.
  intros tr.
  set (Q := fun t => http_requests t = []
                     \/ http_requests t = [fetch_request self page_id]
                     \/ exists data,
                          http_requests t = [fetch_request self page_id;
                                             put_request self page_id data]).
  enough (HQ : Q tr /\ (forall e t,
                          get_page py_str console self (Some page_id) None None []
                          = (Raise e, t) ->
                          forall data, put_request self page_id data ∉ tr))
    by exact HQ.
  subst tr. unfold update_page.
  destruct (get_page_by_id_requests page_id [])
    as [[-> (e & He)] | (Hid & rest & Ht & Hr)].
  - rewrite (bind_Raise _ _ _ _ _ He). cbn [snd]. split; [left; reflexivity |].
    intros _ _ _ data H. inversion H.
  - destruct (get_page py_str console self (Some page_id) None None [])
      as [[current | e] t1] eqn:Eg; cbn [snd app] in Ht; subst t1.
    + rewrite (bind_Return _ _ _ _ _ Eg).
      split; [| intros ? ? [=]].
      right.
      assert (H0 : http_requests (fetch_request self page_id :: rest)
                   = [fetch_request self page_id]).
      { change (fetch_request self page_id :: rest)
          with ([fetch_request self page_id] ++ rest).
        rewrite http_requests_app, Hr. reflexivity. }
      set (P := fun t => http_requests t = [fetch_request self page_id]
                         \/ exists data, http_requests t
                                         = [fetch_request self page_id;
                                            put_request self page_id data]).
      match goal with
      | |- context [snd (?c (fetch_request self page_id :: rest))] =>
          enough (HP : P (snd (c (fetch_request self page_id :: rest))))
            by exact HP
      end.
      assert (P0 : P (fetch_request self page_id :: rest)) by (left; exact H0).
      apply silent_bind; [apply silent_py_get | exact P0 |]. intros version.
      apply silent_bind; [apply silent_py_get | exact P0 |]. intros current_version.
      apply silent_bind;
        [destruct (truthy title); [apply silent_ret | apply silent_py_get]
        | exact P0 |].
      intros new_title.
      apply silent_bind; [apply silent_py_add_1 | exact P0 |]. intros next_version.
      match goal with
      | |- P (snd (_request _ _ _ _ _
                     {| params := None; json_arg := Some (JDict ?d) |} _)) =>
          destruct (_request_trace (of_string "PUT") (of_string "content/" ++ page_id)
                      {| params := None; json_arg := Some (JDict d) |}
                      (fetch_request self page_id :: rest)) as (rest' & E & Hr');
          right; exists d
      end.
      rewrite E. cbn [params json_arg].
      rewrite http_requests_app, H0.
      change (?x :: rest') with ([x] ++ rest').
      rewrite http_requests_app, Hr'. reflexivity.
    + rewrite (bind_Raise _ _ _ _ _ Eg). cbn [snd]. split.
      * right. left.
        change (fetch_request self page_id :: rest)
          with ([fetch_request self page_id] ++ rest).
        rewrite http_requests_app, Hr. reflexivity.
      * intros _ _ _ data H.
        apply elem_of_cons in H as [H | H].
        -- unfold put_request, fetch_request in H. injection H as H _.
           vm_compute in H. discriminate H.
        -- apply (http_requests_none _ _ Hr) in H. discriminate H.
Qed.

End ConfluenceMore.

Section ConfluenceLookups.

Import Confluence.

Variable py_str : json -> str.
Variable console : str -> result unit.
Variable self : ConfluenceClient.

Ltac str_neq := let E := fresh in intros E; vm_compute in E; discriminate E.

(** X17: a lookup by space and title returns the first hit of the search,
    and raises [BadParameter] naming the page and the space when the answer
    holds no hit. *)
Theorem get_page_by_title (page_id : option str) (space_key title : str)
    (answer : gmap str json) (tr tr1 : list event) :
  truthy page_id = false -> space_key <> [] -> title <> [] ->
  _request py_str console self "GET" "content" (title_query space_key title) tr
  = (Return (JDict answer), tr1) ->
  (forall first others,
      getitem answer "results" = Some (JList (first :: others)) ->
      get_page py_str console self page_id (Some space_key) (Some title) tr
      = (Return first, tr1))
  /\ (getitem answer "results" = None \/ getitem answer "results" = Some (JList []) ->
      get_page py_str console self page_id (Some space_key) (Some title) tr
      = (Raise (mk_exn BadParameter
                  (of_string "Page '" ++ title ++ of_string "' not found in space '"
                   ++ space_key ++ of_string "'")),
         tr1)).
Proof.
  intros Hp Hs Ht Hr. unfold get_page. rewrite Hp.
  rewrite (truthy_Some _ Hs), (truthy_Some _ Ht),
    (or_else_Some _ _ Hs), (or_else_Some _ _ Ht).
  cbn [andb]. fold (title_query space_key title).
  rewrite (bind_Return _ _ _ _ _ Hr). unfold py_get. split.
  - intros first others H. rewrite H. reflexivity.
  - intros [H | H]; rewrite H; reflexivity.
Qed.

(** X18: the request [create_page] sends is a POST to [content] whose body
    names the page type, the title, the space and the page body in the given
    format, and lists the parent as ancestor exactly when a parent is given. *)
Theorem create_page_request (space_key title body : str) (parent_id : option str)
    (body_format : str) (tr : list event) :
  exists data rest,
    snd (create_page py_str console self space_key title body parent_id body_format tr)
    = tr ++ HttpRequest (of_string "POST")
              (api_url self ++ of_string "/" ++ of_string "content")
              None (Some (JDict data)) :: rest
    /\ http_requests rest = []
    /\ getitem data "type" = Some (JStr "page")
    /\ getitem data "title" = Some (JStr title)
    /\ getitem data "space" = Some (JDict (dict [item "key" (JStr space_key)]))
    /\ getitem data "body"
       = Some (JDict (dict [item body_format
                              (JDict (dict [item "value" (JStr body);
                                            item "representation" (JStr body_format)]))]))
    /\ getitem data "ancestors"
       = if truthy parent_id
         then Some (JList [JDict (dict [item "id" (JStr (or_else parent_id []))])])
         else None.
Proof.
  unfold create_page.
  set (base_data := dict [item "type" (JStr "page"); item "title" (JStr title);
                          item "space" _; item "body" _]).
  set (data := if truthy parent_id then _ else base_data).
  destruct (_request_trace py_str console self (of_string "POST") (of_string "content")
              {| params := None; json_arg := Some (JDict data) |} tr)
    as (rest & E & Hr).
  exists data, rest. split; [exact E |]. split; [exact Hr |].
  assert (Hbase : getitem base_data "type" = Some (JStr "page")
                  /\ getitem base_data "title" = Some (JStr title)
                  /\ getitem base_data "space"
                     = Some (JDict (dict [item "key" (JStr space_key)]))
                  /\ getitem base_data "body"
                     = Some (JDict (dict [item body_format
                                (JDict (dict [item "value" (JStr body);
                                              item "representation" (JStr body_format)]))]))
                  /\ getitem base_data "ancestors" = None).
  { subst base_data. unfold getitem, dict, item. cbn [list_to_map foldr].
    split; [| split; [| split; [| split]]].
    - apply lookup_insert_eq.
    - rewrite lookup_insert_ne by str_neq. apply lookup_insert_eq.
    - rewrite !lookup_insert_ne by str_neq. apply lookup_insert_eq.
    - rewrite !lookup_insert_ne by str_neq. apply lookup_insert_eq.
    - rewrite !lookup_insert_ne by str_neq. apply lookup_empty. }
  destruct Hbase as (H1 & H2 & H3 & H4 & H5).
  subst data. destruct (truthy parent_id).
  - unfold getitem, setitem in *.
    rewrite !lookup_insert_ne by str_neq. rewrite lookup_insert_eq. auto.
  - auto.
Qed.

(** X19: with a new title and a new body, the PUT of [update_page] carries
    that title and the body under the given format, as value and
    representation. *)
Theorem update_page_new_content (page_id new_body new_title body_format : str)
    (minor_edit : bool) (current version : gmap str json) (number : Z)
    (tr1 : list event) :
  get_page py_str console self (Some page_id) None None [] = (Return (JDict current), tr1) ->
  getitem current "version" = Some (JDict version) ->
  getitem version "number" = Some (JInt number) ->
  new_body <> [] -> new_title <> [] ->
  exists data rest,
    snd (update_page py_str console self page_id (Some new_body) (Some new_title)
                     body_format minor_edit [])
    = tr1 ++ put_request self page_id data :: rest
    /\ getitem data "title" = Some (JStr new_title)
    /\ getitem data "body"
       = Some (JDict (dict [item body_format
                              (JDict (dict [item "value" (JStr new_body);
                                            item "representation" (JStr body_format)]))])).
Proof.
  intros Hget Hver Hnum Hb Ht. unfold update_page.
  rewrite (bind_Return _ _ _ _ _ Hget).
  unfold py_get at 1. rewrite Hver. unfold bind at 1, ret at 1.
  unfold py_get at 1. rewrite Hnum. unfold bind at 1, ret at 1.
  rewrite !truthy_Some, !or_else_Some by assumption.
  unfold bind at 1, ret at 1. unfold bind at 1, py_add_1, ret at 1.
  set (data := setitem "body" _ _).
  destruct (_request_trace py_str console self (of_string "PUT")
              (of_string "content/" ++ page_id)
              {| params := None; json_arg := Some (JDict data) |} tr1)
    as (rest & E & _).
  exists data, rest. split; [exact E |].
  subst data. unfold getitem, setitem, dict, item. cbn [list_to_map foldr]. split.
  - rewrite !lookup_insert_ne by str_neq. apply lookup_insert_eq.
  - apply lookup_insert_eq.
Qed.

End ConfluenceLookups.

Section ConfluenceDelete.

Import Confluence.

Variable py_str : json -> str.
Variable console : str -> result unit.
Variable new_client : result ConfluenceClient.
Variable confirm : str -> result bool.

Lemma get_client_eq (tr : list event) :
  get_client console new_client tr =
    match new_client with
    | Return client => (Return client, tr)
    | Raise e =>
        if isinstance e Exception
        then match console (of_string "[red]Error:[/red] " ++ exc_str e) with
             | Return _ =>
                 (Raise (mk_exn Exit (of_string "1")),
                  tr ++ [Print (of_string "[red]Error:[/red] " ++ exc_str e)])
             | Raise e' => (Raise e', tr)
             end
        else (Raise e, tr)
    end.
Proof.
  unfold get_client, try_except, ask. destruct new_client as [c | e]; [reflexivity |].
  destruct (isinstance e Exception); [| reflexivity].
  unfold console_print. destruct (console _) as [[] | e']; reflexivity.
Qed.

Lemma not_a_delete_request (self : ConfluenceClient) (page_id url : str)
    (params body : _) rest :
  http_requests rest = [] ->
  HttpRequest (of_string "DELETE") url params body ∉ fetch_request self page_id :: rest.
Proof.
  intros Hr H. apply elem_of_cons in H as [H | H].
  - unfold fetch_request in H. injection H as H _. vm_compute in H. discriminate H.
  - apply (http_requests_none _ _ Hr) in H. discriminate H.
Qed.

(** What [console.print] adds to a trace is no request. *)
Lemma console_print_trace (markup : str) (tr : list event) :
  exists rest,
    snd (console_print console markup tr) = tr ++ rest /\ http_requests rest = [].
Proof.
  unfold console_print. destruct (console markup) as [[] | e].
  - exists [Print markup]. split; reflexivity.
  - exists []. split; [symmetry; apply app_nil_r | reflexivity].
Qed.

(** How a [delete] without [--force] ends: without any DELETE request, or
    with the one of the page, sent right after the fetch once the user has
    agreed. *)
Lemma delete_trace (page_id : str) (tr : list event) :
  tr = snd (delete py_str console new_client confirm page_id false []) ->
  (forall url params body, HttpRequest (of_string "DELETE") url params body ∉ tr)
  \/ exists client page rest,
       new_client = Return client
       /\ get_page py_str console client (Some page_id) None None []
          = (Return (JDict page), [fetch_request client page_id])
       /\ confirm (of_string "Delete page '"
                   ++ py_str (default (JStr (of_string "Unknown")) (getitem page "title"))
                   ++ of_string "' (ID: " ++ page_id ++ of_string ")?")
          = Return true
       /\ tr = fetch_request client page_id :: delete_request client page_id :: rest
       /\ http_requests rest = [].
Proof.
  intros E. unfold delete in E. unfold bind at 1 in E. rewrite get_client_eq in E.
  destruct new_client as [client | e].
  2:{ left. intros url params body H. subst tr.
      destruct (isinstance e Exception); [destruct (console _) as [[] | e'] |];
        cbn [snd] in H; elem_of_trace H. }
  cbn [negb] in E. unfold bind at 1 in E. unfold bind at 1 in E.
  destruct (get_page_by_id_requests py_str console client page_id [])
    as [[-> (e & He)] | (Hid & rest0 & Ht & Hr)].
  { rewrite He in E. cbn [snd] in E. subst tr. left. intros ? ? ? H. inversion H. }
  destruct (get_page py_str console client (Some page_id) None None [])
    as [[page | e] t1] eqn:Eg; cbn [snd app] in Ht; subst t1.
  2:{ cbn [snd] in E. subst tr. left. intros ? ? ? H.
      now apply not_a_delete_request in H. }
  destruct (get_page_by_id_trace _ _ _ _ _ _ Eg) as [_ Et].
  injection Et as ->. clear Hr.
  unfold bind at 1 in E. unfold py_get in E.
  destruct page as [| | | | | d];
    try (unfold raise in E; cbn [snd] in E; subst tr; left; intros ? ? ? H;
         now apply not_a_delete_request in H).
  assert (Ed : (match getitem d (of_string "title") with
                | Some v => ret v
                | None => ret (JStr (of_string "Unknown"))
                end) [fetch_request client page_id]
               = (Return (default (JStr (of_string "Unknown")) (getitem d "title")),
                  [fetch_request client page_id])).
  { destruct (getitem d _); reflexivity. }
  rewrite Ed in E. clear Ed.
  unfold bind at 1 in E. unfold ask in E.
  destruct (confirm _) as [[] | e] eqn:Ec.
  - cbn [negb] in E. unfold ret at 1 in E.
    unfold delete_page in E. unfold bind at 1 in E. unfold bind at 1 in E.
    destruct (_request_trace py_str console client (of_string "DELETE")
                (of_string "content/" ++ page_id)
                {| Confluence.params := None; json_arg := None |}
                [fetch_request client page_id]) as (rest1 & E1 & Hr1).
    cbn [Confluence.params json_arg app] in E1.
    fold (page_url client page_id) in E1. fold (delete_request client page_id) in E1.
    right. exists client, d.
    destruct (_request _ _ _ _ _ _ _) as [[a | e] t2]; cbn [snd] in E1; subst t2.
    + unfold ret in E.
      destruct (console_print_trace (of_string "[green]Deleted:[/green] " ++ page_id)
                  (fetch_request client page_id :: delete_request client page_id
                     :: rest1)) as (rest2 & E2 & Hr2).
      rewrite E2 in E. exists (rest1 ++ rest2).
      split; [reflexivity |]. split; [exact Eg |]. split; [exact Ec |].
      split; [exact E |]. rewrite http_requests_app, Hr1, Hr2. reflexivity.
    + exists rest1.
      split; [reflexivity |]. split; [exact Eg |]. split; [exact Ec |].
      split; [exact E | exact Hr1].
  - cbn [negb] in E. unfold bind at 1 in E.
    destruct (console_print_trace (of_string "Cancelled") [fetch_request client page_id])
      as (rest1 & E1 & Hr1).
    left. intros ? ? ? H. subst tr.
    destruct (console_print console _ _) as [[[] | e] t2]; cbn [snd] in E1; subst t2;
      unfold raise in H; cbn [snd app] in H; now apply not_a_delete_request in H.
  - cbn [snd] in E. subst tr. left. intros ? ? ? H.
    now apply (not_a_delete_request client page_id) in H.
Qed.

(** X20: without [--force], the [delete] command sends a DELETE request only
    when the client has been built, the fetch of the page has returned a page
    and the user has answered yes to the prompt that names the title of that
    page and its id; the DELETE is then the request for this page and comes
    right after the fetch, and no other request follows. *)
Theorem delete_needs_confirmation (page_id url : str)
    (params : option (gmap str json)) (body : option json) :
  HttpRequest (of_string "DELETE") url params body
    ∈ snd (delete py_str console new_client confirm page_id false []) ->
  exists client page rest,
    new_client = Return client
    /\ get_page py_str console client (Some page_id) None None []
       = (Return (JDict page), [fetch_request client page_id])
    /\ confirm (of_string "Delete page '"
                ++ py_str (default (JStr (of_string "Unknown")) (getitem page "title"))
                ++ of_string "' (ID: " ++ page_id ++ of_string ")?")
       = Return true
    /\ HttpRequest (of_string "DELETE") url params body = delete_request client page_id
    /\ snd (delete py_str console new_client confirm page_id false [])
       = fetch_request client page_id :: delete_request client page_id :: rest
    /\ http_requests rest = [].
Proof.
  intros H.
  destruct (delete_trace page_id _ eq_refl)
    as [Hno | (client & page & rest & Hc & Hg & Hy & Et & Hr)].
  { destruct (Hno _ _ _ H). }
  exists client, page, rest.
  split; [exact Hc |]. split; [exact Hg |]. split; [exact Hy |].
  split; [| split; [exact Et | exact Hr]].
  rewrite Et in H.
  apply elem_of_cons in H as [H | H].
  { unfold fetch_request in H. injection H as H _. vm_compute in H. discriminate H. }
  apply elem_of_cons in H as [H | H]; [exact H |].
  apply (http_requests_none _ _ Hr) in H. discriminate H.
Qed.

End ConfluenceDelete.

Lemma delete_needs_confirmation_witness :
  exists client page rest,
    Return ConfluenceSamples.client = Return client
    /\ Confluence.get_page ConfluenceSamples.py_str ConfluenceSamples.console client
         (Some (of_string "123")) None None []
       = (Return (JDict page), [fetch_request client (of_string "123")])
    /\ MoreConfluenceSamples.confirm
         (of_string "Delete page '"
          ++ ConfluenceSamples.py_str
               (default (JStr (of_string "Unknown")) (getitem page "title"))
          ++ of_string "' (ID: " ++ of_string "123" ++ of_string ")?")
       = Return true
    /\ HttpRequest (of_string "DELETE")
         (of_string "https://wiki.example/rest/api/content/123") None None
       = delete_request client (of_string "123")
    /\ snd (Confluence.delete ConfluenceSamples.py_str ConfluenceSamples.console
              (Return ConfluenceSamples.client) MoreConfluenceSamples.confirm
              (of_string "123") false [])
       = fetch_request client (of_string "123")
         :: delete_request client (of_string "123") :: rest
    /\ http_requests rest = [].
Proof.
  apply (delete_needs_confirmation ConfluenceSamples.py_str ConfluenceSamples.console
           (Return ConfluenceSamples.client) MoreConfluenceSamples.confirm
           (of_string "123")
           (of_string "https://wiki.example/rest/api/content/123") None None).
  vm_compute. apply list_elem_of_further, list_elem_of_here.
Defined.

(** ** [ConfluenceClient.__init__] *)

Lemma lstrip_slash_spec (s : str) :
  exists slashes,
    s = slashes ++ Confluence.lstrip_slash s
    /\ Forall (fun c => c = 47%N) slashes
    /\ head (Confluence.lstrip_slash s) <> Some 47%N.
Proof.
  induction s as [| c r (sl & E & Hf & Hh)].
  - exists []. repeat split; [constructor | discriminate].
  - cbn. destruct (N.eqb_spec c 47) as [-> | Hne].
    + exists (47%N :: sl). split; [cbn; congruence |]. split; [now constructor | exact Hh].
    + exists []. split; [reflexivity |]. split; [constructor |].
      cbn. congruence.
Qed.

Lemma rstrip_slash_spec (s : str) :
  exists slashes,
    s = Confluence.rstrip_slash s ++ slashes
    /\ Forall (fun c => c = 47%N) slashes
    /\ last (Confluence.rstrip_slash s) <> Some 47%N.
Proof.
  unfold Confluence.rstrip_slash.
  destruct (lstrip_slash_spec (rev s)) as (sl & E & Hf & Hh).
  exists (rev sl). split; [| split].
  - rewrite <- rev_app_distr, <- E, rev_involutive. reflexivity.
  - apply Forall_forall. intros x Hx. apply list_elem_of_In, in_rev in Hx.
    rewrite Forall_forall in Hf. apply Hf. now apply list_elem_of_In.
  - destruct (Confluence.lstrip_slash (rev s)) as [| c r]; [discriminate |].
    cbn [rev]. rewrite last_snoc. exact Hh.
Qed.

(** X21: the client can be built exactly when [CONFLUENCE_BASE_URL] is more
    than slashes and either [CONFLUENCE_PAT] or both [CONFLUENCE_USERNAME]
    and [CONFLUENCE_PASSWORD] are set; every other configuration is refused
    with [BadParameter]. *)
Theorem init_succeeds_iff (environ_get : str -> option str) :
  ((exists config, Confluence.init environ_get = Return config)
   <-> Confluence.rstrip_slash (default [] (environ_get "CONFLUENCE_BASE_URL")) <> []
       /\ (truthy (environ_get "CONFLUENCE_PAT") = true
           \/ (truthy (environ_get "CONFLUENCE_USERNAME") = true
               /\ truthy (environ_get "CONFLUENCE_PASSWORD") = true)))
  /\ (forall e, Confluence.init environ_get = Raise e -> exc_type e = BadParameter).
Proof.
  unfold Confluence.init.
  destruct (Confluence.rstrip_slash _) as [| c r]; cbn [truthy negb].
  - split; [| intros e [= <-]; reflexivity].
    split; [intros [? [=]] | intros [H _]; congruence].
  - destruct (truthy (environ_get "CONFLUENCE_PAT")).
    + split; [| discriminate]. split; [intros _ | eauto]. split; [discriminate | now left].
    + destruct (truthy (environ_get "CONFLUENCE_USERNAME")),
        (truthy (environ_get "CONFLUENCE_PASSWORD")); cbn [negb orb].
      * split; [| discriminate].
        split; [intros _; split; [discriminate | right; auto] | eauto].
      * split; [| intros e [= <-]; reflexivity].
        split; [intros [? [=]] | intros [_ [H | [_ H]]]; discriminate].
      * split; [| intros e [= <-]; reflexivity].
        split; [intros [? [=]] | intros [_ [H | [H _]]]; discriminate].
      * split; [| intros e [= <-]; reflexivity].
        split; [intros [? [=]] | intros [_ [H | [H _]]]; discriminate].
Qed.

(** X22: a client that has been built has a base URL without a trailing
    slash, which is [CONFLUENCE_BASE_URL] up to trailing slashes, its API root
    is that base URL followed by [/rest/api], and a personal access token,
    when set, is used in preference to user name and password. *)
Theorem init_config (environ_get : str -> option str) (config : Confluence.Config) :
  Confluence.init environ_get = Return config ->
  last (Confluence.base_url config) <> Some 47%N
  /\ (exists slashes,
        default [] (environ_get "CONFLUENCE_BASE_URL")
        = Confluence.base_url config ++ slashes
        /\ Forall (fun c => c = 47%N) slashes)
  /\ Confluence.config_api_url config
     = Confluence.base_url config ++ of_string "/rest/api"
  /\ (truthy (environ_get "CONFLUENCE_PAT") = true ->
      Confluence.auth config
      = Confluence.Bearer (or_else (environ_get "CONFLUENCE_PAT") []))
  /\ (truthy (environ_get "CONFLUENCE_PAT") = false ->
      Confluence.auth config
      = Confluence.Basic (or_else (environ_get "CONFLUENCE_USERNAME") [])
                         (or_else (environ_get "CONFLUENCE_PASSWORD") [])).
Proof.
  unfold Confluence.init.
  destruct (rstrip_slash_spec (default [] (environ_get "CONFLUENCE_BASE_URL")))
    as (sl & E & Hf & Hl).
  destruct (negb (truthy (Some (Confluence.rstrip_slash _)))); [discriminate |].
  destruct (truthy (environ_get "CONFLUENCE_PAT")).
  - intros [= <-]. cbn. repeat split; eauto; discriminate.
  - destruct (_ || _); [discriminate |].
    intros [= <-]. cbn. repeat split; eauto; discriminate.
Qed.

Lemma generate_image_missing_input_witness :
  GenerateImage.generate_image generate_env_without_files (of_string "make it night")
    (Some (of_string "day.png")) None (of_string "16:9") (of_string "2K") []
  = (Raise (mk_exn FileNotFoundError (of_string "Image not found: day.png")), []).
Proof.
  apply (generate_image_missing_input generate_env_without_files
           (of_string "make it night") (of_string "day.png") None
           (of_string "16:9") (of_string "2K") []);
    vm_compute; congruence.
Defined.

(** ** Drive ids, file names and the Google command line *)

Lemma take_id_spec (s : str) :
  exists post,
    s = take_id s ++ post
    /\ Forall (fun c => is_id_char c = true) (take_id s).
Proof.
  induction s as [| c r (post & E & Hf)].
  - exists []. split; [reflexivity | constructor].
  - cbn. destruct (is_id_char c) eqn:Hc.
    + exists post. split; [cbn; congruence | now constructor].
    + exists (c :: r). split; [reflexivity | constructor].
Qed.

Lemma match_here_Some (lit s g : str) :
  match_here lit s = Some g ->
  g <> [] /\ Forall (fun c => is_id_char c = true) g
  /\ exists post, s = lit ++ g ++ post.
Proof.
  unfold match_here. destruct (strip_prefix lit s) as [rest |] eqn:E; [| discriminate].
  apply strip_prefix_Some in E. destruct (take_id_spec rest) as (post & Er & Hf).
  destruct (take_id rest) as [| c r]; [discriminate |].
  intros [= <-]. split; [discriminate |]. split; [exact Hf |].
  exists post. now rewrite E, Er.
Qed.

Lemma re_search_Some (lit s g : str) :
  re_search lit s = Some g ->
  g <> [] /\ Forall (fun c => is_id_char c = true) g
  /\ exists pre post, s = pre ++ lit ++ g ++ post.
Proof.
  induction s as [| b s IH]; cbn [re_search].
  - destruct (match_here lit []) eqn:E; [| discriminate].
    intros [= ->]. apply match_here_Some in E as (H1 & H2 & post & H3).
    split; [exact H1 |]. split; [exact H2 |]. now exists [], post.
  - destruct (match_here lit (b :: s)) eqn:E.
    + intros [= ->]. apply match_here_Some in E as (H1 & H2 & post & H3).
      split; [exact H1 |]. split; [exact H2 |]. now exists [], post.
    + intros H. apply IH in H as (H1 & H2 & pre & post & ->).
      split; [exact H1 |]. split; [exact H2 |]. now exists (b :: pre), post.
Qed.

Lemma first_match_Some (pats : list str) (s g : str) :
  first_match pats s = Some g -> exists lit, lit ∈ pats /\ re_search lit s = Some g.
Proof.
  induction pats as [| lit pats IH]; cbn; [discriminate |].
  destruct (re_search lit s) eqn:E.
  - intros [= ->]. exists lit. split; [left | exact E].
  - intros H. apply IH in H as (l & Hl & H). exists l. split; [now right | exact H].
Qed.

Lemma id_chars_no_slash (g : str) :
  Forall (fun c => is_id_char c = true) g -> 47%N ∉ g.
Proof.
  intros Hf Hin. rewrite Forall_forall in Hf. apply Hf in Hin. discriminate Hin.
Qed.

(** X23: an id that [extract_file_id] hands back is either the input itself
    or a non-empty run of [[a-zA-Z0-9_-]] found in the input right after one
    of the six URL patterns; in both cases it is non-empty and holds no
    slash. *)
Theorem extract_file_id_shape (url_or_id g : str) :
  GoogleWorkspaceConvert.extract_file_id url_or_id = Return g ->
  (g = url_or_id
   \/ (Forall (fun c => is_id_char c = true) g
       /\ exists lit pre post,
            lit ∈ GoogleWorkspaceConvert.patterns
            /\ url_or_id = pre ++ lit ++ g ++ post))
  /\ g <> [] /\ 47%N ∉ g.
Proof.
  unfold GoogleWorkspaceConvert.extract_file_id.
  change (of_string "/") with [47%N].
  pose proof (contains_char url_or_id 47) as Hc.
  destruct (negb (contains url_or_id [47%N]) && (20 <? len url_or_id)) eqn:E.
  - intros [= <-]. apply andb_prop in E as [E1 E2].
    apply negb_true_iff in E1. apply Z.ltb_lt in E2.
    split; [now left |]. split.
    + intros ->. change (len []) with 0 in E2. lia.
    + intros H. apply Hc in H. congruence.
  - destruct (first_match _ url_or_id) as [g' |] eqn:Em; [| discriminate].
    intros [= <-]. apply first_match_Some in Em as (lit & Hl & Hs).
    apply re_search_Some in Hs as (H1 & H2 & pre & post & H3).
    split; [right; split; [exact H2 | now exists lit, pre, post] |].
    split; [exact H1 | now apply id_chars_no_slash].
Qed.

Lemma extract_file_id_shape_witness :
  (of_string "1AbC_d-9"
   = of_string "https://docs.google.com/document/d/1AbC_d-9/edit"
   \/ (Forall (fun c => is_id_char c = true) (of_string "1AbC_d-9")
       /\ exists lit pre post,
            lit ∈ GoogleWorkspaceConvert.patterns
            /\ of_string "https://docs.google.com/document/d/1AbC_d-9/edit"
               = pre ++ lit ++ of_string "1AbC_d-9" ++ post))
  /\ of_string "1AbC_d-9" <> [] /\ 47%N ∉ of_string "1AbC_d-9".
Proof.
  apply (extract_file_id_shape
           (of_string "https://docs.google.com/document/d/1AbC_d-9/edit")
           (of_string "1AbC_d-9")).
  vm_compute. reflexivity.
Defined.

(** X24: [extract_folder_id] never fails: it answers [None] for the empty
    string only, and otherwise the input itself or the non-empty run of
    [[a-zA-Z0-9_-]] that follows [/folders/] in it. *)
Theorem extract_folder_id_total (url_or_id : str) :
  (GoogleWorkspaceConvert.extract_folder_id url_or_id = None <-> url_or_id = [])
  /\ (forall g,
        GoogleWorkspaceConvert.extract_folder_id url_or_id = Some g ->
        g = url_or_id
        \/ (g <> [] /\ Forall (fun c => is_id_char c = true) g
            /\ exists pre post,
                 url_or_id = pre ++ of_string "/folders/" ++ g ++ post)).
Proof.
  unfold GoogleWorkspaceConvert.extract_folder_id.
  destruct url_or_id as [| c r]; cbn [truthy negb].
  - split; [split; reflexivity | discriminate].
  - destruct (_ && _).
    + split; [split; discriminate |]. intros g [= <-]. now left.
    + destruct (re_search _ (c :: r)) as [g' |] eqn:E.
      * split; [split; discriminate |]. intros g [= <-]. right.
        now apply re_search_Some in E.
      * split; [split; discriminate |]. intros g [= <-]. now left.
Qed.

(** X25: the file name derived from a Drive name holds none of the
    characters the pattern excludes (angle brackets, colon, double quote,
    slash, backslash, bar, question mark, star), has the length of the Drive
    name, and is the Drive name itself when that holds none of them;
    sanitising twice changes nothing more. *)
Theorem safe_name_spec (file_name : str) :
  Forall (fun c => GoogleWorkspaceConvert.is_unsafe_char c = false)
         (GoogleWorkspaceConvert.safe_name file_name)
  /\ length (GoogleWorkspaceConvert.safe_name file_name) = length file_name
  /\ (Forall (fun c => GoogleWorkspaceConvert.is_unsafe_char c = false) file_name ->
      GoogleWorkspaceConvert.safe_name file_name = file_name)
  /\ GoogleWorkspaceConvert.safe_name (GoogleWorkspaceConvert.safe_name file_name)
     = GoogleWorkspaceConvert.safe_name file_name.
Proof.
  assert (Hclean : forall l,
             Forall (fun c => GoogleWorkspaceConvert.is_unsafe_char c = false) l ->
             GoogleWorkspaceConvert.safe_name l = l).
  { induction 1 as [| c l Hc _ IH]; [reflexivity |].
    cbn. rewrite Hc. f_equal. exact IH. }
  assert (Hsafe : Forall (fun c => GoogleWorkspaceConvert.is_unsafe_char c = false)
                    (GoogleWorkspaceConvert.safe_name file_name)).
  { induction file_name as [| c l IH]; [constructor |].
    cbn. constructor; [| exact IH].
    destruct (GoogleWorkspaceConvert.is_unsafe_char c) eqn:Hc; [reflexivity | exact Hc]. }
  split; [exact Hsafe |]. split; [apply length_map |].
  split; [apply Hclean | apply Hclean, Hsafe].
Qed.

Lemma endswith_app (s suffix : str) :
  GoogleWorkspaceConvert.endswith (s ++ suffix) suffix = true.
Proof.
  unfold GoogleWorkspaceConvert.endswith, startswith. rewrite rev_app_distr.
  destruct (strip_prefix (rev suffix) (rev suffix ++ rev s)) eqn:E; [reflexivity |].
  assert (H : strip_prefix (rev suffix) (rev suffix ++ rev s) = Some (rev s))
    by now apply strip_prefix_Some.
  congruence.
Qed.

(** X26: the name of the downloaded file always ends with the chosen
    extension, and the extension is not appended to a name that already ends
    with it. *)
Theorem export_name_spec (file_name ext : str) :
  GoogleWorkspaceConvert.endswith (GoogleWorkspaceConvert.export_name file_name ext) ext
  = true
  /\ GoogleWorkspaceConvert.export_name
       (GoogleWorkspaceConvert.export_name file_name ext) ext
     = GoogleWorkspaceConvert.export_name file_name ext
  /\ (GoogleWorkspaceConvert.endswith file_name ext = true ->
      GoogleWorkspaceConvert.export_name file_name ext = file_name).
Proof.
  assert (H : GoogleWorkspaceConvert.endswith
                (GoogleWorkspaceConvert.export_name file_name ext) ext = true).
  { unfold GoogleWorkspaceConvert.export_name.
    destruct (GoogleWorkspaceConvert.endswith file_name ext) eqn:E; cbn [negb].
    - rewrite app_nil_r. exact E.
    - apply endswith_app. }
  split; [exact H |]. split.
  - unfold GoogleWorkspaceConvert.export_name at 1. rewrite H. cbn [negb].
    apply app_nil_r.
  - intros E. unfold GoogleWorkspaceConvert.export_name. rewrite E. apply app_nil_r.
Qed.

Lemma try_finally_Return_inv {A} (body : M A) (cleanup : M unit) tr a tr' :
  try_finally body cleanup tr = (Return a, tr') ->
  exists t1, body tr = (Return a, t1).
Proof.
  unfold try_finally. destruct (body tr) as [[x | e] t1].
  - destruct (cleanup t1) as [[u | e] t2]; intros H; [| discriminate H].
    injection H as <- _. now exists t1.
  - destruct (cleanup t1) as [[u | e'] t2]; intros H; discriminate H.
Qed.



Section GoogleMain.

Import GoogleWorkspaceConvert.

Variable env : GoogleWorkspaceConvert.Env.

(** X27: converting a Drive file that the service account cannot see (the
    API answers with a 404 error) ends with exit code 1 after two lines on
    stderr, the file id and the hint to share the file with the service
    account; nothing is downloaded or written. *)
Theorem to_markdown_file_not_shared (args : Args) (id : str) (e : exn) :
  in_tuple (command args)
    [of_string "to-markdown"; of_string "tomd"; of_string "download"] = true ->
  extract_file_id (input args) = Return id ->
  truthy (environ_get env "GOOGLE_APPLICATION_CREDENTIALS") = true ->
  build_service env (or_else (environ_get env "GOOGLE_APPLICATION_CREDENTIALS") [])
  = Return tt ->
  files_get env id = Raise e ->
  isinstance e Exception = true ->
  contains (exc_str e) "404" = true ->
  sys_exit (main env args)
  = (Exited 1,
     [PrintErr (of_string "File ID: " ++ id);
      PrintErr (of_string "Error: "
                ++ of_string "File not found. Make sure the file is shared with your service account email. "
                ++ of_string "File ID: " ++ id)]).
Proof.
  intros Hc Hid Hcred Hb Hf He H404.
  unfold sys_exit, main. rewrite Hc.
  unfold try_except, convert_workspace_file.
  unfold bind at 1. unfold bind at 1, ask. rewrite Hid.
  unfold bind at 1, print_err, emit, call.
  unfold bind at 1, get_drive_service, ask. rewrite Hcred, Hb. cbn [negb].
  unfold bind at 1, get_file_info, try_except, ask. rewrite Hf, He, H404.
  unfold raise. cbv beta iota. reflexivity.
Qed.


(** X29: a URL returned by [create_gdoc_from_markdown] belongs to a file
    Drive has created: the answer to the upload holds an [id], and the URL is
    the [webViewLink] of the answer or, when the answer has none, the edit URL
    built from the [id]; the upload was given the document name (the stem of
    the Markdown file by default) and the folder, if any, as its parent. *)
Theorem create_gdoc_url (md_path : str) (doc_name folder_id : option str)
    (tr tr' : list event) (url : str) :
  create_gdoc_from_markdown env md_path doc_name folder_id tr = (Return url, tr') ->
  exists metadata docx_path uploaded doc_id,
    files_create env metadata docx_path = Return uploaded
    /\ file_id uploaded = Some doc_id
    /\ url = default (of_string "https://docs.google.com/document/d/" ++ doc_id
                      ++ of_string "/edit")
                     (file_webViewLink uploaded)
    /\ getitem metadata "name"
       = Some (JStr (if negb (truthy doc_name) then path_stem env md_path
                     else or_else doc_name []))
    /\ getitem metadata "parents"
       = if truthy folder_id then Some (JList [JStr (or_else folder_id [])]) else None.
Proof.
  unfold create_gdoc_from_markdown.
  destruct (negb (path_exists env md_path)); [discriminate |].
  intros H.
  apply bind_Return_inv in H as ([] & t1 & _ & H).
  apply bind_Return_inv in H as ([] & t2 & _ & H).
  apply bind_Return_inv in H as ([] & t3 & _ & H).
  apply bind_Return_inv in H as (uploaded & t4 & Hup & H).
  apply try_finally_Return_inv in Hup as (t5 & Hup).
  apply bind_Return_inv in Hup as ([] & t6 & _ & Hup).
  apply bind_Return_inv in Hup as ([] & t7 & _ & Hup).
  apply bind_Return_inv in Hup as ([] & t8 & _ & Hup).
  unfold upload_to_gdoc in Hup. apply ask_Return_inv in Hup as [Hup _].
  apply bind_Return_inv in H as (doc_id & t9 & Hid & H).
  unfold field in Hid. destruct (file_id uploaded) as [i |] eqn:Ei; [| discriminate].
  injection Hid as -> _.
  apply bind_Return_inv in H as ([] & t10 & _ & H).
  injection H as <- _.
  eexists _, _, uploaded, doc_id.
  split; [exact Hup |]. split; [exact Ei |].
  split; [destruct (file_webViewLink uploaded); reflexivity |].
  unfold getitem, setitem, dict, item. cbn [list_to_map foldr].
  destruct (truthy folder_id).
  - split.
    + rewrite lookup_insert_ne by (intros E; vm_compute in E; discriminate E).
      apply lookup_insert_eq.
    + apply lookup_insert_eq.
  - split.
    + apply lookup_insert_eq.
    + rewrite !lookup_insert_ne by (intros E; vm_compute in E; discriminate E).
      apply lookup_empty.
Qed.

End GoogleMain.

Lemma to_markdown_file_not_shared_witness :
  sys_exit (GoogleWorkspaceConvert.main
              (GoogleSamples.env (Some GoogleSamples.credentials)
                 (Raise GoogleSamples.not_shared)
                 (Raise GoogleSamples.not_shared) (Raise Samples.not_found))
              (GoogleSamples.to_markdown (of_string "1BxiMVs0XRA5nFMdKvBdBZjgmUUqptlbs")))
  = (Exited 1,
     [PrintErr (of_string "File ID: " ++ of_string "1BxiMVs0XRA5nFMdKvBdBZjgmUUqptlbs");
      PrintErr (of_string "Error: "
                ++ of_string "File not found. Make sure the file is shared with your service account email. "
                ++ of_string "File ID: " ++ of_string "1BxiMVs0XRA5nFMdKvBdBZjgmUUqptlbs")]).
Proof.
  apply (to_markdown_file_not_shared
           (GoogleSamples.env (Some GoogleSamples.credentials)
              (Raise GoogleSamples.not_shared)
              (Raise GoogleSamples.not_shared) (Raise Samples.not_found))
           (GoogleSamples.to_markdown (of_string "1BxiMVs0XRA5nFMdKvBdBZjgmUUqptlbs"))
           (of_string "1BxiMVs0XRA5nFMdKvBdBZjgmUUqptlbs")
           GoogleSamples.not_shared); vm_compute; reflexivity.
Defined.

Lemma create_gdoc_url_witness :
  exists metadata docx_path uploaded doc_id,
    GoogleWorkspaceConvert.files_create
      (GoogleSamples.env (Some GoogleSamples.credentials)
         (Raise GoogleSamples.not_shared)
         (Return (GoogleSamples.uploaded (Some (of_string "1Zx")) None))
         (Return (MoreSamples.completed 0 [])))
      metadata docx_path = Return uploaded
    /\ GoogleWorkspaceConvert.file_id uploaded = Some doc_id
    /\ of_string "https://docs.google.com/document/d/1Zx/edit"
       = default (of_string "https://docs.google.com/document/d/" ++ doc_id
                  ++ of_string "/edit")
                 (GoogleWorkspaceConvert.file_webViewLink uploaded)
    /\ getitem metadata "name" = Some (JStr (if negb (truthy None)
                                              then of_string "notes" else []))
    /\ getitem metadata "parents" = if truthy None then Some (JList [JStr []]) else None.
Proof.
  eapply (create_gdoc_url
            (GoogleSamples.env (Some GoogleSamples.credentials)
               (Raise GoogleSamples.not_shared)
               (Return (GoogleSamples.uploaded (Some (of_string "1Zx")) None))
               (Return (MoreSamples.completed 0 [])))
            (of_string "notes") None None []).
  vm_compute. reflexivity.
Defined.

(** ** The Confluence properties on the sample servers *)

Lemma request_error_status_witness :
  Confluence._request ConfluenceSamples.py_str ConfluenceSamples.console
    (MoreConfluenceSamples.answering MoreConfluenceSamples.not_found_response)
    (of_string "GET") (of_string "content/999")
    {| Confluence.params := None; Confluence.json_arg := None |} []
  = (Raise (mk_exn Exit (of_string "1")),
     [HttpRequest (of_string "GET")
        (of_string "https://wiki.example/rest/api/content/999") None None;
      Print (of_string "[red]Error:[/red] No content found")])
  /\ Confluence._request ConfluenceSamples.py_str MoreConfluenceSamples.strict_console
       (MoreConfluenceSamples.answering MoreConfluenceSamples.tagged_response)
       (of_string "GET") (of_string "content/999")
       {| Confluence.params := None; Confluence.json_arg := None |} []
     = (Raise MoreConfluenceSamples.markup_error,
        [HttpRequest (of_string "GET")
           (of_string "https://wiki.example/rest/api/content/999") None None]).
Proof.
  split.
  - apply (proj2 (request_error_status ConfluenceSamples.py_str ConfluenceSamples.console
                    (MoreConfluenceSamples.answering
                       MoreConfluenceSamples.not_found_response)
                    (of_string "GET") (of_string "content/999")
                    {| Confluence.params := None; Confluence.json_arg := None |}
                    MoreConfluenceSamples.not_found_response []
                    eq_refl ltac:(vm_compute; split; congruence))
                 (JStr (of_string "No content found"))).
    right. eexists. split; [reflexivity |]. vm_compute. reflexivity.
  - apply (proj2 (request_error_status ConfluenceSamples.py_str
                    MoreConfluenceSamples.strict_console
                    (MoreConfluenceSamples.answering MoreConfluenceSamples.tagged_response)
                    (of_string "GET") (of_string "content/999")
                    {| Confluence.params := None; Confluence.json_arg := None |}
                    MoreConfluenceSamples.tagged_response []
                    eq_refl ltac:(vm_compute; split; congruence))
                 (JStr (of_string "see [/x]"))).
    right. eexists. split; [reflexivity |]. vm_compute. reflexivity.
Defined.

Lemma get_page_by_title_witness :
  Confluence.get_page ConfluenceSamples.py_str ConfluenceSamples.console
    (MoreConfluenceSamples.answering MoreConfluenceSamples.search_response)
    None (Some (of_string "DOCS")) (Some (of_string "Home")) []
  = (Return (JDict ConfluenceSamples.home_page),
     [HttpRequest (of_string "GET") (of_string "https://wiki.example/rest/api/content")
        (Confluence.params (title_query (of_string "DOCS") (of_string "Home"))) None]).
Proof.
  apply (proj1 (get_page_by_title ConfluenceSamples.py_str ConfluenceSamples.console
                  (MoreConfluenceSamples.answering MoreConfluenceSamples.search_response)
                  None (of_string "DOCS") (of_string "Home")
                  MoreConfluenceSamples.search_hits [] _
                  eq_refl ltac:(discriminate) ltac:(discriminate)
                  ltac:(vm_compute; reflexivity))
               (JDict ConfluenceSamples.home_page) [JNull]).
  vm_compute. reflexivity.
Defined.

Lemma update_page_new_content_witness :
  exists data rest,
    snd (Confluence.update_page ConfluenceSamples.py_str ConfluenceSamples.console
           ConfluenceSamples.client
           (of_string "123") (Some (of_string "<p>Hi</p>")) (Some (of_string "Start"))
           (of_string "storage") true [])
    = [fetch_request ConfluenceSamples.client (of_string "123")]
      ++ put_request ConfluenceSamples.client (of_string "123") data :: rest
    /\ getitem data "title" = Some (JStr (of_string "Start"))
    /\ getitem data "body"
       = Some (JDict (dict [item (of_string "storage")
                              (JDict (dict [item "value" (JStr (of_string "<p>Hi</p>"));
                                            item "representation"
                                              (JStr (of_string "storage"))]))])).
Proof.
  apply (update_page_new_content ConfluenceSamples.py_str ConfluenceSamples.console
           ConfluenceSamples.client
           (of_string "123") (of_string "<p>Hi</p>") (of_string "Start")
           (of_string "storage") true ConfluenceSamples.home_page
           (dict [item "number" (JInt 7)]) 7
           [fetch_request ConfluenceSamples.client (of_string "123")]);
    try (vm_compute; reflexivity); discriminate.
Defined.

Lemma init_config_witness :
  exists config,
    Confluence.init MoreConfluenceSamples.environ = Return config
    /\ Confluence.base_url config = of_string "https://wiki.example"
    /\ last (Confluence.base_url config) <> Some 47%N
    /\ Confluence.auth config = Confluence.Bearer (of_string "s3cr3t").
Proof.
  eexists. split; [vm_compute; reflexivity |]. split; [reflexivity |].
  destruct (init_config MoreConfluenceSamples.environ _ eq_refl) as (H1 & _ & _ & H2 & _).
  split; [exact H1 | exact (H2 eq_refl)].
Defined.

(** ** [extract_text_pdftotext] *)

(** X30: [extract_text_pdftotext] runs pdftotext once and prints nothing,
    whatever happens; it returns the text pdftotext wrote exactly when the
    exit code is zero, and a missing pdftotext or a timeout never surfaces as
    an exception. *)
Theorem extract_text_pdftotext_quiet (env : Env) (input_path : str) (tr : list event) :
  snd (extract_text_pdftotext env input_path tr)
  = tr ++ [RunProcess (pdftotext_argv input_path)]
  /\ (forall out,
        fst (extract_text_pdftotext env input_path tr) = Return (Some out)
        <-> exists p, subprocess_run env (pdftotext_argv input_path) = Return p
                      /\ returncode p = 0 /\ stdout p = out)
  /\ (forall e,
        fst (extract_text_pdftotext env input_path tr) = Raise e ->
        isinstance e FileNotFoundError = false
        /\ isinstance e TimeoutExpired = false).
Proof.
  unfold extract_text_pdftotext, try_except, bind, run, call, pdftotext_argv, ret.
  destruct (subprocess_run env _) as [p | e]; cbv beta iota.
  - destruct (Z.eqb_spec (returncode p) 0) as [Hz | Hz]; cbn [fst snd].
    + split; [reflexivity |]. split; [| discriminate].
      intros out. split; [intros [= <-]; now exists p |].
      intros (p' & [= <-] & _ & <-). reflexivity.
    + split; [reflexivity |]. split; [| discriminate].
      intros out. split; [discriminate |].
      intros (p' & [= <-] & Hz' & _). contradiction.
  - destruct (isinstance e FileNotFoundError || isinstance e TimeoutExpired) eqn:Ec;
      cbn [fst snd].
    + split; [reflexivity |]. split; [| discriminate].
      intros out. split; [discriminate | intros (p' & [=] & _)].
    + split; [reflexivity |]. split.
      * intros out. split; [discriminate | intros (p' & [=] & _)].
      * intros e' [= <-]. now apply orb_false_elim in Ec.
Qed.
